(** * char_rbm.sampling: length-constrained annealed Gibbs sampling

    A shallow embedding of [char_rbm/sampling.py] and the properties of
    its scoped bias adjustment ([shrink_model]), its visible-state
    initialisers ([starting_visible_configs]), its sample recorder
    ([print_sample_callback]) and its sampling loop ([sample_model],
    [_sample_model]).

    The source is read as Python 3 ([/] is true division). Python [int]
    is [Z], Python [float] and numpy's [float64] are the binary64
    primitive floats, a numpy array is a shape and its row-major data, a
    [dict] is a [gmap], and code that mutates objects or raises is a
    computation in a state-and-exception monad. *)

From Stdlib Require Import Floats ZArith Lia Bool.
From stdpp Require Import gmap strings list sorting pretty.

Local Open Scope Z_scope.
Local Open Scope nat_scope.
Set Warnings "-inexact-float".

(** ** Exceptions and the state-and-exception monad *)

Inductive exn : Type :=
| AssertionError (msg : string)
| IndexError
| KeyError (key : string)
| TypeError
| AttributeError
| ZeroDivisionError
| OverflowError
| ValueError (msg : string)
| BadInitMethodException (msg : string).

Inductive result (A : Type) : Type :=
| Ok (a : A)
| Raise (e : exn).
Arguments Ok {A} a.
Arguments Raise {A} e.

(** A computation over a mutable store [S]: the store survives a raise,
    with whatever was written to it before. *)
Definition SE (S A : Type) : Type := S -> result A * S.

Definition ret {S A} (a : A) : SE S A := fun s => (Ok a, s).
Definition raise {S A} (e : exn) : SE S A := fun s => (Raise e, s).
Definition bind {S A B} (c : SE S A) (k : A -> SE S B) : SE S B :=
  fun s => match c s with
           | (Ok a, s') => k a s'
           | (Raise e, s') => (Raise e, s')
           end.
Definition get {S} : SE S S := fun s => (Ok s, s).
Definition lift_result {S A} (r : result A) : SE S A := fun s => (r, s).

Declare Scope se_scope.
Delimit Scope se_scope with se.
Notation "x <- c ;; k" := (bind c (fun x => k))
  (at level 63, c at next level, right associativity) : se_scope.
Notation "c ;;; k" := (bind c (fun _ => k))
  (at level 63, right associativity) : se_scope.
Local Open Scope se_scope.

(** [[f(x) for x in xs]] *)
Fixpoint list_comp {S A B} (f : A -> SE S B) (xs : list A) : SE S (list B) :=
  match xs with
  | [] => ret []
  | x :: xs' => y <- f x ;; ys <- list_comp f xs' ;; ret (y :: ys)
  end.

(** [for x in xs: f(x)] with no [break] *)
Fixpoint for_each {S A} (xs : list A) (f : A -> SE S unit) : SE S unit :=
  match xs with
  | [] => ret tt
  | x :: xs' => f x ;;; for_each xs' f
  end.

(** [range(a, b)] over non-negative bounds *)
Definition range (a b : nat) : list nat := seq a (b - a).

(** [enumerate(xs)] *)
Definition enumerate {A} (xs : list A) : list (nat * A) :=
  zip (seq 0 (length xs)) xs.

(** ** The model and its codec *)

Record Codec : Type := {
  maxlen : nat;
  nchars : nat;
  filler : string;
  char_lookup : gmap string nat
}.

Record Model : Type := {
  codec : Codec;
  intercept_visible_ : list float
}.

Definition set_intercept (f : list float -> list float) (m : Model) : Model :=
  {| codec := codec m; intercept_visible_ := f (intercept_visible_ m) |}.

(** [d[k]] on a dict *)
Definition dict_getitem {S} (d : gmap string nat) (k : string) : SE S nat :=
  match d !! k with
  | Some v => ret v
  | None => raise (KeyError k)
  end.

(** [model.intercept_visible_[i]] for a non-negative [i] *)
Definition bias_getitem (i : nat) : SE Model float :=
  fun m => match intercept_visible_ m !! i with
           | Some x => (Ok x, m)
           | None => (Raise IndexError, m)
           end.

(** [model.intercept_visible_[i] = v] *)
Definition bias_setitem (i : nat) (v : float) : SE Model unit :=
  fun m => match intercept_visible_ m !! i with
           | Some _ => (Ok tt, set_intercept <[i := v]> m)
           | None => (Raise IndexError, m)
           end.

(** [model.intercept_visible_[i] += v] *)
Definition bias_iadd (i : nat) (v : float) : SE Model unit :=
  x <- bias_getitem i ;; bias_setitem i (x + v)%float.

Definition BIG_NUMBER : float := 3.0%float.

(** ** [class shrink_model] *)

Module shrink_model.

(** The object holds the two bounds and, once entered, the saved
    biases; [self.model] is the one model of the store. *)
Record obj : Type := {
  min_length : nat;
  max_length : nat;
  prev_biases : list float
}.

(** The two assertions are on Python ints; once they hold the bounds are
    non-negative and are kept as naturals. *)
Definition __init__ (model : Model) (min_length max_length : Z) : result obj :=
  if negb ((1 <=? max_length)%Z && (max_length <=? Z.of_nat (maxlen (codec model)))%Z)
  then Raise (AssertionError "")
  else if negb ((0 <=? min_length)%Z && (min_length <=? Z.of_nat (maxlen (codec model)))%Z)
  then Raise (AssertionError "")
  else Ok {| min_length := Z.to_nat min_length;
             max_length := Z.to_nat max_length;
             prev_biases := [] |}.

Definition __enter__ (self : obj) : SE Model obj :=
  model <- get ;;
  let codec := codec model in
  padidx <- dict_getitem (char_lookup codec) (filler codec) ;;
  prev <- list_comp (fun posn => bias_getitem (nchars codec * posn + padidx))
                    (range 0 (maxlen codec)) ;;
  for_each (range 0 (min_length self))
    (fun posn => bias_iadd (nchars codec * posn + padidx) (-1 * BIG_NUMBER)%float) ;;;
  for_each (range (max_length self) (maxlen codec))
    (fun posn => bias_iadd (nchars codec * posn + padidx) BIG_NUMBER) ;;;
  ret {| min_length := min_length self;
         max_length := max_length self;
         prev_biases := prev |}.

Definition __exit__ (self : obj) : SE Model unit :=
  model <- get ;;
  padidx <- dict_getitem (char_lookup (codec model)) (filler (codec model)) ;;
  for_each (enumerate (prev_biases self))
    (fun '(posn, bias) =>
       model <- get ;;
       bias_setitem (nchars (codec model) * posn + padidx) bias).

End shrink_model.

(** ** Python numbers *)

(** [float(z)] for a Python int: the nearest binary64, [OverflowError]
    when there is none. *)
Definition float_of_int (z : Z) : result float :=
  let f := SF2Prim (binary_normalize prec emax z 0 false) in
  if is_infinity f then Raise OverflowError else Ok f.

(** [x / y] on Python floats *)
Definition float_truediv (x y : float) : result float :=
  if (y =? 0)%float then Raise ZeroDivisionError else Ok (x / y)%float.

(** [a / b] on Python ints. Python rounds the exact quotient once; that
    is the quotient of the two conversions as long as both ints are below
    2^53 in magnitude, which a loop count is. *)
Definition int_truediv (a b : Z) : result float :=
  if (b =? 0)%Z then Raise ZeroDivisionError
  else match float_of_int a, float_of_int b with
       | Ok x, Ok y => Ok (x / y)%float
       | Raise e, _ | _, Raise e => Raise e
       end.

(** [x / n] for a float and an int *)
Definition float_int_truediv (x : float) (n : Z) : result float :=
  match float_of_int n with
  | Ok y => float_truediv x y
  | Raise e => Raise e
  end.

(** The float as an integer, rounded toward zero (0 for what is not
    finite). *)
Definition float_trunc (x : float) : Z :=
  match Prim2SF x with
  | S754_finite s m e => let v := Z.shiftl (Z.pos m) e in if s then (- v)%Z else v
  | _ => 0%Z
  end.

(** [.astype('int8')] on one float: truncation, then the low eight bits
    as a signed byte. *)
Definition astype_int8 (x : float) : Z :=
  ((float_trunc x + 128) mod 256 - 128)%Z.

(** [np.clip(x, lo, hi)] on one float; NaN passes through. *)
Definition clip (x lo hi : float) : float :=
  if (x <? lo)%float then lo else if (hi <? x)%float then hi else x.

(** ** numpy arrays: a shape and the data in row-major order *)

Inductive buffer : Type :=
| Float64 (l : list float)
| Int64 (l : list Z).

Definition buffer_length (b : buffer) : nat :=
  match b with Float64 l => length l | Int64 l => length l end.

Record ndarray : Type := { shape : list nat; data : buffer }.

Definition size_of (shape : list nat) : nat := foldr Nat.mul 1 shape.

Definition np_zeros (shape : list nat) : ndarray :=
  {| shape := shape; data := Float64 (replicate (size_of shape) 0%float) |}.

(** A shape as numpy prints it in its messages: [(5,0)], and [(5,)] for a
    single dimension. An unknown dimension [-1] in front is not printed, and
    then a single dimension that is left has no comma. *)
Definition shape_repr (leading_unknown : bool) (dims : list nat) : string :=
  match dims with
  | [] => "()"
  | d :: ds =>
      "(" +:+ pretty d
          +:+ foldr (fun d' acc => "," +:+ pretty d' +:+ acc)
                (if negb leading_unknown && bool_decide (ds = []) then ",)" else ")") ds
  end.

(** What [reshape] raises when the sizes do not fit *)
Definition reshape_error (size : nat) (leading_unknown : bool) (dims : list nat) : exn :=
  ValueError ("cannot reshape array of size " +:+ pretty size +:+ " into shape "
              +:+ shape_repr leading_unknown dims).

(** [a.reshape(newshape)], all dimensions given *)
Definition np_reshape (a : ndarray) (newshape : list nat) : result ndarray :=
  if decide (size_of newshape = buffer_length (data a))
  then Ok {| shape := newshape; data := data a |}
  else Raise (reshape_error (buffer_length (data a)) false newshape).

(** [a.reshape((-1,) + rest)] *)
Definition np_reshape_infer (a : ndarray) (rest : list nat) : result ndarray :=
  let k := size_of rest in
  let n := buffer_length (data a) in
  if decide (k = 0) then Raise (reshape_error n true rest)
  else if decide (n mod k = 0)
       then Ok {| shape := (n / k) :: rest; data := data a |}
       else Raise (reshape_error n true rest).

(** [np.tile(v, [n, 1])] for a vector [v] *)
Definition np_tile (v : list float) (n : nat) : ndarray :=
  {| shape := [n; length v]; data := Float64 (concat (replicate n v)) |}.

Fixpoint split_rows {A} (k n : nat) (l : list A) : list (list A) :=
  match n with
  | O => []
  | S n' => take k l :: split_rows k n' (drop k l)
  end.

Definition buffer_chunks (k n : nat) (b : buffer) : list buffer :=
  match b with
  | Float64 l => Float64 <$> split_rows k n l
  | Int64 l => Int64 <$> split_rows k n l
  end.

(** [for v in a]: the sub-arrays along the first axis; a 0-d array is
    not iterable. *)
Definition np_iter (a : ndarray) : result (list ndarray) :=
  match shape a with
  | [] => Raise TypeError
  | n :: rest =>
      Ok ((fun b => {| shape := rest; data := b |})
            <$> buffer_chunks (size_of rest) n (data a))
  end.

(** [vis[:, :, fill] = 1] on a float array whose last axis has [k]
    entries *)
Definition set_last_axis (a : ndarray) (k fill : nat) : result ndarray :=
  if decide (fill < k)
  then Ok {| shape := shape a;
             data := match data a with
                     | Float64 l =>
                         Float64 (imap (fun j x => if decide (j mod k = fill)
                                                   then 1%float else x) l)
                     | Int64 l =>
                         Int64 (imap (fun j x => if decide (j mod k = fill)
                                                 then 1%Z else x) l)
                     end |}
  else Raise IndexError.

(** Row [i] of [np.eye(k)] *)
Definition eye_row (k i : nat) : list float :=
  (fun j => if decide (j = i) then 1%float else 0%float) <$> seq 0 k.

(** [np.eye(k)[indices]]: one row per index; a negative index counts from
    the end *)
Fixpoint eye_take (k : nat) (indices : list Z) : result (list float) :=
  match indices with
  | [] => Ok []
  | i :: rest =>
      let i' := if (i <? 0)%Z then (i + Z.of_nat k)%Z else i in
      if ((0 <=? i') && (i' <? Z.of_nat k))%Z
      then match eye_take k rest with
           | Ok l => Ok (eye_row k (Z.to_nat i') ++ l)
           | Raise e => Raise e
           end
      else Raise IndexError
  end.

(** The sum of a slice, left to right *)
Definition np_sum (l : list float) : float := foldl PrimFloat.add 0%float l.

(** ** The store and the collaborators *)

(** One model, shared by everything that runs, and the rest of the world
    (random generator, files, loggers). *)
Record State (W : Type) : Type := { model : Model; ext : W }.
Arguments model {W} s.
Arguments ext {W} s.

Definition on_model {W A} (c : SE Model A) : SE (State W) A :=
  fun st => let '(r, m') := c (model st) in (r, {| model := m'; ext := ext st |}).

Definition on_ext {W A} (c : W -> A * W) : SE (State W) A :=
  fun st => let '(a, w') := c (ext st) in (Ok a, {| model := model st; ext := w' |}).

Definition on_ext_fallible {W A} (c : W -> result A * W) : SE (State W) A :=
  fun st => let '(r, w') := c (ext st) in (r, {| model := model st; ext := w' |}).

(** What the module calls and does not define: the model's transition
    and energy, the codec's decoder, [utils], numpy's random generator,
    the float power and formatting of Python, and the loggers. *)
Class Collaborators (W : Type) : Type := {
  (** [model.gibbs(vis, temp)] *)
  gibbs : Model -> ndarray -> float -> W -> ndarray * W;
  (** [model._free_energy(vis)] *)
  _free_energy : Model -> ndarray -> ndarray;
  (** [codec.decode(v, pretty, strict)] *)
  decode : Codec -> ndarray -> bool -> bool -> string;
  (** [utils.softmax_and_sample(sm)] *)
  softmax_and_sample : ndarray -> W -> result ndarray * W;
  (** [utils.vectors_from_txtfile(fname, codec, limit, mutagen)]; the
      last argument tells whether [codec.mutagen_silhouettes] is passed *)
  vectors_from_txtfile : string -> Codec -> nat -> bool -> W -> result ndarray * W;
  (** [np.random.randint(low, high, size)], the flat draws *)
  randint : Z -> Z -> nat -> W -> list Z * W;
  (** [np.random.randn(n)] *)
  randn : nat -> W -> list float * W;
  (** [x ** y] on floats, where Python gives a float or raises: for a
      base that is not negative, or a whole exponent. (A negative base to a
      fractional power is a complex number in Python 3; what is proved of
      the values of the temperatures excludes that case.) *)
  float_pow : float -> float -> result float;
  (** ['{:.2f}'.format(x)] *)
  format_2f : float -> string;
  (** [logger.debug(text)] for the logger with this handle *)
  logger_debug : nat -> string -> W -> W
}.

(** What numpy and the spec promise of them. *)
Class CollaboratorLaws (W : Type) `{Collaborators W} : Prop := {
  randint_length : forall lo hi n w, length (randint lo hi n w).1 = n;
  randint_range : forall lo hi n w,
    (lo < hi)%Z -> Forall (fun x => (lo <= x < hi)%Z) (randint lo hi n w).1;
  randn_length : forall n w, length (randn n w).1 = n;
  (** Modelled from the spec: [utils.vectors_from_txtfile] is not among
      the sources; the spec has the [train] and [silhouettes] strategies
      draw N rows of codec-encoded examples from it. *)
  vectors_from_txtfile_shape : forall fname c limit mutagen w a w',
    vectors_from_txtfile fname c limit mutagen w = (Ok a, w') ->
    shape a = [limit; maxlen c * nchars c] /\
    buffer_length (data a) = limit * (maxlen c * nchars c)
}.

(** Modelled from the spec: [codec.shape()] is not among the sources; the
    spec reshapes the bias vector per position into alphabet-sized groups. *)
Definition codec_shape (c : Codec) : list nat := [maxlen c; nchars c].

Definition MAX_PROG_SAMPLE_INTERVAL : Z := 10000.

(** The module-level flag; the functions below take the flag's current
    value as their first argument. *)
Definition LINEAR_ANNEAL : Z := 0.

(** ** [starting_visible_configs] *)

Module VisInit.
Inductive t : Type :=
| zeros | biases | uniform | spaces | padding | train | chunks
| silhouettes | uniform_chars.
End VisInit.

(** What a caller may pass as [init_method]: a member of the enum, or
    something else (given by its [str]). *)
Inductive init_arg : Type :=
| Member (v : VisInit.t)
| Other (repr : string).

(** [np.random.randint(low, high, shape)]. numpy answers a request of no
    entry before it looks at the bounds; otherwise an empty range is a
    [ValueError], whose text names [high] alone when [low] is 0. *)
Definition np_random_randint {W} `{Collaborators W} (low high : Z) (shp : list nat)
  : SE (State W) ndarray :=
  if negb (size_of shp =? 0) && (high <=? low)%Z
  then raise (ValueError (if (low =? 0)%Z then "high <= 0" else "low >= high"))
  else l <- on_ext (randint low high (size_of shp)) ;;
       ret {| shape := shp; data := Int64 l |}.

(** [char_indices[i >= lengths] = pad] for [char_indices] of shape
    (n, maxlen) and [lengths] of shape (n, 1): in row [r], every column at
    or past [lengths[r]] *)
Definition mask_fill (maxlen : nat) (lengths : list Z) (pad : Z) (char_indices : list Z)
  : list Z :=
  imap (fun j x =>
          match lengths !! (j / maxlen) with
          | Some len => if (len <=? Z.of_nat (j mod maxlen))%Z then pad else x
          | None => x
          end) char_indices.

(** The sampled lengths of the [chunks] strategy *)
Definition chunk_lengths (maxlen : nat) (draws : list float) : result (list Z) :=
  match float_of_int (Z.of_nat maxlen) with
  | Ok ml =>
      Ok ((fun r => astype_int8 (clip (ml * 0.25 * r + ml * 0.66)%float 1%float ml))
            <$> draws)
  | Raise e => Raise e
  end.

Definition ints_of (a : ndarray) : list Z :=
  match data a with Int64 l => l | Float64 l => float_trunc <$> l end.

(** [n] is a number of rows; [model] is the model of the store. *)
Definition starting_visible_configs {W} `{Collaborators W}
    (init_method : init_arg) (n : nat) (training_examples_fname : option string)
  : SE (State W) ndarray :=
  st <- get ;;
  let model := model st in
  let vis_shape := [n; length (intercept_visible_ model)] in
  let maxlen := maxlen (codec model) in
  let nchars := nchars (codec model) in
  match init_method with
  | Member VisInit.biases =>
      sm <- lift_result (np_reshape_infer (np_tile (intercept_visible_ model) n)
                                          (codec_shape (codec model))) ;;
      sampled <- on_ext_fallible (softmax_and_sample sm) ;;
      lift_result (np_reshape sampled vis_shape)
  | Member VisInit.zeros => ret (np_zeros vis_shape)
  | Member VisInit.uniform => np_random_randint 0 2 vis_shape
  | Member VisInit.spaces | Member VisInit.padding =>
      let fillchar := match init_method with
                      | Member VisInit.spaces => " "
                      | _ => filler (codec model)
                      end in
      let vis := np_zeros (n :: codec_shape (codec model)) in
      fill <- match char_lookup (codec model) !! fillchar with
              | Some fill => ret fill
              | None => raise (BadInitMethodException
                                 (fillchar +:+ " is not in model alphabet"))
              end ;;
      vis <- lift_result (set_last_axis vis nchars fill) ;;
      lift_result (np_reshape vis vis_shape)
  | Member VisInit.train | Member VisInit.silhouettes =>
      match training_examples_fname with
      | None => raise (AssertionError "No training examples provided to initialize with")
      | Some fname =>
          let mutagen := match init_method with
                         | Member VisInit.silhouettes => true
                         | _ => false
                         end in
          on_ext_fallible (vectors_from_txtfile fname (codec model) n mutagen)
      end
  | Member VisInit.chunks | Member VisInit.uniform_chars =>
      char_indices <- np_random_randint 0 (Z.of_nat nchars) [n; maxlen] ;;
      char_indices <-
        match init_method with
        | Member VisInit.chunks =>
            draws <- on_ext (randn n) ;;
            lengths <- lift_result (chunk_lengths maxlen draws) ;;
            pad <- dict_getitem (char_lookup (codec model)) (filler (codec model)) ;;
            ret (mask_fill maxlen lengths (Z.of_nat pad) (ints_of char_indices))
        | _ => ret (ints_of char_indices)
        end ;;
      rows <- lift_result (eye_take nchars char_indices) ;;
      lift_result (np_reshape {| shape := [length char_indices; nchars];
                                 data := Float64 rows |} vis_shape)
  | Other repr => raise (ValueError ("Unrecognized init method: " +:+ repr))
  end.

(** ** Python values and callables *)

Inductive PyVal : Type :=
| PyNone
| PyInt (z : Z)
| PyStr (s : string)
| PyStrList (l : list string)
| PyArray (a : ndarray)
| PyLogger (handle : nat).

(** A callable: how many positional arguments it accepts, and its body.
    A call with another number of arguments is a [TypeError]. *)
Record PyCallable (W : Type) : Type := {
  min_args : nat;
  max_args : nat;
  code : list PyVal -> SE (State W) PyVal
}.
Arguments min_args {W} _.
Arguments max_args {W} _.
Arguments code {W} _ _.

Definition py_call {W} (f : PyCallable W) (args : list PyVal) : SE (State W) PyVal :=
  if decide (min_args f <= length args <= max_args f)
  then code f args
  else raise TypeError.

(** [lambda: None] *)
Definition lambda_none {W} : PyCallable W :=
  {| min_args := 0; max_args := 0; code := fun _ => ret PyNone |}.

Definition floats_of (a : ndarray) : result (list float) :=
  match data a with
  | Float64 l => Ok l
  | Int64 l => list_rect (fun _ => result (list float)) (Ok [])
                 (fun z _ acc => match float_of_int z, acc with
                                 | Ok x, Ok xs => Ok (x :: xs)
                                 | Raise e, _ | _, Raise e => Raise e
                                 end) l
  end.

(** [zip(sample_strings, energy)]: [None] is not iterable. *)
Definition py_zip (sample_strings : list string) (energy : PyVal)
  : result (list (string * float)) :=
  match energy with
  | PyArray a => match floats_of a with
                 | Ok es => Ok (zip sample_strings es)
                 | Raise e => Raise e
                 end
  | _ => Raise TypeError
  end.

(** ["".join(strings)] *)
Definition str_join (strings : list string) : string := foldr String.append "" strings.

(** ** [print_sample_callback] *)

Definition print_sample_callback {W} `{Collaborators W}
    (sample_strings : list string) (i : PyVal) (energy : PyVal) (logger : PyVal)
  : SE (State W) string :=
  text <- match energy with
          | PyNone =>
              pairs <- lift_result (py_zip sample_strings energy) ;;
              ret (str_join ((fun t => t.1 +:+ " " +:+ String (Ascii.ascii_of_nat 9) " "
                                         +:+ format_2f t.2) <$> pairs))
          | _ => ret (str_join sample_strings)
          end ;;
  match logger with
  | PyNone => ret tt
  | PyLogger handle =>
      on_ext (fun w => (tt, logger_debug handle text w))
  | _ => raise AttributeError
  end ;;;
  ret text.

(** The function as the object passed for [callback]:
    [(sample_strings, i, energy=None, logger=None)] *)
Definition print_sample_callback_obj {W} `{Collaborators W} : PyCallable W :=
  {| min_args := 2; max_args := 4;
     code := fun args =>
       match args with
       | PyStrList sample_strings :: i :: rest =>
           text <- print_sample_callback sample_strings i
                     (nth 0 rest PyNone) (nth 1 rest PyNone) ;;
           ret (PyStr text)
       | _ => raise TypeError
       end |}.

(** ** [_sample_model] *)

(** The local variables the loop updates. *)
Module Loop.
Record state : Type := {
  vis : ndarray;
  temp : float;
  next_sample_metaindex : nat;
  samples : list (list string)
}.
End Loop.
Abbreviation loop_state := Loop.state.

Inductive flow : Type := Continue | Break.

(** [temp_decay] and [temp_delta], in the order the source computes them *)
Definition schedule {W} `{Collaborators W} (start_temp final_temp : float) (iters : Z)
  : result (float * float) :=
  match float_truediv final_temp start_temp with
  | Raise e => Raise e
  | Ok ratio =>
      match int_truediv 1 iters with
      | Raise e => Raise e
      | Ok exponent =>
          match float_pow ratio exponent with
          | Raise e => Raise e
          | Ok temp_decay =>
              match float_int_truediv (final_temp - start_temp)%float iters with
              | Raise e => Raise e
              | Ok temp_delta => Ok (temp_decay, temp_delta)
              end
          end
      end
  end.

(** [l[i]] on a list, for a non-negative [i] *)
Definition list_getitem {S A} (l : list A) (i : nat) : SE S A :=
  match l !! i with
  | Some x => ret x
  | None => raise IndexError
  end.

(** [l[-1]] *)
Definition list_last {S A} (l : list A) : SE S A :=
  match last l with
  | Some x => ret x
  | None => raise IndexError
  end.

(** [range(n)] for a Python int *)
Definition range_int (n : Z) : list Z := Z.of_nat <$> seq 0 (Z.to_nat n).

Section SamplingLoop.
Context {W : Type} `{Collaborators W}.
Variable linear_anneal : Z.
Variable sample_iter_indices : list Z.
Variable callback : PyCallable W.
Variable sample_energy : bool.
Variables temp_decay temp_delta : float.

(** The part of the loop body under [if i == ...]: it tells whether the
    body goes on to the transition or breaks. *)
Definition take_samples (i : Z) (s : loop_state) : SE (State W) (flow * loop_state) :=
  st <- get ;;
  rows <- lift_result (np_iter (Loop.vis s)) ;;
  let sample_strings :=
    (fun v => decode (codec (model st)) v true false) <$> rows in
  (if sample_energy
   then st <- get ;;
        let energy := _free_energy (model st) (Loop.vis s) in
        py_call callback [PyStrList sample_strings; PyInt i; PyArray energy]
   else py_call callback [PyStrList sample_strings; PyInt i]) ;;;
  let s' := {| Loop.vis := Loop.vis s; Loop.temp := Loop.temp s;
               Loop.next_sample_metaindex := Loop.next_sample_metaindex s + 1;
               Loop.samples := Loop.samples s ++ [sample_strings] |} in
  if decide (Loop.next_sample_metaindex s' = length sample_iter_indices)
  then ret (Break, s')
  else ret (Continue, s').

(** The two statements that end the loop body *)
Definition transition (s : loop_state) : SE (State W) loop_state :=
  st <- get ;;
  vis' <- on_ext (gibbs (model st) (Loop.vis s) (Loop.temp s)) ;;
  ret {| Loop.vis := vis';
         Loop.temp := if decide (linear_anneal <> 0%Z)
                      then (Loop.temp s + temp_delta)%float
                      else (Loop.temp s * temp_decay)%float;
         Loop.next_sample_metaindex := Loop.next_sample_metaindex s;
         Loop.samples := Loop.samples s |}.

Definition loop_body (i : Z) (s : loop_state) : SE (State W) (flow * loop_state) :=
  pending <- list_getitem sample_iter_indices (Loop.next_sample_metaindex s) ;;
  r <- (if decide (i = pending) then take_samples i s else ret (Continue, s)) ;;
  match r with
  | (Break, s') => ret (Break, s')
  | (Continue, s') => s'' <- transition s' ;; ret (Continue, s'')
  end.

(** [for i in ...: body], where the body may [break] *)
Fixpoint for_loop (indices : list Z) (s : loop_state) : SE (State W) (flow * loop_state) :=
  match indices with
  | [] => ret (Continue, s)
  | i :: rest =>
      r <- loop_body i s ;;
      match r with
      | (Break, s') => ret (Break, s')
      | (Continue, s') => for_loop rest s'
      end
  end.
End SamplingLoop.

Definition _sample_model {W} `{Collaborators W} (linear_anneal : Z)
    (vis : ndarray) (iters : Z) (sample_iter_indices : list Z)
    (start_temp final_temp : float) (callback : PyCallable W) (sample_energy : bool)
  : SE (State W) (ndarray * list string) :=
  consts <- lift_result (schedule start_temp final_temp iters) ;;
  r <- for_loop linear_anneal sample_iter_indices callback sample_energy
         consts.1 consts.2 (range_int iters)
         {| Loop.vis := vis; Loop.temp := start_temp;
            Loop.next_sample_metaindex := 0; Loop.samples := [] |} ;;
  last_samples <- list_last (Loop.samples r.2) ;;
  ret (Loop.vis r.2, last_samples).

(** ** [sample_model] *)

(** [with mgr: body], for a manager whose [__exit__] returns [None]: the
    body's outcome, value or exception, is the outcome of the statement
    unless [__exit__] itself raises; [__exit__] is not run when
    [__enter__] raises. *)
Definition with_ {W A} (mgr : shrink_model.obj) (body : SE (State W) A)
  : SE (State W) A :=
  fun st =>
    match on_model (shrink_model.__enter__ mgr) st with
    | (Raise e, st1) => (Raise e, st1)
    | (Ok mgr', st1) =>
        let '(r, st2) := body st1 in
        match on_model (shrink_model.__exit__ mgr') st2 with
        | (Raise e, st3) => (Raise e, st3)
        | (Ok _, st3) => (r, st3)
        end
    end.

(** [with shrink_model(model, min_length, max_length): body] *)
Definition with_shrink_model {W A} (min_length max_length : Z) (body : SE (State W) A)
  : SE (State W) A :=
  st <- get ;;
  mgr <- lift_result (shrink_model.__init__ (model st) min_length max_length) ;;
  with_ mgr body.

(** [callback] is [None] or a callable; the [utils.timeit] decorator only
    measures the call and is left out. *)
Definition sample_model {W} `{Collaborators W} (linear_anneal : Z)
    (n : nat) (iters : Z) (sample_iter_indices : list Z)
    (start_temp final_temp : float) (callback : option (PyCallable W))
    (init_method : init_arg) (training_examples : option string)
    (sample_energy : bool) (starting_vis : option ndarray)
    (min_length max_length : Z)
  : SE (State W) (ndarray * list string) :=
  let callback := match callback with
                  | None => lambda_none
                  | Some f => f
                  end in
  vis <- match starting_vis with
         | Some v => ret v
         | None => starting_visible_configs init_method n training_examples
         end ;;
  let run := _sample_model linear_anneal vis iters sample_iter_indices
               start_temp final_temp callback sample_energy in
  if negb (min_length =? 0)%Z || negb (max_length =? 0)%Z
  then st <- get ;;
       let max_length := if (max_length =? 0)%Z
                         then Z.of_nat (maxlen (codec (model st)))
                         else max_length in
       with_shrink_model min_length max_length run
  else run.

(** ** Notions the statements use *)

(** Where the bias of the padding symbol at position [posn] stands in the
    bias vector. *)
Definition pad_index (c : Codec) (padidx posn : nat) : nat := nchars c * posn + padidx.

(** The codec's filler is symbol number [padidx] of the alphabet and the
    bias vector has one entry per position and symbol. *)
Definition wf_model (m : Model) (padidx : nat) : Prop :=
  char_lookup (codec m) !! filler (codec m) = Some padidx /\
  padidx < nchars (codec m) /\
  length (intercept_visible_ m) = maxlen (codec m) * nchars (codec m).

(** The bias of the padding symbol at [posn] once the scope is entered:
    the first loop's subtraction, then the second loop's addition. *)
Definition entered_bias (self : shrink_model.obj) (posn : nat) (x : float) : float :=
  let x1 := if decide (posn < shrink_model.min_length self)
            then (x + (-1 * BIG_NUMBER))%float else x in
  if decide (shrink_model.max_length self <= posn)
  then (x1 + BIG_NUMBER)%float else x1.

(** Every position of each of the [n] rows holds a group of [nchars]
    floats that sums to exactly one. *)
Definition one_hot_rows (n maxlen nchars : nat) (a : ndarray) : Prop :=
  exists l,
    data a = Float64 l /\
    forall row posn, row < n -> posn < maxlen ->
      np_sum (take nchars (drop ((row * maxlen + posn) * nchars) l)) = 1%float.

Definition one_hot_strategy (init_method : init_arg) : Prop :=
  init_method = Member VisInit.spaces \/ init_method = Member VisInit.padding \/
  init_method = Member VisInit.chunks \/ init_method = Member VisInit.uniform_chars.

(** The loop's variables and the store after the two statements that end
    the loop body: the batch is the transition's output at the current
    temperature and the temperature has moved one step. *)
Definition after_transition {W : Type} `{Collaborators W}
    (linear_anneal : Z) (temp_decay temp_delta : float)
    (s : loop_state) (st : State W) : loop_state * State W :=
  let next := gibbs (model st) (Loop.vis s) (Loop.temp s) (ext st) in
  ({| Loop.vis := next.1;
      Loop.temp := if decide (linear_anneal <> 0%Z)
                   then (Loop.temp s + temp_delta)%float
                   else (Loop.temp s * temp_decay)%float;
      Loop.next_sample_metaindex := Loop.next_sample_metaindex s;
      Loop.samples := Loop.samples s |},
   {| model := model st; ext := next.2 |}).

(** The loop's variables once a batch of strings is recorded. *)
Definition recorded (s : loop_state) (sample_strings : list string) : loop_state :=
  {| Loop.vis := Loop.vis s;
     Loop.temp := Loop.temp s;
     Loop.next_sample_metaindex := Loop.next_sample_metaindex s + 1;
     Loop.samples := Loop.samples s ++ [sample_strings] |}.

(** The arguments the loop hands to the callback. *)
Definition callback_args {W : Type} `{Collaborators W} (sample_energy : bool)
    (st : State W) (s : loop_state) (sample_strings : list string) (i : Z)
  : list PyVal :=
  if sample_energy
  then [PyStrList sample_strings; PyInt i; PyArray (_free_energy (model st) (Loop.vis s))]
  else [PyStrList sample_strings; PyInt i].

(** The loop's variables on entry. *)
Definition initial (vis : ndarray) (start_temp : float) : loop_state :=
  {| Loop.vis := vis; Loop.temp := start_temp;
     Loop.next_sample_metaindex := 0; Loop.samples := [] |}.

(** The exceptions with which the module itself rejects its arguments. *)
Definition configuration_error (e : exn) : bool :=
  match e with
  | AssertionError _ | ValueError _ | BadInitMethodException _ => true
  | _ => false
  end.

(** ** A small concrete setting

    Five positions over the alphabet a, b, c and the filler, all biases
    zero; a world that records the temperature of every transition and
    every logged text. *)

Module Demo.

Definition codec0 : Codec :=
  {| maxlen := 5; nchars := 4; filler := "$";
     char_lookup := {[ "a" := 0; "b" := 1; "c" := 2; "$" := 3 ]} |}.

Definition model0 : Model :=
  {| codec := codec0; intercept_visible_ := replicate 20 0%float |}.

Inductive event : Type :=
| Gibbs (temp : float)
| Logged (handle : nat) (text : string).

Definition world : Type := list event.

Definition state0 : State world := {| model := model0; ext := [] |}.

(** Python's [**] at the few arguments used below; this stand-in
    refuses the others. *)
Definition pow_table (x y : float) : result float :=
  if (x =? 1)%float then Ok 1%float
  else if (y =? 0)%float then Ok 1%float
  else if ((x =? 2) && (y =? 0.1))%float then Ok 1.0717734625362931%float
  else Raise OverflowError.

#[global] Instance collaborators : Collaborators world := {|
  gibbs := fun _ v t w =>
    ({| shape := shape v;
        data := match data v with
                | Float64 l => Float64 ((fun x => (1 - x)%float) <$> l)
                | Int64 l => Int64 ((fun z => (1 - z)%Z) <$> l)
                end |}, w ++ [Gibbs t]);
  _free_energy := fun _ v => np_zeros (take 1 (shape v));
  decode := fun _ v _ _ =>
    match data v with
    | Float64 l => str_join ((fun x => if (x =? 0)%float then "." else "#") <$> l)
    | Int64 l => str_join ((fun z => if (z =? 0)%Z then "." else "#") <$> l)
    end;
  softmax_and_sample := fun a w => (Ok a, w);
  vectors_from_txtfile := fun _ c limit _ w =>
    (Ok (np_zeros [limit; maxlen c * nchars c]), w);
  randint := fun lo _ n w => (replicate n lo, w);
  randn := fun n w => (replicate n 0%float, w);
  float_pow := pow_table;
  format_2f := fun _ => "0.00";
  logger_debug := fun handle text w => w ++ [Logged handle text]
|}.

(** The same model with a filler that its alphabet does not have. *)
Definition model_without_filler : Model :=
  {| codec := {| maxlen := 5; nchars := 4; filler := "_";
                 char_lookup := {[ "a" := 0; "b" := 1; "c" := 2; "$" := 3 ]} |};
     intercept_visible_ := replicate 20 0%float |}.

Definition state_without_filler : State world :=
  {| model := model_without_filler; ext := [] |}.

(** A callback that keeps the strings it is given. *)
Definition keep_strings : PyCallable world :=
  {| min_args := 2; max_args := 3;
     code := fun args =>
       match args with
       | PyStrList l :: _ =>
           on_ext (fun w => (PyNone, w ++ [Logged 0 (str_join l)]))
       | _ => raise TypeError
       end |}.

(** Two rows of zeros, and the same after one transition. *)
Definition vis0 : ndarray := np_zeros [2; 20].
Definition vis1 : ndarray :=
  {| shape := [2; 20]; data := Float64 (replicate 40 1%float) |}.

Definition row0 : ndarray :=
  {| shape := [20]; data := Float64 (replicate 20 0%float) |}.

Definition dots : string := "....................".

(** A block that overwrites every bias and then fails. *)
Definition clobber_and_fail : SE (State world) unit :=
  fun st => (Raise (ValueError "boom"),
             {| model := set_intercept (fmap (fun _ => 7%float)) (model st);
                ext := ext st |}).

End Demo.

(** ** Further notions *)

(** A computation that never leaves the model of the store changed. *)
Definition model_frame {W A : Type} (c : SE (State W) A) : Prop :=
  forall st, model (c st).2 = model st.

(** The same, asked only of stores whose model is well formed. *)
Definition keeps_model {W A : Type} (padidx : nat) (c : SE (State W) A) : Prop :=
  forall st, wf_model (model st) padidx -> model (c st).2 = model st.

(** The group of [nchars] entries that row [row] holds for position
    [posn], in the flat data of a batch. *)
Definition position_slice (maxlen nchars : nat) (l : list float) (row posn : nat)
  : list float :=
  take nchars (drop ((row * maxlen + posn) * nchars) l).

(** [k] transitions in a row, from the loop's variables [s] and the store
    [st]: what [k] iterations of the loop do when none is a checkpoint. *)
Definition transitions {W : Type} `{Collaborators W}
    (linear_anneal : Z) (temp_decay temp_delta : float) (k : nat)
    (s : loop_state) (st : State W) : loop_state * State W :=
  Nat.iter k (fun p => after_transition linear_anneal temp_decay temp_delta p.1 p.2) (s, st).

(** The temperature after one more transition. *)
Definition next_temp (linear_anneal : Z) (temp_decay temp_delta : float) (t : float) : float :=
  if decide (linear_anneal <> 0%Z) then (t + temp_delta)%float else (t * temp_decay)%float.

(** The callback returns on whatever the loop hands it, and keeps the
    model. *)
Definition callback_returns {W : Type} `{Collaborators W}
    (callback : PyCallable W) (sample_energy : bool) : Prop :=
  forall st s sample_strings i,
    exists r st1,
      py_call callback (callback_args sample_energy st s sample_strings i) st = (Ok r, st1) /\
      model st1 = model st.

(** The transition maps batches to batches: what it returns has a first
    axis to iterate over. *)
Definition gibbs_batches {W : Type} `{Collaborators W} : Prop :=
  forall m v t w, shape v <> [] -> shape (gibbs m v t w).1 <> [].

(** * Properties *)

(** The concrete collaborators keep the promises. *)
#[global] Instance demo_laws : CollaboratorLaws Demo.world.
Proof.
  split; simpl.
  - intros. apply length_replicate.
  - intros lo hi n w Hlt. apply Forall_replicate. lia.
  - intros. apply length_replicate.
  - intros fname c limit mutagen w a w' [= <- _]. split; [reflexivity|].
    simpl. rewrite length_replicate. lia.
Qed.

(** ** The monad *)

Lemma bind_ok {S A B} (c : SE S A) (k : A -> SE S B) s a s' :
  c s = (Ok a, s') -> bind c k s = k a s'.
Proof. unfold bind. by intros ->. Qed.

Lemma bind_raise {S A B} (c : SE S A) (k : A -> SE S B) s e s' :
  c s = (Raise e, s') -> bind c k s = (Raise e, s').
Proof. unfold bind. by intros ->. Qed.

Lemma add_neg_big (x : float) : (x + (-1 * BIG_NUMBER) = x - BIG_NUMBER)%float.
Proof.
  apply Prim2SF_inj. rewrite add_spec, sub_spec.
  destruct (Prim2SF x); reflexivity.
Qed.

(** ** Reasoning about the bias loops *)

Lemma bias_getitem_ok m i x :
  intercept_visible_ m !! i = Some x -> bias_getitem i m = (Ok x, m).
Proof. unfold bias_getitem. by intros ->. Qed.

Lemma bias_setitem_ok m i v :
  i < length (intercept_visible_ m) ->
  bias_setitem i v m = (Ok tt, set_intercept <[i := v]> m).
Proof.
  intros [x Hx]%lookup_lt_is_Some_2. unfold bias_setitem. by rewrite Hx.
Qed.

Lemma bias_iadd_ok m i x v :
  intercept_visible_ m !! i = Some x ->
  bias_iadd i v m = (Ok tt, set_intercept <[i := (x + v)%float]> m).
Proof.
  intros Hx. unfold bias_iadd. rewrite (bind_ok _ _ _ _ _ (bias_getitem_ok _ _ _ Hx)).
  apply bias_setitem_ok. by eapply lookup_lt_Some.
Qed.

Lemma pad_index_lt c padidx posn :
  padidx < nchars c -> posn < maxlen c -> pad_index c padidx posn < maxlen c * nchars c.
Proof. unfold pad_index. nia. Qed.

Lemma pad_index_inj c padidx p q :
  padidx < nchars c -> pad_index c padidx p = pad_index c padidx q -> p = q.
Proof. unfold pad_index. nia. Qed.

Lemma list_comp_getitem (m : Model) (idx : nat -> nat) (posns : list nat) :
  Forall (fun p => idx p < length (intercept_visible_ m)) posns ->
  exists prev,
    list_comp (fun p => bias_getitem (idx p)) posns m = (Ok prev, m) /\
    length prev = length posns /\
    forall k p, posns !! k = Some p -> prev !! k = intercept_visible_ m !! idx p.
Proof.
  induction 1 as [|p posns Hp _ IH]; simpl.
  - exists []. split; [reflexivity|]. split; [reflexivity|]. intros k p Hk. by destruct k.
  - destruct IH as (prev & Hrun & Hlen & Hget).
    destruct (lookup_lt_is_Some_2 _ _ Hp) as [x Hx].
    exists (x :: prev).
    rewrite (bind_ok _ _ _ _ _ (bias_getitem_ok _ _ _ Hx)).
    rewrite (bind_ok _ _ _ _ _ Hrun). unfold ret.
    split; [reflexivity|]. split; [simpl; congruence|].
    intros [|k] q Hk; simpl in *; [by simplify_eq | by apply Hget].
Qed.

(** What a loop of [+= v] over distinct in-range entries leaves behind. *)
Lemma for_each_iadd (idx : nat -> nat) (v : float) (posns : list nat) (m : Model) :
  Forall (fun p => idx p < length (intercept_visible_ m)) posns ->
  NoDup posns ->
  (forall p q, idx p = idx q -> p = q) ->
  exists b,
    for_each posns (fun p => bias_iadd (idx p) v) m
      = (Ok tt, {| codec := codec m; intercept_visible_ := b |}) /\
    length b = length (intercept_visible_ m) /\
    (forall p, p ∈ posns ->
       b !! idx p = (fun x => (x + v)%float) <$> intercept_visible_ m !! idx p) /\
    (forall j, (forall p, p ∈ posns -> j <> idx p) -> b !! j = intercept_visible_ m !! j).
Proof.
  intros Hin Hnd Hinj. revert m Hin.
  induction Hnd as [|p posns Hnotin Hnd IH]; intros m Hin.
  - exists (intercept_visible_ m). simpl. unfold ret. destruct m; simpl.
    split; [reflexivity|]. split; [reflexivity|]. split; [|done].
    intros p Hp. by apply elem_of_nil in Hp.
  - apply Forall_cons in Hin as [Hp Hin].
    destruct (lookup_lt_is_Some_2 _ _ Hp) as [x Hx].
    set (m1 := set_intercept <[idx p := (x + v)%float]> m).
    destruct (IH m1) as (b & Hrun & Hlen & Hhit & Hmiss).
    { subst m1; simpl. by rewrite length_insert. }
    exists b. simpl.
    rewrite (bind_ok _ _ _ _ _ (bias_iadd_ok _ _ _ v Hx)). fold m1.
    rewrite Hrun. subst m1; simpl in *.
    split; [reflexivity|]. split; [by rewrite Hlen, length_insert|]. split.
    + intros q Hq. apply elem_of_cons in Hq as [->|Hq].
      * rewrite Hmiss, list_lookup_insert_eq, Hx by (try done; intros q Hq ->%Hinj; done).
        reflexivity.
      * rewrite Hhit by done. rewrite list_lookup_insert_ne; [done|].
        intros ->%Hinj. done.
    + intros j Hj. rewrite Hmiss.
      * rewrite list_lookup_insert_ne; [done|]. intros <-. eapply Hj; [|done]. by left.
      * intros q Hq. apply Hj. by right.
Qed.

(** What the write-back loop of [__exit__] leaves behind. *)
Lemma for_each_setitem (padidx : nat) (vs : list float) (a : nat) (m : Model) :
  padidx < nchars (codec m) ->
  (forall p, a <= p < a + length vs ->
             pad_index (codec m) padidx p < length (intercept_visible_ m)) ->
  exists b,
    for_each (zip (seq a (length vs)) vs)
      (fun '(posn, bias) =>
         model <- get ;;
         bias_setitem (nchars (codec model) * posn + padidx) bias) m
      = (Ok tt, {| codec := codec m; intercept_visible_ := b |}) /\
    length b = length (intercept_visible_ m) /\
    (forall k v, vs !! k = Some v -> b !! pad_index (codec m) padidx (a + k) = Some v) /\
    (forall j, (forall p, a <= p < a + length vs -> j <> pad_index (codec m) padidx p) ->
               b !! j = intercept_visible_ m !! j).
Proof.
  intros Hpad. revert a m Hpad.
  induction vs as [|v vs IH]; intros a m Hpad Hin; simpl.
  - exists (intercept_visible_ m). unfold ret. destruct m; simpl.
    split; [reflexivity|]. split; [reflexivity|]. split; [|done].
    intros k v Hk. by destruct k.
  - set (m1 := set_intercept <[pad_index (codec m) padidx a := v]> m).
    destruct (IH (S a) m1 Hpad) as (b & Hrun & Hlen & Hhit & Hmiss).
    { intros p Hp. subst m1; simpl. rewrite length_insert. apply Hin. simpl. lia. }
    exists b.
    assert (Hstep : bind get (fun model : Model =>
                bias_setitem (nchars (codec model) * a + padidx) v) m = (Ok tt, m1)).
    { unfold bind, get. apply bias_setitem_ok. apply (Hin a). simpl. lia. }
    rewrite (bind_ok _ _ _ _ _ Hstep), Hrun. subst m1; simpl in *.
    split; [reflexivity|]. split; [by rewrite Hlen, length_insert|]. split.
    + intros [|k] w Hk; simpl in Hk.
      * simplify_eq. rewrite Nat.add_0_r, Hmiss.
        -- apply list_lookup_insert_eq. apply (Hin a). lia.
        -- intros p Hp Heq%pad_index_inj; [lia|done].
      * replace (a + S k) with (S a + k) by lia. by apply Hhit.
    + intros j Hj. rewrite Hmiss.
      * apply list_lookup_insert_ne. intros <-. apply (Hj a); [lia|done].
      * intros p Hp. apply Hj. lia.
Qed.

Lemma not_pad_index c padidx j p :
  padidx < nchars c -> j mod nchars c <> padidx -> j <> pad_index c padidx p.
Proof.
  intros Hpad Hj ->. apply Hj. unfold pad_index.
  rewrite Nat.add_comm, Nat.mul_comm, Nat.Div0.mod_add. by apply Nat.mod_small.
Qed.

Lemma enter_spec (self : shrink_model.obj) (m : Model) (padidx : nat) :
  wf_model m padidx ->
  shrink_model.min_length self <= maxlen (codec m) ->
  exists prev b,
    shrink_model.__enter__ self m
      = (Ok {| shrink_model.min_length := shrink_model.min_length self;
               shrink_model.max_length := shrink_model.max_length self;
               shrink_model.prev_biases := prev |},
         {| codec := codec m; intercept_visible_ := b |}) /\
    length prev = maxlen (codec m) /\
    length b = length (intercept_visible_ m) /\
    (forall posn, posn < maxlen (codec m) ->
       prev !! posn = intercept_visible_ m !! pad_index (codec m) padidx posn /\
       b !! pad_index (codec m) padidx posn
         = entered_bias self posn <$> intercept_visible_ m !! pad_index (codec m) padidx posn) /\
    (forall j, j mod nchars (codec m) <> padidx -> b !! j = intercept_visible_ m !! j).
Proof.
  intros (Hlook & Hpad & Hlen) Hmin.
  assert (Hrange : forall p, p < maxlen (codec m) ->
            pad_index (codec m) padidx p < length (intercept_visible_ m)).
  { intros p Hp. rewrite Hlen. by apply pad_index_lt. }
  destruct (list_comp_getitem m (pad_index (codec m) padidx) (range 0 (maxlen (codec m))))
    as (prev & Hprev & Hplen & Hpget).
  { apply Forall_forall. intros p [_ Hp]%elem_of_seq. apply Hrange. lia. }
  destruct (for_each_iadd (pad_index (codec m) padidx) (-1 * BIG_NUMBER)%float
              (range 0 (shrink_model.min_length self)) m)
    as (b1 & Hrun1 & Hlen1 & Hhit1 & Hmiss1).
  { apply Forall_forall. intros p [_ Hp]%elem_of_seq. apply Hrange. lia. }
  { apply NoDup_seq. }
  { intros p q. by apply pad_index_inj. }
  set (m1 := {| codec := codec m; intercept_visible_ := b1 |}) in *.
  destruct (for_each_iadd (pad_index (codec m) padidx) BIG_NUMBER
              (range (shrink_model.max_length self) (maxlen (codec m))) m1)
    as (b2 & Hrun2 & Hlen2 & Hhit2 & Hmiss2).
  { apply Forall_forall. intros p [Hp1 Hp2]%elem_of_seq. simpl. rewrite Hlen1.
    apply Hrange. lia. }
  { apply NoDup_seq. }
  { intros p q. by apply pad_index_inj. }
  exists prev, b2. unfold shrink_model.__enter__.
  rewrite (bind_ok get _ m m m eq_refl).
  unfold dict_getitem at 1. rewrite Hlook.
  rewrite (bind_ok (ret padidx) _ m padidx m eq_refl).
  fold (pad_index (codec m) padidx) in *.
  rewrite (bind_ok _ _ _ _ _ Hprev), (bind_ok _ _ _ _ _ Hrun1), (bind_ok _ _ _ _ _ Hrun2).
  unfold ret. simpl in *.
  split; [reflexivity|]. unfold range in Hplen. rewrite length_seq in Hplen.
  split; [lia|]. split; [congruence|]. split.
  - intros posn Hposn. split.
    + apply Hpget. unfold range. rewrite lookup_seq. split; lia.
    + unfold entered_bias.
      destruct (decide (shrink_model.max_length self <= posn)) as [Hmax|Hmax].
      * rewrite Hhit2 by (apply elem_of_seq; lia).
        destruct (decide (posn < shrink_model.min_length self)) as [Hlt|Hlt].
        -- rewrite Hhit1 by (apply elem_of_seq; lia).
           by destruct (intercept_visible_ m !! _).
        -- rewrite Hmiss1; [done|].
           intros p [_ Hp]%elem_of_seq Heq%pad_index_inj; [lia|done].
      * rewrite Hmiss2
          by (intros p [Hp1 Hp2]%elem_of_seq Heq%pad_index_inj; [lia|done]).
        destruct (decide (posn < shrink_model.min_length self)) as [Hlt|Hlt].
        -- rewrite Hhit1 by (apply elem_of_seq; lia). done.
        -- rewrite Hmiss1; [by destruct (intercept_visible_ m !! _)|].
           intros p [_ Hp]%elem_of_seq Heq%pad_index_inj; [lia|done].
  - intros j Hj. rewrite Hmiss2, Hmiss1; [done| |].
    all: intros p _; by apply not_pad_index.
Qed.

Lemma exit_spec (self : shrink_model.obj) (m : Model) (padidx : nat) :
  char_lookup (codec m) !! filler (codec m) = Some padidx ->
  padidx < nchars (codec m) ->
  length (intercept_visible_ m) = maxlen (codec m) * nchars (codec m) ->
  length (shrink_model.prev_biases self) = maxlen (codec m) ->
  exists b,
    shrink_model.__exit__ self m = (Ok tt, {| codec := codec m; intercept_visible_ := b |}) /\
    (forall posn, posn < maxlen (codec m) ->
       b !! pad_index (codec m) padidx posn = shrink_model.prev_biases self !! posn) /\
    (forall j, j mod nchars (codec m) <> padidx -> b !! j = intercept_visible_ m !! j).
Proof.
  intros Hlook Hpad Hlen Hprev.
  destruct (for_each_setitem padidx (shrink_model.prev_biases self) 0 m Hpad)
    as (b & Hrun & _ & Hhit & Hmiss).
  { intros p Hp. rewrite Hlen. apply pad_index_lt; [done|lia]. }
  exists b. unfold shrink_model.__exit__.
  rewrite (bind_ok get _ m m m eq_refl).
  unfold dict_getitem. rewrite Hlook.
  rewrite (bind_ok (ret padidx) _ m padidx m eq_refl).
  unfold enumerate. rewrite Hrun. split; [reflexivity|]. split.
  - intros posn Hposn.
    destruct (lookup_lt_is_Some_2 (shrink_model.prev_biases self) posn) as [v Hv]; [lia|].
    rewrite Hv. by apply (Hhit posn v).
  - intros j Hj. apply Hmiss. intros p _. by apply not_pad_index.
Qed.

Lemma init_ok (m : Model) (min_length max_length : Z) :
  (1 <= max_length <= Z.of_nat (maxlen (codec m)))%Z ->
  (0 <= min_length <= Z.of_nat (maxlen (codec m)))%Z ->
  shrink_model.__init__ m min_length max_length
    = Ok {| shrink_model.min_length := Z.to_nat min_length;
            shrink_model.max_length := Z.to_nat max_length;
            shrink_model.prev_biases := [] |}.
Proof.
  intros Hmax Hmin. unfold shrink_model.__init__.
  destruct (Z.leb_spec 1 max_length); [|lia].
  destruct (Z.leb_spec max_length (Z.of_nat (maxlen (codec m)))); [|lia].
  destruct (Z.leb_spec 0 min_length); [|lia].
  destruct (Z.leb_spec min_length (Z.of_nat (maxlen (codec m)))); [|lia].
  reflexivity.
Qed.

(** ** The scoped bias adjustment *)

(** C1: for every pair of bounds the constructor accepts, and whatever the
    enclosed block does to the biases and however it ends (with a value or
    with an exception), once the scope is left the bias of the padding
    symbol at every position is the one it had before the scope was
    entered; the block's outcome is the outcome of the whole statement. *)
Theorem shrink_model_scope_restores {W A : Type} (st : State W)
    (min_length max_length : Z) (body : SE (State W) A) (padidx : nat) :
  wf_model (model st) padidx ->
  (1 <= max_length <= Z.of_nat (maxlen (codec (model st))))%Z ->
  (0 <= min_length <= Z.of_nat (maxlen (codec (model st))))%Z ->
  (forall s, codec (model (body s).2) = codec (model s) /\
             length (intercept_visible_ (model (body s).2))
               = length (intercept_visible_ (model s))) ->
  exists mgr mgr' st_in st_out,
    shrink_model.__init__ (model st) min_length max_length = Ok mgr /\
    on_model (shrink_model.__enter__ mgr) st = (Ok mgr', st_in) /\
    with_shrink_model min_length max_length body st = ((body st_in).1, st_out) /\
    ext st_out = ext (body st_in).2 /\
    forall posn, posn < maxlen (codec (model st)) ->
      is_Some (intercept_visible_ (model st) !! pad_index (codec (model st)) padidx posn) /\
      intercept_visible_ (model st_out) !! pad_index (codec (model st)) padidx posn
        = intercept_visible_ (model st) !! pad_index (codec (model st)) padidx posn.
Proof.
  intros Hwf Hmax Hmin Hbody.
  pose proof (init_ok (model st) min_length max_length Hmax Hmin) as Hinit.
  set (mgr := {| shrink_model.min_length := Z.to_nat min_length;
                 shrink_model.max_length := Z.to_nat max_length;
                 shrink_model.prev_biases := [] |}) in *.
  destruct (enter_spec mgr (model st) padidx Hwf) as (prev & b & Henter & Hplen & Hblen & Hpad & _).
  { simpl. lia. }
  destruct Hwf as (Hlook & Hlt & Hlen).
  set (mgr' := {| shrink_model.min_length := shrink_model.min_length mgr;
                  shrink_model.max_length := shrink_model.max_length mgr;
                  shrink_model.prev_biases := prev |}) in *.
  set (st_in := {| model := {| codec := codec (model st); intercept_visible_ := b |};
                   ext := ext st |}).
  destruct (Hbody st_in) as [Hcodec Hlength].
  destruct (body st_in) as [r st2] eqn:Hrun. simpl in Hcodec, Hlength.
  destruct (exit_spec mgr' (model st2) padidx) as (b' & Hexit & Hback & _).
  { by rewrite Hcodec. }
  { by rewrite Hcodec. }
  { rewrite Hlength, Hcodec. simpl. congruence. }
  { by rewrite Hcodec. }
  exists mgr, mgr', st_in,
    {| model := {| codec := codec (model st2); intercept_visible_ := b' |}; ext := ext st2 |}.
  assert (Hon : on_model (shrink_model.__enter__ mgr) st = (Ok mgr', st_in)).
  { unfold on_model. by rewrite Henter. }
  split; [done|]. split; [done|]. rewrite Hrun. split; [|split; [reflexivity|]].
  - unfold with_shrink_model, bind, get, lift_result. rewrite Hinit.
    unfold with_. rewrite Hon, Hrun. unfold on_model at 1. by rewrite Hexit.
  - intros posn Hposn. destruct (Hpad posn Hposn) as [Hsaved _]. split.
    + apply lookup_lt_is_Some_2. rewrite Hlen. by apply pad_index_lt.
    + simpl. rewrite Hcodec in Hback. rewrite (Hback posn Hposn). exact Hsaved.
Qed.

Lemma shrink_model_scope_restores_witness :
  exists mgr mgr' st_in st_out,
    shrink_model.__init__ Demo.model0 4 2 = Ok mgr /\
    on_model (shrink_model.__enter__ mgr) Demo.state0 = (Ok mgr', st_in) /\
    with_shrink_model 4 2 Demo.clobber_and_fail Demo.state0
      = ((Demo.clobber_and_fail st_in).1, st_out) /\
    ext st_out = ext (Demo.clobber_and_fail st_in).2 /\
    forall posn, posn < 5 ->
      is_Some (intercept_visible_ Demo.model0 !! pad_index Demo.codec0 3 posn) /\
      intercept_visible_ (model st_out) !! pad_index Demo.codec0 3 posn
        = intercept_visible_ Demo.model0 !! pad_index Demo.codec0 3 posn.
Proof.
  apply (shrink_model_scope_restores Demo.state0 4 2 Demo.clobber_and_fail 3).
  - split; [reflexivity|]. split; [simpl; lia | reflexivity].
  - simpl; lia.
  - simpl; lia.
  - intros s. split; [reflexivity|]. simpl. apply length_fmap.
Defined.

(** Entering the scope succeeds for every pair of bounds the constructor
    accepts, whichever of the two is the larger: the padding symbol's bias
    is lower by exactly [BIG_NUMBER] at every position below both bounds,
    higher by exactly [BIG_NUMBER] at every position from both bounds on,
    unchanged at every position of [min_length, max_length), and a position
    of [max_length, min_length) gets the subtraction and then the addition;
    no entry of another symbol changes. *)
Lemma enter_biases_any_bounds (m : Model) (min_length max_length : Z) (padidx : nat) :
  wf_model m padidx ->
  (1 <= max_length <= Z.of_nat (maxlen (codec m)))%Z ->
  (0 <= min_length <= Z.of_nat (maxlen (codec m)))%Z ->
  exists mgr mgr' m',
    shrink_model.__init__ m min_length max_length = Ok mgr /\
    shrink_model.__enter__ mgr m = (Ok mgr', m') /\
    codec m' = codec m /\
    length (intercept_visible_ m') = length (intercept_visible_ m) /\
    (forall posn x,
       posn < maxlen (codec m) ->
       intercept_visible_ m !! pad_index (codec m) padidx posn = Some x ->
       let after := intercept_visible_ m' !! pad_index (codec m) padidx posn in
       ((Z.of_nat posn < min_length)%Z -> (Z.of_nat posn < max_length)%Z ->
        after = Some (x - BIG_NUMBER)%float) /\
       ((max_length <= Z.of_nat posn)%Z -> (min_length <= Z.of_nat posn)%Z ->
        after = Some (x + BIG_NUMBER)%float) /\
       ((min_length <= Z.of_nat posn < max_length)%Z -> after = Some x) /\
       ((max_length <= Z.of_nat posn < min_length)%Z ->
        after = Some (x - BIG_NUMBER + BIG_NUMBER)%float)) /\
    (forall j, j mod nchars (codec m) <> padidx ->
               intercept_visible_ m' !! j = intercept_visible_ m !! j).
Proof.
  intros Hwf Hmax Hmin.
  pose proof (init_ok m min_length max_length Hmax Hmin) as Hinit.
  set (mgr := {| shrink_model.min_length := Z.to_nat min_length;
                 shrink_model.max_length := Z.to_nat max_length;
                 shrink_model.prev_biases := [] |}) in *.
  destruct (enter_spec mgr m padidx Hwf) as (prev & b & Henter & _ & Hblen & Hpad & Hother).
  { simpl. lia. }
  eexists mgr, _, _. split; [done|]. split; [exact Henter|]. simpl.
  split; [done|]. split; [done|]. split; [|done].
  intros posn x Hposn Hx. destruct (Hpad posn Hposn) as [_ Hb].
  rewrite Hb, Hx. unfold entered_bias. simpl.
  repeat split; intros; repeat case_decide; try lia; simpl.
  - by rewrite add_neg_big.
  - done.
  - done.
  - by rewrite add_neg_big.
Qed.

(** C3: on entry to the scope, with the bounds in the order the spec
    requires ([0 <= min_length <= max_length <= maxlen], and [1 <=
    max_length] for the constructor), the padding symbol's bias is
    decreased by exactly [BIG_NUMBER] at every position of [0, min_length),
    increased by exactly [BIG_NUMBER] at every position of [max_length,
    maxlen), left as it is at every position of [min_length, max_length),
    and no entry of another symbol is modified. *)
Theorem shrink_model_enter_biases (m : Model) (min_length max_length : Z) (padidx : nat) :
  wf_model m padidx ->
  (0 <= min_length <= max_length)%Z ->
  (1 <= max_length <= Z.of_nat (maxlen (codec m)))%Z ->
  exists mgr mgr' m',
    shrink_model.__init__ m min_length max_length = Ok mgr /\
    shrink_model.__enter__ mgr m = (Ok mgr', m') /\
    codec m' = codec m /\
    length (intercept_visible_ m') = length (intercept_visible_ m) /\
    (forall posn x,
       posn < maxlen (codec m) ->
       intercept_visible_ m !! pad_index (codec m) padidx posn = Some x ->
       let after := intercept_visible_ m' !! pad_index (codec m) padidx posn in
       ((Z.of_nat posn < min_length)%Z -> after = Some (x - BIG_NUMBER)%float) /\
       ((max_length <= Z.of_nat posn)%Z -> after = Some (x + BIG_NUMBER)%float) /\
       ((min_length <= Z.of_nat posn < max_length)%Z -> after = Some x)) /\
    (forall j, j mod nchars (codec m) <> padidx ->
               intercept_visible_ m' !! j = intercept_visible_ m !! j).
Proof.
  intros Hwf Horder Hmax.
  destruct (enter_biases_any_bounds m min_length max_length padidx Hwf Hmax)
    as (mgr & mgr' & m' & Hinit & Henter & Hcodec & Hlen & Hpad & Hother); [lia|].
  exists mgr, mgr', m'. repeat (split; [done|]). split; [|done].
  intros posn x Hposn Hx. destruct (Hpad posn x Hposn Hx) as (Hlow & Hhigh & Hmid & _).
  repeat split.
  - intros Hbelow. apply Hlow; lia.
  - intros Hpast. apply Hhigh; lia.
  - exact Hmid.
Qed.

Lemma shrink_model_enter_biases_witness :
  exists mgr mgr' m',
    shrink_model.__init__ Demo.model0 2 3 = Ok mgr /\
    shrink_model.__enter__ mgr Demo.model0 = (Ok mgr', m') /\
    codec m' = Demo.codec0 /\
    length (intercept_visible_ m') = 20 /\
    (forall posn x,
       posn < 5 ->
       intercept_visible_ Demo.model0 !! pad_index Demo.codec0 3 posn = Some x ->
       let after := intercept_visible_ m' !! pad_index Demo.codec0 3 posn in
       ((Z.of_nat posn < 2)%Z -> after = Some (x - BIG_NUMBER)%float) /\
       ((3 <= Z.of_nat posn)%Z -> after = Some (x + BIG_NUMBER)%float) /\
       ((2 <= Z.of_nat posn < 3)%Z -> after = Some x)) /\
    (forall j, j mod 4 <> 3 ->
               intercept_visible_ m' !! j = intercept_visible_ Demo.model0 !! j).
Proof.
  apply (shrink_model_enter_biases Demo.model0 2 3 3).
  - split; [reflexivity|]. split; [simpl; lia | reflexivity].
  - lia.
  - simpl; lia.
Defined.

(** The spec's example: bounds 2 and 3 over five positions. *)
Example shrink_model_enter_2_3 :
  (fun r => (intercept_visible_ r.2 !!.) <$> [3; 7; 11; 15; 19])
    (shrink_model.__enter__
       {| shrink_model.min_length := 2; shrink_model.max_length := 3;
          shrink_model.prev_biases := [] |} Demo.model0)
  = [Some (-3)%float; Some (-3)%float; Some 0%float; Some 3%float; Some 3%float].
Proof. vm_compute. reflexivity. Qed.

(** Bounds the spec rules out but the constructor accepts: 4 and 2 pass
    both assertions, and position 2 lies in both loops' ranges, so its
    padding bias is subtracted from and then added to. *)
Example shrink_model_enter_overlap :
  exists mgr mgr' m',
    shrink_model.__init__ Demo.model0 4 2 = Ok mgr /\
    shrink_model.__enter__ mgr Demo.model0 = (Ok mgr', m') /\
    (Z.of_nat 2 < 4)%Z /\
    intercept_visible_ Demo.model0 !! pad_index Demo.codec0 3 2 = Some 0%float /\
    intercept_visible_ m' !! pad_index Demo.codec0 3 2 = Some 0%float /\
    Some 0%float <> Some (0 - BIG_NUMBER)%float.
Proof.
  eexists _, _, _. split; [reflexivity|]. split; [vm_compute; reflexivity|].
  split; [lia|]. split; [reflexivity|]. split; [reflexivity|].
  intros Heq.
  apply (f_equal (from_option (fun x => (x <? 0)%float) false)) in Heq.
  vm_compute in Heq. discriminate.
Qed.

(** ** The visible-state initialisers *)

(** C9: with the [spaces] strategy on a model whose alphabet has no space
    character, and with the [padding] strategy on a model whose alphabet
    lacks the codec's filler, [starting_visible_configs] raises
    [BadInitMethodException] with a message that names the missing symbol,
    and leaves the store as it was. *)
Theorem starting_visible_configs_missing_fill {W : Type} `{Collaborators W}
    (n : nat) (training_examples_fname : option string) (st : State W) :
  (char_lookup (codec (model st)) !! " " = None ->
   starting_visible_configs (Member VisInit.spaces) n training_examples_fname st
   = (Raise (BadInitMethodException (" " +:+ " is not in model alphabet")), st)) /\
  (char_lookup (codec (model st)) !! filler (codec (model st)) = None ->
   starting_visible_configs (Member VisInit.padding) n training_examples_fname st
   = (Raise (BadInitMethodException
               (filler (codec (model st)) +:+ " is not in model alphabet")), st)).
Proof.
  split; intros Hmissing; unfold starting_visible_configs;
    rewrite (bind_ok get _ st st st eq_refl); rewrite Hmissing; reflexivity.
Qed.

Lemma starting_visible_configs_missing_fill_witness :
  starting_visible_configs (Member VisInit.spaces) 2 None Demo.state0
  = (Raise (BadInitMethodException "  is not in model alphabet"), Demo.state0) /\
  starting_visible_configs (Member VisInit.padding) 2 None
    Demo.state_without_filler
  = (Raise (BadInitMethodException "_ is not in model alphabet"),
     Demo.state_without_filler).
Proof.
  split.
  - apply (starting_visible_configs_missing_fill 2 None Demo.state0). reflexivity.
  - apply (starting_visible_configs_missing_fill 2 None
             Demo.state_without_filler). reflexivity.
Defined.

Lemma bind_Ok_inv {S A B} (c : SE S A) (k : A -> SE S B) s b s' :
  bind c k s = (Ok b, s') -> exists a s1, c s = (Ok a, s1) /\ k a s1 = (Ok b, s').
Proof.
  unfold bind. destruct (c s) as [[a|e] s1]; [eauto | discriminate].
Qed.

Lemma lift_result_Ok_inv {S A} (r : result A) (s s' : S) a :
  lift_result r s = (Ok a, s') -> r = Ok a /\ s' = s.
Proof. unfold lift_result. by intros [= -> ->]. Qed.

Lemma np_reshape_Ok a newshape a' :
  np_reshape a newshape = Ok a' ->
  shape a' = newshape /\ data a' = data a /\ size_of newshape = buffer_length (data a).
Proof.
  unfold np_reshape. case_decide; [|discriminate]. by intros [= <-].
Qed.

Lemma size_of_2 n k : size_of [n; k] = n * k.
Proof. simpl. lia. Qed.

(** *** One-hot rows *)

Lemma np_sum_zeros_from (i a len : nat) (acc : float) :
  (acc + 0 = acc)%float ->
  ¬ (a <= i < a + len) ->
  foldl PrimFloat.add acc ((fun j => if decide (j = i) then 1%float else 0%float) <$> seq a len)
  = acc.
Proof.
  intros Hacc. revert a. induction len as [|len IH]; intros a Hout; simpl; [done|].
  case_decide; [lia|]. rewrite Hacc. apply IH. lia.
Qed.

Lemma np_sum_eye_from (i a len : nat) :
  a <= i < a + len ->
  foldl PrimFloat.add 0%float
    ((fun j => if decide (j = i) then 1%float else 0%float) <$> seq a len)
  = 1%float.
Proof.
  revert a. induction len as [|len IH]; intros a Hin; simpl; [lia|].
  case_decide as Hai.
  - change (0 + 1)%float with 1%float. apply np_sum_zeros_from; [reflexivity | lia].
  - change (0 + 0)%float with 0%float. apply IH. lia.
Qed.

Lemma np_sum_eye_row (k i : nat) : i < k -> np_sum (eye_row k i) = 1%float.
Proof. intros Hi. apply np_sum_eye_from. lia. Qed.

Lemma length_eye_row (k i : nat) : length (eye_row k i) = k.
Proof. unfold eye_row. by rewrite length_fmap, length_seq. Qed.

Lemma eye_take_Ok (k : nat) (indices : list Z) (l : list float) :
  eye_take k indices = Ok l ->
  length l = length indices * k /\
  forall j, j < length indices ->
            exists i, i < k /\ take k (drop (j * k) l) = eye_row k i.
Proof.
  revert l. induction indices as [|i rest IH]; intros l; simpl.
  - intros [= <-]. split; [done|]. intros j Hj. lia.
  - set (i' := if (i <? 0)%Z then (i + Z.of_nat k)%Z else i).
    destruct ((0 <=? i')%Z && (i' <? Z.of_nat k)%Z) eqn:Hrange; [|discriminate].
    destruct (eye_take k rest) as [l'|e]; [|discriminate]. intros [= <-].
    destruct (IH l' eq_refl) as [Hlen Hrows].
    split; [rewrite length_app, length_eye_row; lia|].
    intros [|j] Hj.
    + exists (Z.to_nat i'). split; [lia|]. change (0 * k) with 0. rewrite drop_0.
      rewrite take_app_length'; [done | by rewrite length_eye_row].
    + destruct (Hrows j) as (i0 & Hi0 & Hrow); [lia|]. exists i0. split; [done|].
      replace (S j * k) with (length (eye_row k (Z.to_nat i')) + j * k)
        by (rewrite length_eye_row; lia).
      by rewrite drop_app_add.
Qed.

(** A block of zeros whose entry [fill] of every group of [k] is set to
    one is a sequence of rows of the identity matrix. *)
Lemma filled_slice (k fill total j : nat) :
  fill < k -> j * k + k <= total ->
  take k (drop (j * k)
            (imap (fun j x => if decide (j mod k = fill) then 1%float else x)
                  (replicate total 0%float)))
  = eye_row k fill.
Proof.
  intros Hfill Hj. apply list_eq. intros t. unfold eye_row.
  destruct (decide (t < k)) as [Ht|Ht].
  - rewrite lookup_take_lt, lookup_drop, list_lookup_imap by done.
    rewrite lookup_replicate_2 by lia. rewrite list_lookup_fmap, lookup_seq_lt by done.
    simpl. replace ((j * k + t) mod k) with t; [done|].
    rewrite Nat.add_comm, Nat.Div0.mod_add. symmetry. by apply Nat.mod_small.
  - rewrite lookup_take_ge by lia. symmetry. apply lookup_ge_None.
    rewrite length_fmap, length_seq. lia.
Qed.

Ltac inv_bind H :=
  let a := fresh "a" in
  let s1 := fresh "s" in
  let H1 := fresh H "_run" in
  apply bind_Ok_inv in H as (a & s1 & H1 & H).

Lemma np_random_randint_Ok {W : Type} `{CollaboratorLaws W}
    (low high : Z) (shp : list nat) (st st' : State W) (a : ndarray) :
  np_random_randint low high shp st = (Ok a, st') ->
  shape a = shp /\
  exists l, data a = Int64 l /\ length l = size_of shp /\
            Forall (fun x => (low <= x < high)%Z) l.
Proof.
  unfold np_random_randint.
  pose proof (randint_length low high (size_of shp) (ext st)) as Hlen.
  pose proof (randint_range low high (size_of shp) (ext st)) as Hrange.
  destruct (Nat.eqb_spec (size_of shp) 0) as [Hzero|_];
    destruct (Z.leb_spec high low) as [Hle|Hlt]; simpl; try discriminate;
    intros Hrun; inv_bind Hrun; unfold on_ext in Hrun_run;
    destruct (randint low high (size_of shp) (ext st)) as [l w'];
    injection Hrun_run as <- <-; injection Hrun as <- <-; simpl in *;
    (split; [done|]); exists l; (split; [done|]); (split; [done|]); auto.
  rewrite Hzero in Hlen. destruct l; [constructor|done].
Qed.

Lemma mask_fill_range (maxlen : nat) (lengths : list Z) (pad lo hi : Z) (l : list Z) :
  (lo <= pad < hi)%Z ->
  Forall (fun x => (lo <= x < hi)%Z) l ->
  length (mask_fill maxlen lengths pad l) = length l /\
  Forall (fun x => (lo <= x < hi)%Z) (mask_fill maxlen lengths pad l).
Proof.
  intros Hpad Hl. unfold mask_fill. split; [apply length_imap|].
  apply Forall_lookup. intros j x. rewrite list_lookup_imap.
  destruct (l !! j) as [y|] eqn:Hy; [|done]. simpl. intros [= <-].
  pose proof (Forall_lookup_1 _ _ _ _ Hl Hy) as Hyr. simpl in Hyr.
  destruct (lengths !! (j / maxlen)); [|done]. by destruct (_ <=? _)%Z.
Qed.

Lemma eye_take_rows (k n maxlen : nat) (indices : list Z) (rows : list float) :
  eye_take k indices = Ok rows ->
  length indices = n * maxlen ->
  forall row posn, row < n -> posn < maxlen ->
    np_sum (take k (drop ((row * maxlen + posn) * k) rows)) = 1%float.
Proof.
  intros [_ Hrows]%eye_take_Ok Hlen row posn Hrow Hposn.
  destruct (Hrows (row * maxlen + posn)) as (i & Hi & ->); [nia|].
  by apply np_sum_eye_row.
Qed.

(** C7: whatever the strategy, a batch that [starting_visible_configs]
    returns for a model whose bias vector has [maxlen * nchars] entries
    has shape (n, maxlen * nchars) and that many entries; for the
    strategies [spaces], [padding], [chunks] (truncated positions
    included) and [uniform_chars] it is an array of floats in which every
    group of [nchars] entries, one per position of every row, sums to
    exactly one. *)
Theorem starting_visible_configs_shape {W : Type} `{CollaboratorLaws W}
    (init_method : init_arg) (n : nat) (training_examples_fname : option string)
    (st st' : State W) (a : ndarray) :
  length (intercept_visible_ (model st))
    = maxlen (codec (model st)) * nchars (codec (model st)) ->
  starting_visible_configs init_method n training_examples_fname st = (Ok a, st') ->
  shape a = [n; maxlen (codec (model st)) * nchars (codec (model st))] /\
  buffer_length (data a) = n * (maxlen (codec (model st)) * nchars (codec (model st))) /\
  (one_hot_strategy init_method ->
   one_hot_rows n (maxlen (codec (model st))) (nchars (codec (model st))) a).
Proof.
  intros Hlen Hrun. unfold starting_visible_configs in Hrun.
  rewrite (bind_ok get _ st st st eq_refl), Hlen in Hrun.
  set (ml := maxlen (codec (model st))) in *.
  set (nc := nchars (codec (model st))) in *.
  destruct init_method as [[| | | | | | | |]|repr].
  - (* zeros *)
    injection Hrun as <- <-. rewrite <- (size_of_2 n (ml * nc)).
    split; [done|]. split; [apply length_replicate|].
    intros [?|[?|[?|?]]]; discriminate.
  - (* biases *)
    inv_bind Hrun. inv_bind Hrun.
    apply lift_result_Ok_inv in Hrun as [(Hshape & Hdata & Hsize)%np_reshape_Ok ->].
    rewrite size_of_2 in Hsize. rewrite Hdata.
    split; [done|]. split; [done|]. intros [?|[?|[?|?]]]; discriminate.
  - (* uniform *)
    apply np_random_randint_Ok in Hrun as (Hshape & l & Hdata & Hl & _).
    rewrite size_of_2 in Hl. rewrite Hdata. simpl.
    split; [done|]. split; [done|]. intros [?|[?|[?|?]]]; discriminate.
  - (* spaces *)
    inv_bind Hrun. inv_bind Hrun.
    apply lift_result_Ok_inv in Hrun as [(Hshape & Hdata & Hsize)%np_reshape_Ok ->].
    apply lift_result_Ok_inv in Hrun_run0 as [Hset ->].
    unfold set_last_axis in Hset. case_decide as Hfill; [|discriminate].
    injection Hset as <-. simpl in *. rewrite length_imap, length_replicate in Hsize.
    unfold one_hot_rows. rewrite Hdata. simpl. rewrite length_imap, length_replicate.
    split; [done|]. split; [lia|]. intros _. eexists. split; [reflexivity|].
    intros row posn Hrow Hposn. rewrite filled_slice; [by apply np_sum_eye_row|done|nia].
  - (* padding *)
    inv_bind Hrun. inv_bind Hrun.
    apply lift_result_Ok_inv in Hrun as [(Hshape & Hdata & Hsize)%np_reshape_Ok ->].
    apply lift_result_Ok_inv in Hrun_run0 as [Hset ->].
    unfold set_last_axis in Hset. case_decide as Hfill; [|discriminate].
    injection Hset as <-. simpl in *. rewrite length_imap, length_replicate in Hsize.
    unfold one_hot_rows. rewrite Hdata. simpl. rewrite length_imap, length_replicate.
    split; [done|]. split; [lia|]. intros _. eexists. split; [reflexivity|].
    intros row posn Hrow Hposn. rewrite filled_slice; [by apply np_sum_eye_row|done|nia].
  - (* train *)
    destruct training_examples_fname as [fname|]; [|discriminate].
    unfold on_ext_fallible in Hrun.
    destruct (vectors_from_txtfile fname (codec (model st)) n false (ext st))
      as [r w'] eqn:Hload.
    injection Hrun as -> <-.
    apply vectors_from_txtfile_shape in Hload as [Hshape Hdata].
    split; [done|]. split; [done|]. intros [?|[?|[?|?]]]; discriminate.
  - (* chunks *)
    inv_bind Hrun. inv_bind Hrun. inv_bind Hrun.
    apply lift_result_Ok_inv in Hrun as [(Hshape & Hdata & Hsize)%np_reshape_Ok ->].
    apply lift_result_Ok_inv in Hrun_run1 as [Htake ->].
    apply np_random_randint_Ok in Hrun_run as (_ & l & Hl & Hllen & Hlrange).
    rewrite size_of_2 in Hllen.
    inv_bind Hrun_run0. inv_bind Hrun_run0. inv_bind Hrun_run0.
    unfold dict_getitem in Hrun_run0_run1.
    destruct (char_lookup (codec (model st)) !! filler (codec (model st)))
      as [pad|] eqn:Hpad; [|discriminate].
    injection Hrun_run0_run1 as <- <-. injection Hrun_run0 as <- <-.
    simpl in Hdata, Hsize.
    assert (Hidx : length (mask_fill ml a4 (Z.of_nat pad) (ints_of a0)) = n * ml).
    { unfold mask_fill. rewrite length_imap. unfold ints_of. by rewrite Hl. }
    unfold one_hot_rows. rewrite Hdata. simpl. apply eye_take_Ok in Htake as Hrows. destruct Hrows as [Hrlen _].
    split; [done|]. split; [rewrite Hrlen, Hidx; lia|]. intros _.
    eexists. split; [reflexivity|]. by apply (eye_take_rows nc n ml _ _ Htake).
  - (* silhouettes *)
    destruct training_examples_fname as [fname|]; [|discriminate].
    unfold on_ext_fallible in Hrun.
    destruct (vectors_from_txtfile fname (codec (model st)) n true (ext st))
      as [r w'] eqn:Hload.
    injection Hrun as -> <-.
    apply vectors_from_txtfile_shape in Hload as [Hshape Hdata].
    split; [done|]. split; [done|]. intros [?|[?|[?|?]]]; discriminate.
  - (* uniform_chars *)
    inv_bind Hrun. inv_bind Hrun. inv_bind Hrun.
    apply lift_result_Ok_inv in Hrun as [(Hshape & Hdata & Hsize)%np_reshape_Ok ->].
    apply lift_result_Ok_inv in Hrun_run1 as [Htake ->].
    apply np_random_randint_Ok in Hrun_run as (_ & l & Hl & Hllen & Hlrange).
    rewrite size_of_2 in Hllen.
    injection Hrun_run0 as <- <-. simpl in Hdata, Hsize.
    assert (Hidx : length (ints_of a0) = n * ml).
    { unfold ints_of. by rewrite Hl. }
    unfold one_hot_rows. rewrite Hdata. simpl. apply eye_take_Ok in Htake as Hrows. destruct Hrows as [Hrlen _].
    split; [done|]. split; [rewrite Hrlen, Hidx; lia|]. intros _.
    eexists. split; [reflexivity|]. by apply (eye_take_rows nc n ml _ _ Htake).
  - discriminate.
Qed.

Lemma starting_visible_configs_shape_witness :
  exists a st',
    starting_visible_configs (Member VisInit.chunks) 2 None Demo.state0 = (Ok a, st') /\
    shape a = [2; 5 * 4] /\
    buffer_length (data a) = 2 * (5 * 4) /\
    (one_hot_strategy (Member VisInit.chunks) -> one_hot_rows 2 5 4 a).
Proof.
  destruct (starting_visible_configs (Member VisInit.chunks) 2 None Demo.state0)
    as [[a|e] st'] eqn:Hrun; [|vm_compute in Hrun; discriminate].
  exists a, st'. split; [reflexivity|].
  apply (starting_visible_configs_shape (Member VisInit.chunks) 2 None Demo.state0 st' a).
  - reflexivity.
  - exact Hrun.
Defined.

(** With zero draws the [chunks] strategy cuts both rows at length 3: three
    times the first symbol, then the filler twice. *)
Example starting_visible_configs_chunks :
  (starting_visible_configs (Member VisInit.chunks) 2 None Demo.state0).1
  = Ok {| shape := [2; 20];
          data := Float64 (concat (replicate 2
                    ([1; 0; 0; 0; 1; 0; 0; 0; 1; 0; 0; 0;
                      0; 0; 0; 1; 0; 0; 0; 1]%float))) |}.
Proof. vm_compute. reflexivity. Qed.

Lemma eye_take_in_range (k : nat) (indices : list Z) :
  Forall (fun x => (0 <= x < Z.of_nat k)%Z) indices ->
  exists rows, eye_take k indices = Ok rows /\ length rows = length indices * k.
Proof.
  induction 1 as [|i rest Hi _ (rows & Hrows & Hlen)]; simpl; [by exists []|].
  destruct (Z.ltb_spec i 0); [lia|].
  destruct (Z.leb_spec 0 i); [|lia]. destruct (Z.ltb_spec i (Z.of_nat k)); [|lia].
  simpl. rewrite Hrows. eexists. split; [reflexivity|].
  rewrite length_app, length_eye_row. lia.
Qed.

Lemma np_random_randint_run {W : Type} `{Collaborators W}
    (low high : Z) (shp : list nat) (st : State W) :
  (low < high)%Z ->
  np_random_randint low high shp st
  = (Ok {| shape := shp; data := Int64 (randint low high (size_of shp) (ext st)).1 |},
     {| model := model st; ext := (randint low high (size_of shp) (ext st)).2 |}).
Proof.
  intros Hlt. unfold np_random_randint. destruct (Z.leb_spec high low); [lia|].
  rewrite andb_false_r. unfold bind, on_ext. by destruct (randint low high (size_of shp) (ext st)).
Qed.

(** The strategies that need nothing but the model and the random
    generator do return a batch for a well-formed model. *)
Lemma starting_visible_configs_returns {W : Type} `{CollaboratorLaws W}
    (v : VisInit.t) (n : nat) (training_examples_fname : option string)
    (st : State W) (padidx : nat) (ml : float) :
  wf_model (model st) padidx ->
  float_of_int (Z.of_nat (maxlen (codec (model st)))) = Ok ml ->
  v = VisInit.zeros \/ v = VisInit.uniform \/ v = VisInit.padding \/
  v = VisInit.chunks \/ v = VisInit.uniform_chars ->
  exists a st', starting_visible_configs (Member v) n training_examples_fname st = (Ok a, st').
Proof.
  intros (Hlook & Hpad & Hlen) Hml Hv. unfold starting_visible_configs.
  assert (Hnc : (0 < Z.of_nat (nchars (codec (model st))))%Z) by lia.
  rewrite (bind_ok get _ st st st eq_refl).
  destruct Hv as [->|[->|[->|[->| ->]]]].
  - by eexists _, _.
  - rewrite np_random_randint_run by lia. by eexists _, _.
  - rewrite Hlook. unfold bind, ret, lift_result, set_last_axis.
    case_decide; [|lia]. unfold np_reshape. simpl.
    rewrite length_imap, length_replicate, Hlen.
    case_decide; [|lia]. by eexists _, _.
  - rewrite (bind_ok _ _ _ _ _ (np_random_randint_run 0 _ _ st Hnc)).
    set (draws := randint 0 _ _ _).
    pose proof (randint_length 0 (Z.of_nat (nchars (codec (model st))))
                  (size_of [n; maxlen (codec (model st))]) (ext st)) as Hdl.
    pose proof (randint_range 0 (Z.of_nat (nchars (codec (model st))))
                  (size_of [n; maxlen (codec (model st))]) (ext st) Hnc) as Hdr.
    fold draws in Hdl, Hdr. rewrite size_of_2 in Hdl.
    destruct (randn n draws.2) as [zs w2] eqn:Hzs.
    erewrite bind_ok; cycle 1.
    { unfold bind, on_ext, lift_result, dict_getitem, chunk_lengths, ret. simpl.
      rewrite Hzs, Hml, Hlook. reflexivity. }
    match goal with |- context [mask_fill ?a ?b ?c ?d] =>
      destruct (mask_fill_range a b c 0 (Z.of_nat (nchars (codec (model st)))) d) as [Hml1 Hml2];
      [lia | exact Hdr |] end.
    destruct (eye_take_in_range _ _ Hml2) as (rows & Hrows & Hrlen).
    unfold ints_of in *. simpl in Hml1, Hrlen. unfold bind, lift_result. rewrite Hrows.
    unfold np_reshape. simpl. case_decide; [by eexists _, _|]. rewrite Hml1 in *. nia.
  - rewrite (bind_ok _ _ _ _ _ (np_random_randint_run 0 _ _ st Hnc)).
    set (draws := randint 0 _ _ _).
    pose proof (randint_length 0 (Z.of_nat (nchars (codec (model st))))
                  (size_of [n; maxlen (codec (model st))]) (ext st)) as Hdl.
    pose proof (randint_range 0 (Z.of_nat (nchars (codec (model st))))
                  (size_of [n; maxlen (codec (model st))]) (ext st) Hnc) as Hdr.
    fold draws in Hdl, Hdr. rewrite size_of_2 in Hdl.
    destruct (eye_take_in_range _ _ Hdr) as (rows & Hrows & Hrlen).
    unfold bind, ret, lift_result, ints_of. simpl. rewrite Hrows.
    unfold np_reshape. simpl. case_decide; [by eexists _, _|]. nia.
Qed.

(** ** The sample recorder *)

(** C4, what the code does: the test on [energy] is the wrong way round.
    Without energies the call raises [TypeError] ([None] is zipped);
    with energies it returns the strings alone, concatenated, and no
    energy appears in the text. *)
Theorem print_sample_callback_inverted {W : Type} `{Collaborators W}
    (sample_strings : list string) (i logger : PyVal) (energy : ndarray) (st : State W) :
  print_sample_callback sample_strings i PyNone logger st = (Raise TypeError, st) /\
  print_sample_callback sample_strings i (PyArray energy) PyNone st
  = (Ok (str_join sample_strings), st).
Proof. split; reflexivity. Qed.

Example print_sample_callback_no_energy :
  print_sample_callback ["ab"; "cd"] (PyInt 0) PyNone PyNone Demo.state0
  = (Raise TypeError, Demo.state0).
Proof. reflexivity. Qed.

Example print_sample_callback_with_energy :
  print_sample_callback ["ab"; "cd"] (PyInt 0)
    (PyArray {| shape := [2]; data := Float64 [1.5; 2.25]%float |}) PyNone Demo.state0
  = (Ok "abcd", Demo.state0).
Proof. reflexivity. Qed.

(** ** The sampling loop *)

Section LoopFacts.
Context {W : Type} `{Collaborators W}.
Variable linear_anneal : Z.
Variable sample_iter_indices : list Z.
Variable callback : PyCallable W.
Variable sample_energy : bool.
Variables temp_decay temp_delta : float.

Local Abbreviation body :=
  (loop_body linear_anneal sample_iter_indices callback sample_energy temp_decay temp_delta).
Local Abbreviation loop :=
  (for_loop linear_anneal sample_iter_indices callback sample_energy temp_decay temp_delta).
Local Abbreviation step := (after_transition linear_anneal temp_decay temp_delta).

Lemma transition_run (s : loop_state) (st : State W) :
  transition linear_anneal temp_decay temp_delta s st = (Ok (step s st).1, (step s st).2).
Proof.
  unfold transition, after_transition, bind, get, on_ext, ret.
  by destruct (gibbs (model st) (Loop.vis s) (Loop.temp s) (ext st)).
Qed.

Lemma loop_body_no_pending (i : Z) (s : loop_state) (st : State W) :
  sample_iter_indices !! Loop.next_sample_metaindex s = None ->
  body i s st = (Raise IndexError, st).
Proof. intros Hnone. unfold loop_body, list_getitem. by rewrite Hnone. Qed.

Lemma loop_body_skip (i pending : Z) (s : loop_state) (st : State W) :
  sample_iter_indices !! Loop.next_sample_metaindex s = Some pending ->
  i <> pending ->
  body i s st = (Ok (Continue, (step s st).1), (step s st).2).
Proof.
  intros Hsome Hne. unfold loop_body, list_getitem. rewrite Hsome.
  rewrite (bind_ok (ret pending) _ st pending st eq_refl).
  case_decide; [done|].
  rewrite (bind_ok (ret (Continue, s)) _ st (Continue, s) st eq_refl).
  by rewrite (bind_ok _ _ _ _ _ (transition_run s st)).
Qed.

Lemma take_samples_run (i : Z) (s : loop_state) (st st1 : State W)
    (rows : list ndarray) (r : PyVal) :
  np_iter (Loop.vis s) = Ok rows ->
  let sample_strings := (fun v => decode (codec (model st)) v true false) <$> rows in
  py_call callback (callback_args sample_energy st s sample_strings i) st = (Ok r, st1) ->
  take_samples sample_iter_indices callback sample_energy i s st
  = (Ok (if decide (Loop.next_sample_metaindex s + 1 = length sample_iter_indices)
         then Break else Continue, recorded s sample_strings), st1).
Proof.
  intros Hrows strings Hcall. unfold take_samples.
  rewrite (bind_ok get _ st st st eq_refl).
  unfold lift_result at 1. rewrite Hrows.
  rewrite (bind_ok (fun s0 => (Ok rows, s0)) _ st rows st eq_refl).
  unfold callback_args in Hcall. fold strings.
  erewrite bind_ok; cycle 1.
  { destruct sample_energy; [|exact Hcall].
    rewrite (bind_ok get _ st st st eq_refl). exact Hcall. }
  simpl. fold (recorded s strings). by case_decide.
Qed.

Lemma take_samples_raises (i : Z) (s : loop_state) (st st1 : State W)
    (rows : list ndarray) (e : exn) :
  np_iter (Loop.vis s) = Ok rows ->
  let sample_strings := (fun v => decode (codec (model st)) v true false) <$> rows in
  py_call callback (callback_args sample_energy st s sample_strings i) st = (Raise e, st1) ->
  take_samples sample_iter_indices callback sample_energy i s st = (Raise e, st1).
Proof.
  intros Hrows strings Hcall. unfold take_samples.
  rewrite (bind_ok get _ st st st eq_refl).
  unfold lift_result at 1. rewrite Hrows.
  rewrite (bind_ok (fun s0 => (Ok rows, s0)) _ st rows st eq_refl).
  unfold callback_args in Hcall. fold strings.
  erewrite bind_raise; [reflexivity|].
  destruct sample_energy; [|exact Hcall].
  rewrite (bind_ok get _ st st st eq_refl). exact Hcall.
Qed.

Lemma loop_body_checkpoint (i : Z) (s : loop_state) (st st1 : State W)
    (rows : list ndarray) (r : PyVal) :
  sample_iter_indices !! Loop.next_sample_metaindex s = Some i ->
  np_iter (Loop.vis s) = Ok rows ->
  let sample_strings := (fun v => decode (codec (model st)) v true false) <$> rows in
  py_call callback (callback_args sample_energy st s sample_strings i) st = (Ok r, st1) ->
  body i s st
  = if decide (Loop.next_sample_metaindex s + 1 = length sample_iter_indices)
    then (Ok (Break, recorded s sample_strings), st1)
    else (Ok (Continue, (step (recorded s sample_strings) st1).1),
          (step (recorded s sample_strings) st1).2).
Proof.
  intros Hsome Hrows strings Hcall. unfold loop_body, list_getitem. rewrite Hsome.
  rewrite (bind_ok (ret i) _ st i st eq_refl).
  case_decide; [|done].
  rewrite (bind_ok _ _ _ _ _ (take_samples_run i s st st1 rows r Hrows Hcall)).
  case_decide; [reflexivity|].
  by rewrite (bind_ok _ _ _ _ _ (transition_run _ st1)).
Qed.

(** The loop over a list of indices that are all different from the
    pending checkpoint only applies transitions. *)
Lemma for_loop_skip (indices : list Z) (pending : Z) (s : loop_state) (st : State W) :
  sample_iter_indices !! Loop.next_sample_metaindex s = Some pending ->
  Forall (fun i => i <> pending) indices ->
  exists s' st',
    loop indices s st = (Ok (Continue, s'), st') /\
    Loop.next_sample_metaindex s' = Loop.next_sample_metaindex s /\
    Loop.samples s' = Loop.samples s /\
    Loop.temp s' = Nat.iter (length indices)
                     (fun t => if decide (linear_anneal <> 0%Z)
                               then (t + temp_delta)%float
                               else (t * temp_decay)%float) (Loop.temp s).
Proof.
  intros Hsome Hall. revert s st Hsome.
  induction Hall as [|i indices Hi _ IH]; intros s st Hsome; simpl.
  - by exists s, st.
  - rewrite (bind_ok _ _ _ _ _ (loop_body_skip i pending s st Hsome Hi)).
    destruct (IH (step s st).1 (step s st).2 Hsome) as (s' & st' & Hrun & Hmeta & Hsamples & Htemp).
    exists s', st'. split; [done|]. split; [done|]. split; [done|].
    rewrite Htemp. set (f := fun t : float => _).
    change (Nat.iter (length indices) f (f (Loop.temp s))
            = f (Nat.iter (length indices) f (Loop.temp s))).
    by rewrite <- Nat.iter_succ_r.
Qed.

Lemma for_loop_app (xs ys : list Z) (s : loop_state) (st : State W) :
  loop (xs ++ ys) s st
  = match loop xs s st with
    | (Ok (Continue, s'), st') => loop ys s' st'
    | other => other
    end.
Proof.
  revert s st. induction xs as [|i xs IH]; intros s st; simpl; [done|].
  unfold bind. by destruct (body i s st) as [[[[|] s']|e] st'].
Qed.
End LoopFacts.

Lemma sample_model_returns {W : Type} `{Collaborators W} (linear_anneal : Z)
    (vis : ndarray) (iters : Z) (sample_iter_indices : list Z)
    (start_temp final_temp : float) (callback : PyCallable W) (sample_energy : bool)
    (consts : float * float) (f : flow) (s' : loop_state) (st st' : State W)
    (last_samples : list string) :
  schedule start_temp final_temp iters = Ok consts ->
  for_loop linear_anneal sample_iter_indices callback sample_energy consts.1 consts.2
    (range_int iters) (initial vis start_temp) st = (Ok (f, s'), st') ->
  last (Loop.samples s') = Some last_samples ->
  _sample_model linear_anneal vis iters sample_iter_indices start_temp final_temp
    callback sample_energy st
  = (Ok (Loop.vis s', last_samples), st').
Proof.
  intros Hconsts Hloop Hlast. unfold _sample_model.
  unfold lift_result at 1. rewrite Hconsts.
  rewrite (bind_ok (fun s0 => (Ok consts, s0)) _ st consts st eq_refl).
  fold (initial vis start_temp). rewrite (bind_ok _ _ _ _ _ Hloop).
  unfold list_last. simpl. by rewrite Hlast.
Qed.



(** ** Binary64 facts used by the temperature schedule *)

Section Binary64.
Local Open Scope Z_scope.

Lemma shr_1_nonneg (mrs : shr_record) : 0 <= shr_m mrs -> 0 <= shr_m (shr_1 mrs).
Proof. destruct mrs as [[|[p|p|]|[p|p|]] r s]; simpl; lia. Qed.

Lemma iter_shr_1_nonneg (p : positive) (mrs : shr_record) :
  0 <= shr_m mrs -> 0 <= shr_m (SpecFloat.iter_pos shr_1 p mrs).
Proof.
  revert mrs. induction p as [p IH|p IH|]; intros mrs Hm; simpl;
    auto using shr_1_nonneg.
Qed.

Lemma shr_fexp_nonneg (m e : Z) (l : location) :
  0 <= m -> 0 <= shr_m (shr_fexp prec emax m e l).1.
Proof.
  intros Hm. unfold shr_fexp, shr.
  assert (Hrec : 0 <= shr_m (shr_record_of_loc m l)) by (by destruct l as [|[]]).
  destruct (fexp prec emax (Zdigits2 m + e) - e); simpl; auto using iter_shr_1_nonneg.
Qed.

Lemma round_nearest_even_nonneg (m : Z) (l : location) :
  0 <= m -> 0 <= round_nearest_even m l.
Proof. intros Hm. destruct l as [|[]]; simpl; try lia. destruct (Z.even m); lia. Qed.

Lemma binary_round_aux_not_nan (sx : bool) (mx ex : Z) (lx : location) :
  0 <= mx -> binary_round_aux prec emax sx mx ex lx <> S754_nan.
Proof.
  intros Hm. unfold binary_round_aux.
  pose proof (shr_fexp_nonneg mx ex lx Hm) as H1.
  destruct (shr_fexp prec emax mx ex lx) as [mrs' e']. simpl in H1.
  pose proof (shr_fexp_nonneg _ e' loc_Exact
                (round_nearest_even_nonneg _ (loc_of_shr_record mrs') H1)) as H2.
  destruct (shr_fexp prec emax _ e' loc_Exact) as [mrs'' e'']. simpl in H2.
  destruct (shr_m mrs''); [done| |lia]. by destruct (_ <=? _).
Qed.

Lemma binary_round_not_nan (sx : bool) (mx : positive) (ex : Z) :
  binary_round prec emax sx mx ex <> S754_nan.
Proof.
  unfold binary_round. destruct (shl_align _ _ _) as [mz ez].
  apply binary_round_aux_not_nan. lia.
Qed.

Lemma binary_normalize_not_nan (m e : Z) (szero : bool) :
  binary_normalize prec emax m e szero <> S754_nan.
Proof. destruct m; simpl; [done| |]; apply binary_round_not_nan. Qed.

Lemma SF2Prim_not_nan (b : spec_float) : b <> S754_nan -> Prim2SF (SF2Prim b) <> S754_nan.
Proof.
  destruct b as [[|]|[|]| |s m e]; intros Hb; try done.
  unfold SF2Prim.
  assert (Hld : Prim2SF (Z.ldexp (of_uint63 (Uint63.of_Z (Z.pos m))) e) <> S754_nan).
  { unfold Z.ldexp. rewrite ldshiftexp_spec, of_uint63_spec.
    pose proof (binary_normalize_not_nan (Uint63.to_Z (Uint63.of_Z (Z.pos m))) 0 false) as Hn.
    destruct (binary_normalize prec emax _ 0 false); try done.
    apply binary_round_not_nan. }
  destruct s; [|done]. rewrite opp_spec.
  by destruct (Prim2SF (Z.ldexp _ e)).
Qed.

Lemma float_of_int_not_nan (z : Z) (n : float) :
  float_of_int z = Ok n -> Prim2SF n <> S754_nan.
Proof.
  unfold float_of_int. destruct (is_infinity _); [discriminate|]. intros [= <-].
  apply SF2Prim_not_nan, binary_normalize_not_nan.
Qed.

(** A float that is finite and not zero *)
Lemma finite_nonzero (x : float) :
  is_finite x = true -> (x =? 0)%float = false ->
  exists s m e, Prim2SF x = S754_finite s m e.
Proof.
  unfold is_finite, is_nan, is_infinity.
  rewrite !FloatAxioms.eqb_spec, abs_spec.
  destruct (Prim2SF x) as [[|]|[|]| |s m e]; try discriminate. eauto.
Qed.

Lemma sub_diag_finite (x : float) (s : bool) (m : positive) (e : Z) :
  Prim2SF x = S754_finite s m e -> Prim2SF (x - x)%float = S754_zero false.
Proof.
  intros Hx. rewrite sub_spec, Hx. unfold SF64sub, SFsub.
  by rewrite Z.sub_diag.
Qed.

Lemma zero_div (z n : float) :
  Prim2SF z = S754_zero false ->
  Prim2SF n <> S754_nan -> (n =? 0)%float = false ->
  exists s, Prim2SF (z / n)%float = S754_zero s.
Proof.
  intros Hz Hnan. rewrite FloatAxioms.eqb_spec, div_spec, Hz.
  destruct (Prim2SF n) as [[|]|[|]| |s m e]; try done; simpl; eauto.
Qed.

Lemma add_zero_finite (x d : float) (s sd : bool) (m : positive) (e : Z) :
  Prim2SF x = S754_finite s m e -> Prim2SF d = S754_zero sd -> (x + d)%float = x.
Proof.
  intros Hx Hd. apply Prim2SF_inj. by rewrite add_spec, Hx, Hd.
Qed.
End Binary64.

(** ** Sampling with no callback *)

Section LambdaNone.
Context {W : Type} `{Collaborators W}.
Variable linear_anneal : Z.
Variable sample_iter_indices : list Z.
Variable sample_energy : bool.
Variables temp_decay temp_delta : float.

Local Abbreviation body :=
  (loop_body linear_anneal sample_iter_indices lambda_none sample_energy
     temp_decay temp_delta).
Local Abbreviation loop :=
  (for_loop linear_anneal sample_iter_indices lambda_none sample_energy
     temp_decay temp_delta).

(** [lambda: None] takes no argument and the loop passes two or three. *)
Lemma lambda_none_call (st : State W) (s : loop_state) (strings : list string) (i : Z) :
  py_call lambda_none (callback_args sample_energy st s strings i) st
  = (Raise TypeError, st).
Proof. unfold py_call, callback_args. by destruct sample_energy. Qed.

Lemma loop_body_lambda_none (i : Z) (s : loop_state) (st : State W) :
  sample_iter_indices !! Loop.next_sample_metaindex s = Some i ->
  body i s st = (Raise TypeError, st).
Proof.
  intros Hsome. unfold loop_body, list_getitem. rewrite Hsome.
  rewrite (bind_ok (ret i) _ st i st eq_refl). case_decide; [|done].
  erewrite bind_raise; [reflexivity|].
  destruct (np_iter (Loop.vis s)) as [rows|e] eqn:Hrows.
  - eapply take_samples_raises; [exact Hrows | apply lambda_none_call].
  - unfold take_samples. rewrite (bind_ok get _ st st st eq_refl).
    unfold lift_result, bind. rewrite Hrows.
    unfold np_iter in Hrows. destruct (shape (Loop.vis s)); by simplify_eq.
Qed.

(** With [lambda: None] for a callback the loop raises or ends without
    having recorded anything. *)
Lemma for_loop_lambda_none (indices : list Z) (s : loop_state) (st : State W) :
  Loop.samples s = [] ->
  (exists e st', loop indices s st = (Raise e, st')) \/
  (exists s' st', loop indices s st = (Ok (Continue, s'), st') /\ Loop.samples s' = []).
Proof.
  revert s st. induction indices as [|i indices IH]; intros s st Hnil; simpl.
  - right. by exists s, st.
  - destruct (sample_iter_indices !! Loop.next_sample_metaindex s) as [pending|] eqn:Hp.
    + destruct (decide (i = pending)) as [->|Hne].
      * left. exists TypeError, st.
        by rewrite (bind_raise _ _ _ _ _ (loop_body_lambda_none pending s st Hp)).
      * rewrite (bind_ok _ _ _ _ _
                   (loop_body_skip _ _ _ _ _ _ i pending s st Hp Hne)).
        by apply IH.
    + left. exists IndexError, st.
      by rewrite (bind_raise _ _ _ _ _ (loop_body_no_pending _ _ _ _ _ _ i s st Hp)).
Qed.
End LambdaNone.

Lemma sample_model_lambda_none_raises {W : Type} `{Collaborators W} (linear_anneal : Z)
    (vis : ndarray) (iters : Z) (sample_iter_indices : list Z)
    (start_temp final_temp : float) (sample_energy : bool) (st : State W) :
  exists e st',
    _sample_model linear_anneal vis iters sample_iter_indices start_temp final_temp
      lambda_none sample_energy st = (Raise e, st').
Proof.
  unfold _sample_model, lift_result.
  destruct (schedule start_temp final_temp iters) as [consts|e] eqn:Hconsts.
  - rewrite (bind_ok (fun s0 => (Ok consts, s0)) _ st consts st eq_refl).
    destruct (for_loop_lambda_none linear_anneal sample_iter_indices sample_energy
                consts.1 consts.2 (range_int iters) (initial vis start_temp) st eq_refl)
      as [(e & st' & Hloop)|(s' & st' & Hloop & Hnil)].
    + exists e, st'. by rewrite (bind_raise _ _ _ _ _ Hloop).
    + exists IndexError, st'. rewrite (bind_ok _ _ _ _ _ Hloop).
      unfold list_last. simpl. by rewrite Hnil.
  - exists e, st. reflexivity.
Qed.

Lemma with_raises {W A : Type} (mgr : shrink_model.obj) (body : SE (State W) A) :
  (forall st, exists e st', body st = (Raise e, st')) ->
  forall st, exists e st', with_ mgr body st = (Raise e, st').
Proof.
  intros Hbody st. unfold with_.
  destruct (on_model (shrink_model.__enter__ mgr) st) as [[mgr'|e] st1]; [|by eauto].
  destruct (Hbody st1) as (e & st2 & ->).
  destruct (on_model (shrink_model.__exit__ mgr') st2) as [[[]|e'] st3]; eauto.
Qed.

(** C5, what the code does: with [callback=None] the callback becomes a
    function of no arguments, which the loop calls with two or three; so
    [sample_model] never returns a result, whatever its other arguments:
    it raises (a [TypeError] at the first checkpoint it reaches, when
    nothing else fails before). *)
Theorem sample_model_callback_none_raises {W : Type} `{Collaborators W}
    (linear_anneal : Z) (n : nat) (iters : Z) (sample_iter_indices : list Z)
    (start_temp final_temp : float) (init_method : init_arg)
    (training_examples : option string) (sample_energy : bool)
    (starting_vis : option ndarray) (min_length max_length : Z) (st : State W) :
  exists e st',
    sample_model linear_anneal n iters sample_iter_indices start_temp final_temp None
      init_method training_examples sample_energy starting_vis min_length max_length st
    = (Raise e, st').
Proof.
  unfold sample_model.
  match goal with |- context [bind ?c _ st] => destruct (c st) as [[vis|e] st1] eqn:Hvis end;
    [|exists e, st1; by rewrite (bind_raise _ _ _ _ _ Hvis)].
  rewrite (bind_ok _ _ _ _ _ Hvis).
  destruct (negb (min_length =? 0)%Z || negb (max_length =? 0)%Z).
  - rewrite (bind_ok get _ st1 st1 st1 eq_refl). unfold with_shrink_model.
    rewrite (bind_ok get _ st1 st1 st1 eq_refl). unfold lift_result at 1.
    destruct (shrink_model.__init__ _ _ _) as [mgr|e]; [|by exists e, st1].
    rewrite (bind_ok (fun s0 => (Ok mgr, s0)) _ st1 mgr st1 eq_refl).
    apply with_raises. intros st2. apply sample_model_lambda_none_raises.
  - apply sample_model_lambda_none_raises.
Qed.

(** The spec's scenario with [callback=None]: a [TypeError] at the one
    checkpoint, after the two transitions. *)
Example sample_model_callback_none_scenario :
  sample_model 0 2 3 [2%Z] 1 1 None (Member VisInit.zeros) None false None 0 0 Demo.state0
  = (Raise TypeError, {| model := Demo.model0; ext := [Demo.Gibbs 1; Demo.Gibbs 1] |}).
Proof. vm_compute. reflexivity. Qed.

(** ** Runs that reach no checkpoint *)

Lemma range_int_bounds (iters i : Z) :
  i ∈ range_int iters -> (0 <= i < iters)%Z.
Proof.
  unfold range_int. intros (k & -> & [_ Hk]%elem_of_seq)%list_elem_of_fmap. lia.
Qed.

Lemma range_int_nonpositive (iters : Z) : (iters <= 0)%Z -> range_int iters = [].
Proof. intros Hle. unfold range_int. by replace (Z.to_nat iters) with 0 by lia. Qed.

(** C10 (as amended): when the list of checkpoints is empty, or none of
    them lies in [0, iters), [_sample_model] returns no result: it raises.
    The exception is the one of the schedule when computing [temp_decay]
    and [temp_delta] fails (a [ZeroDivisionError] for [iters = 0] or a
    zero [start_temp], or what the power raises), and otherwise an
    [IndexError], from indexing the empty list or from [samples[-1]]. *)
Theorem sample_model_no_checkpoint_reached {W : Type} `{Collaborators W}
    (linear_anneal : Z) (vis : ndarray) (iters : Z) (sample_iter_indices : list Z)
    (start_temp final_temp : float) (callback : PyCallable W) (sample_energy : bool)
    (st : State W) :
  sample_iter_indices = [] \/
  Forall (fun x => (x < 0 \/ iters <= x)%Z) sample_iter_indices ->
  exists st',
    _sample_model linear_anneal vis iters sample_iter_indices start_temp final_temp
      callback sample_energy st
    = (match schedule start_temp final_temp iters with
       | Raise e => Raise e
       | Ok _ => Raise IndexError
       end, st').
Proof.
  intros Hidx. unfold _sample_model, lift_result.
  destruct (schedule start_temp final_temp iters) as [consts|e] eqn:Hconsts;
    [|by exists st].
  rewrite (bind_ok (fun s0 => (Ok consts, s0)) _ st consts st eq_refl).
  fold (initial vis start_temp).
  destruct sample_iter_indices as [|pending rest] eqn:Hlist.
  - destruct (range_int iters) as [|i indices].
    + exists st. reflexivity.
    + exists st. simpl.
      by rewrite (bind_raise _ _ _ _ _
                    (bind_raise _ _ _ _ _
                       (loop_body_no_pending _ [] _ _ _ _ i (initial vis start_temp) st eq_refl))).
  - destruct Hidx as [|Hout]; [done|]. apply Forall_cons in Hout as [Hpending _].
    destruct (for_loop_skip linear_anneal (pending :: rest) callback sample_energy
                consts.1 consts.2 (range_int iters) pending (initial vis start_temp) st)
      as (s' & st' & Hloop & _ & Hsamples & _); [done| |].
    { apply Forall_forall. intros i Hi%range_int_bounds. lia. }
    exists st'. rewrite (bind_ok _ _ _ _ _ Hloop).
    unfold list_last. simpl. by rewrite Hsamples.
Qed.

Lemma sample_model_no_checkpoint_reached_witness :
  (exists st',
     _sample_model 0 Demo.vis0 3 [] 1 1 Demo.keep_strings false Demo.state0
     = (Raise IndexError, st')) /\
  (exists st',
     _sample_model 0 Demo.vis0 3 [3%Z; 7%Z] 1 1 Demo.keep_strings false Demo.state0
     = (Raise IndexError, st')).
Proof.
  split.
  - refine (sample_model_no_checkpoint_reached 0 Demo.vis0 3 [] 1 1 Demo.keep_strings
              false Demo.state0 _). by left.
  - refine (sample_model_no_checkpoint_reached 0 Demo.vis0 3 [3%Z; 7%Z] 1 1
              Demo.keep_strings false Demo.state0 _).
    right. repeat constructor; lia.
Defined.

(** C10, where the sentence fails as written: with no iteration asked for
    and no checkpoint, what is raised is the division by zero of the
    schedule, not an indexing error. *)
Lemma sample_model_no_checkpoint_zero_iters :
  _sample_model 0 Demo.vis0 0 [] 1 1 Demo.keep_strings false Demo.state0
  = (Raise ZeroDivisionError, Demo.state0) /\
  ZeroDivisionError <> IndexError.
Proof. split; [reflexivity | discriminate]. Qed.

(** ** Runs of no iteration *)

Lemma schedule_zero_iters {W : Type} `{Collaborators W} (start_temp final_temp : float) :
  schedule start_temp final_temp 0 = Raise ZeroDivisionError.
Proof.
  unfold schedule, float_truediv. by destruct (start_temp =? 0)%float.
Qed.

(** C6 (as amended): the code has no check of [iters]. With [iters = 0]
    the schedule's own division raises [ZeroDivisionError]; with
    [iters < 0] the schedule is computed (unless [start_temp] is zero or
    the power fails), the loop body never runs and [samples[-1]] raises
    [IndexError]. Either way nothing is returned, and no transition or
    callback has run: the store is unchanged. *)
Theorem sample_model_nonpositive_iters {W : Type} `{Collaborators W}
    (linear_anneal : Z) (vis : ndarray) (iters : Z) (sample_iter_indices : list Z)
    (start_temp final_temp : float) (callback : PyCallable W) (sample_energy : bool)
    (st : State W) :
  (iters = 0%Z ->
   _sample_model linear_anneal vis iters sample_iter_indices start_temp final_temp
     callback sample_energy st = (Raise ZeroDivisionError, st)) /\
  ((iters < 0)%Z ->
   _sample_model linear_anneal vis iters sample_iter_indices start_temp final_temp
     callback sample_energy st
   = (match schedule start_temp final_temp iters with
      | Raise e => Raise e
      | Ok _ => Raise IndexError
      end, st)).
Proof.
  split.
  - intros ->. unfold _sample_model, lift_result. by rewrite schedule_zero_iters.
  - intros Hneg. unfold _sample_model, lift_result.
    destruct (schedule start_temp final_temp iters) as [consts|e]; [|done].
    rewrite (bind_ok (fun s0 => (Ok consts, s0)) _ st consts st eq_refl).
    by rewrite range_int_nonpositive by lia.
Qed.

Lemma sample_model_nonpositive_iters_witness :
  _sample_model 0 Demo.vis0 0 [0%Z] 1 1 Demo.keep_strings false Demo.state0
  = (Raise ZeroDivisionError, Demo.state0) /\
  _sample_model 0 Demo.vis0 (-1) [0%Z] 1 1 Demo.keep_strings false Demo.state0
  = (Raise IndexError, Demo.state0).
Proof.
  split.
  - refine (proj1 (sample_model_nonpositive_iters 0 Demo.vis0 0 [0%Z] 1 1
                     Demo.keep_strings false Demo.state0) _). reflexivity.
  - refine (proj2 (sample_model_nonpositive_iters 0 Demo.vis0 (-1) [0%Z] 1 1
                     Demo.keep_strings false Demo.state0) _). lia.
Defined.

(** C6, where the sentence fails as written: neither exception is one of
    those with which the module rejects its arguments, and with
    [iters = -1] the schedule has been computed before anything is
    raised. *)
Lemma sample_model_iters_not_rejected :
  _sample_model 0 Demo.vis0 0 [0%Z] 1 1 Demo.keep_strings false Demo.state0
  = (Raise ZeroDivisionError, Demo.state0) /\
  configuration_error ZeroDivisionError = false /\
  schedule (W := Demo.world) 1 1 (-1) = Ok (1%float, (-0)%float) /\
  _sample_model 0 Demo.vis0 (-1) [0%Z] 1 1 Demo.keep_strings false Demo.state0
  = (Raise IndexError, Demo.state0) /\
  configuration_error IndexError = false.
Proof. repeat split; vm_compute; reflexivity. Qed.

(** ** The temperatures of a run *)

Section Temperatures.
Context {W : Type} `{Collaborators W}.
Variable linear_anneal : Z.
Variable sample_iter_indices : list Z.
Variable callback : PyCallable W.
Variable sample_energy : bool.
Variables temp_decay temp_delta : float.

Local Abbreviation body :=
  (loop_body linear_anneal sample_iter_indices callback sample_energy temp_decay temp_delta).
Local Abbreviation loop :=
  (for_loop linear_anneal sample_iter_indices callback sample_energy temp_decay temp_delta).
Local Abbreviation next_temp :=
  (fun t : float => if decide (linear_anneal <> 0%Z)
                    then (t + temp_delta)%float else (t * temp_decay)%float).

Lemma take_samples_keeps_temp (i : Z) (s s' : loop_state) (f : flow) (st st' : State W) :
  take_samples sample_iter_indices callback sample_energy i s st = (Ok (f, s'), st') ->
  Loop.temp s' = Loop.temp s.
Proof.
  unfold take_samples. intros Hrun.
  inv_bind Hrun. inv_bind Hrun. inv_bind Hrun.
  case_decide; injection Hrun as _ <- _; reflexivity.
Qed.

Lemma loop_body_moves_temp (i : Z) (s s' : loop_state) (st st' : State W) :
  body i s st = (Ok (Continue, s'), st') -> Loop.temp s' = next_temp (Loop.temp s).
Proof.
  unfold loop_body. intros Hrun. inv_bind Hrun. inv_bind Hrun.
  destruct a0 as [[|] mid]; [|discriminate].
  inv_bind Hrun. rewrite transition_run in Hrun_run1.
  injection Hrun_run1 as <- _. injection Hrun as <- _. simpl.
  case_decide.
  - apply take_samples_keeps_temp in Hrun_run0. by rewrite Hrun_run0.
  - by injection Hrun_run0 as <- _.
Qed.

(** As long as the loop goes on, every iteration moves the temperature
    one step. *)
Lemma for_loop_temp (indices : list Z) (s s' : loop_state) (st st' : State W) :
  loop indices s st = (Ok (Continue, s'), st') ->
  Loop.temp s' = Nat.iter (length indices) next_temp (Loop.temp s).
Proof.
  revert s st. induction indices as [|i indices IH]; intros s st; simpl.
  - by intros [= <- _].
  - intros Hrun. inv_bind Hrun. destruct a as [[|] mid]; [|discriminate].
    apply loop_body_moves_temp in Hrun_run. apply IH in Hrun.
    rewrite Hrun, Hrun_run. symmetry. exact (Nat.iter_succ_r _ _ _).
Qed.
End Temperatures.

Lemma range_int_length (k : nat) : length (range_int (Z.of_nat k)) = k.
Proof. unfold range_int. by rewrite length_fmap, length_seq, Nat2Z.id. Qed.

Lemma range_int_prefix (k : nat) (iters : Z) :
  (Z.of_nat k <= iters)%Z ->
  range_int iters
  = range_int (Z.of_nat k) ++ (Z.of_nat <$> seq k (Z.to_nat iters - k)).
Proof.
  intros Hk. unfold range_int. rewrite Nat2Z.id, <- fmap_app.
  replace (Z.to_nat iters) with (k + (Z.to_nat iters - k)) at 1 by lia.
  by rewrite seq_app.
Qed.

Lemma schedule_delta {W : Type} `{Collaborators W} (start_temp final_temp : float)
    (iters : Z) (consts : float * float) :
  schedule start_temp final_temp iters = Ok consts ->
  (start_temp =? 0)%float = false /\
  exists n, float_of_int iters = Ok n /\ (n =? 0)%float = false /\
            consts.2 = ((final_temp - start_temp) / n)%float.
Proof.
  unfold schedule, float_truediv at 1.
  destruct (start_temp =? 0)%float; [discriminate|].
  destruct (int_truediv 1 iters); [|discriminate].
  destruct (float_pow _ _); [|discriminate].
  unfold float_int_truediv, float_truediv.
  destruct (float_of_int iters) as [n|]; [|discriminate].
  destruct (n =? 0)%float eqn:Hn; [discriminate|].
  intros [= <-]. split; [done|]. by exists n.
Qed.

(** C8 (as amended): under the linear policy the temperatures are
    [temp_0 = start_temp] and [temp_{k+1} = temp_k + temp_delta] in
    binary64 arithmetic, where [temp_delta = (final_temp - start_temp) /
    iters] is computed once: the variables with which iteration [k] starts
    hold [start_temp] plus [k] additions of [temp_delta], that is the
    temperature the transition of that iteration is given, and the
    transition leaves it one more addition further. When [final_temp] is
    [start_temp] and finite, every addition leaves it as it is. *)
Theorem linear_anneal_temperatures {W : Type} `{Collaborators W}
    (linear_anneal : Z) (sample_iter_indices : list Z) (callback : PyCallable W)
    (sample_energy : bool) (start_temp final_temp : float) (iters : Z)
    (consts : float * float) :
  linear_anneal <> 0%Z ->
  schedule start_temp final_temp iters = Ok consts ->
  let temp_at := fun k => Nat.iter k (fun t => (t + consts.2)%float) start_temp in
  (exists n, float_of_int iters = Ok n /\
             consts.2 = ((final_temp - start_temp) / n)%float) /\
  (forall vis k st,
     (Z.of_nat k <= iters)%Z ->
     for_loop linear_anneal sample_iter_indices callback sample_energy consts.1 consts.2
       (range_int iters) (initial vis start_temp) st
     = match for_loop linear_anneal sample_iter_indices callback sample_energy
               consts.1 consts.2 (range_int (Z.of_nat k)) (initial vis start_temp) st with
       | (Ok (Continue, s_k), st_k) =>
           for_loop linear_anneal sample_iter_indices callback sample_energy
             consts.1 consts.2 (Z.of_nat <$> seq k (Z.to_nat iters - k)) s_k st_k
       | stopped => stopped
       end) /\
  (forall vis k s_k st st_k,
     for_loop linear_anneal sample_iter_indices callback sample_energy consts.1 consts.2
       (range_int (Z.of_nat k)) (initial vis start_temp) st = (Ok (Continue, s_k), st_k) ->
     Loop.temp s_k = temp_at k /\
     forall st', let after := after_transition linear_anneal consts.1 consts.2 s_k st' in
       Loop.vis after.1 = (gibbs (model st') (Loop.vis s_k) (temp_at k) (ext st')).1 /\
       Loop.temp after.1 = temp_at (S k)) /\
  (final_temp = start_temp -> is_finite start_temp = true ->
   forall k, temp_at k = start_temp).
Proof.
  intros Hlinear Hconsts temp_at.
  destruct (schedule_delta _ _ _ _ Hconsts) as (Hstart & n & Hn & Hn0 & Hdelta).
  split; [by exists n|]. split; [|split].
  - intros vis k st Hk. rewrite (range_int_prefix k iters Hk) at 1. apply for_loop_app.
  - intros vis k s_k st st_k Hloop. apply for_loop_temp in Hloop.
    rewrite range_int_length in Hloop. simpl in Hloop.
    assert (Htemp : Loop.temp s_k = temp_at k).
    { rewrite Hloop. unfold temp_at. clear Hloop. induction k as [|k IH]; [done|].
      simpl. rewrite IH. by case_decide. }
    split; [done|]. intros st' after. subst after. unfold after_transition. simpl.
    rewrite Htemp. split; [done|]. by case_decide.
  - intros -> Hfinite k.
    destruct (finite_nonzero start_temp Hfinite Hstart) as (s & m & e & Hx).
    destruct (zero_div (start_temp - start_temp)%float n) as [sd Hd];
      [by eapply sub_diag_finite | by eapply float_of_int_not_nan | done |].
    rewrite <- Hdelta in Hd. unfold temp_at.
    induction k as [|k IH]; [done|]. simpl. rewrite IH.
    by eapply add_zero_finite.
Qed.

Lemma linear_anneal_temperatures_witness :
  for_loop 1 [9%Z] Demo.keep_strings false 1.0717734625362931 0.1 (range_int 2)
    (initial Demo.vis0 1) Demo.state0
  = (Ok (Continue, initial Demo.vis0 1.2000000000000002),
     {| model := Demo.model0; ext := [Demo.Gibbs 1; Demo.Gibbs 1.1] |}) /\
  Loop.temp (initial Demo.vis0 1.2000000000000002)
  = Nat.iter 2 (fun t => (t + 0.1)%float) 1%float /\
  (forall k, Nat.iter k (fun t => (t + 0)%float) 1%float = 1%float).
Proof.
  assert (Hrun : for_loop 1 [9%Z] Demo.keep_strings false 1.0717734625362931 0.1
                   (range_int 2) (initial Demo.vis0 1) Demo.state0
                 = (Ok (Continue, initial Demo.vis0 1.2000000000000002),
                    {| model := Demo.model0; ext := [Demo.Gibbs 1; Demo.Gibbs 1.1] |}))
    by (vm_compute; reflexivity).
  assert (Hrising : schedule (W := Demo.world) 1 2 10
                    = Ok (1.0717734625362931%float, 0.1%float))
    by (vm_compute; reflexivity).
  assert (Hflat : schedule (W := Demo.world) 1 1 3 = Ok (1%float, 0%float))
    by (vm_compute; reflexivity).
  split; [exact Hrun|]. split.
  - destruct (linear_anneal_temperatures 1 [9%Z] Demo.keep_strings false 1 2 10
                (1.0717734625362931%float, 0.1%float) ltac:(lia) Hrising)
      as (_ & _ & Hat & _).
    exact (proj1 (Hat Demo.vis0 2 _ Demo.state0 _ Hrun)).
  - destruct (linear_anneal_temperatures 1 [9%Z] Demo.keep_strings false 1 1 3
                (1%float, 0%float) ltac:(lia) Hflat)
      as (_ & _ & _ & Hconstant).
    exact (Hconstant eq_refl eq_refl).
Defined.

(** C8, where the sentence fails as written: from 1 to 2 in ten iterations
    the step is 0.1 and the third transition is given 1.2000000000000002,
    the sum of two rounded additions, while [start_temp + i * (final_temp -
    start_temp) / iters] is 1.2 for [i = 2]. *)
Lemma linear_anneal_closed_form_fails :
  ext (_sample_model 1 Demo.vis0 10 [9%Z] 1 2 Demo.keep_strings false Demo.state0).2 !! 2
  = Some (Demo.Gibbs 1.2000000000000002) /\
  (1 + 2 * (2 - 1) / 10)%float = 1.2%float /\
  (1.2000000000000002 =? 1.2)%float = false.
Proof. repeat split; vm_compute; reflexivity. Qed.

(** ** Whole runs of [sample_model] *)

(** The spec's scenario: five positions, four symbols, two rows of zeros,
    three iterations, the one checkpoint 2, constant temperature. *)
Example sample_model_scenario :
  sample_model LINEAR_ANNEAL 2 3 [2%Z] 1 1 (Some Demo.keep_strings)
    (Member VisInit.zeros) None false None 0 0 Demo.state0
  = (Ok (Demo.vis0, [Demo.dots; Demo.dots]),
     {| model := Demo.model0;
        ext := [Demo.Gibbs 1; Demo.Gibbs 1; Demo.Logged 0 (Demo.dots +:+ Demo.dots)] |}).
Proof. vm_compute. reflexivity. Qed.

(** The same run between the bounds 2 and 3: the result is the same and
    the model is back as it was. *)
Example sample_model_scenario_bounded :
  sample_model LINEAR_ANNEAL 2 3 [2%Z] 1 1 (Some Demo.keep_strings)
    (Member VisInit.zeros) None false None 2 3 Demo.state0
  = (Ok (Demo.vis0, [Demo.dots; Demo.dots]),
     {| model := Demo.model0;
        ext := [Demo.Gibbs 1; Demo.Gibbs 1; Demo.Logged 0 (Demo.dots +:+ Demo.dots)] |}).
Proof. vm_compute. reflexivity. Qed.

(** With the default callback and no energies the run stops at the
    checkpoint with the recorder's [TypeError]. *)
Example sample_model_scenario_default_callback :
  sample_model LINEAR_ANNEAL 2 3 [2%Z] 1 1 (Some print_sample_callback_obj)
    (Member VisInit.zeros) None false None 0 0 Demo.state0
  = (Raise TypeError,
     {| model := Demo.model0; ext := [Demo.Gibbs 1; Demo.Gibbs 1] |}).
Proof. vm_compute. reflexivity. Qed.

(** * Further properties *)

(** ** The scope, on the whole model *)

Lemma init_Ok_inv (m : Model) (min_length max_length : Z) (mgr : shrink_model.obj) :
  shrink_model.__init__ m min_length max_length = Ok mgr ->
  (1 <= max_length <= Z.of_nat (maxlen (codec m)))%Z /\
  (0 <= min_length <= Z.of_nat (maxlen (codec m)))%Z /\
  mgr = {| shrink_model.min_length := Z.to_nat min_length;
           shrink_model.max_length := Z.to_nat max_length;
           shrink_model.prev_biases := [] |}.
Proof.
  unfold shrink_model.__init__.
  destruct (Z.leb_spec 1 max_length); simpl; [|discriminate].
  destruct (Z.leb_spec max_length (Z.of_nat (maxlen (codec m)))); simpl; [|discriminate].
  destruct (Z.leb_spec 0 min_length); simpl; [|discriminate].
  destruct (Z.leb_spec min_length (Z.of_nat (maxlen (codec m)))); simpl; [|discriminate].
  intros [= <-]. repeat split; lia || reflexivity.
Qed.

Lemma init_rejects (m : Model) (min_length max_length : Z) :
  ~ (1 <= max_length <= Z.of_nat (maxlen (codec m)))%Z \/
  ~ (0 <= min_length <= Z.of_nat (maxlen (codec m)))%Z ->
  shrink_model.__init__ m min_length max_length = Raise (AssertionError "").
Proof.
  intros Hbad. unfold shrink_model.__init__.
  destruct (Z.leb_spec 1 max_length); simpl; [|done].
  destruct (Z.leb_spec max_length (Z.of_nat (maxlen (codec m)))); simpl; [|done].
  destruct (Z.leb_spec 0 min_length); simpl; [|done].
  destruct (Z.leb_spec min_length (Z.of_nat (maxlen (codec m)))); simpl; [exfalso; lia|done].
Qed.

(** Every entry of the bias vector is the padding symbol's at some
    position, or another symbol's. *)
Lemma bias_index_cases (c : Codec) (padidx j : nat) :
  padidx < nchars c -> j < maxlen c * nchars c ->
  (exists posn, posn < maxlen c /\ j = pad_index c padidx posn) \/
  j mod nchars c <> padidx.
Proof.
  intros Hpad Hj. destruct (decide (j mod nchars c = padidx)) as [Hmod|]; [left|by right].
  exists (j / nchars c). split.
  - apply Nat.Div0.div_lt_upper_bound. lia.
  - unfold pad_index. rewrite <- Hmod. apply Nat.div_mod_eq.
Qed.

(** Leaving the scope whose entry saved [prev] writes [prev] back and
    nothing else, and keeps the vector's length. *)
Lemma exit_writes_back (self : shrink_model.obj) (m : Model) (padidx : nat) :
  char_lookup (codec m) !! filler (codec m) = Some padidx ->
  padidx < nchars (codec m) ->
  length (intercept_visible_ m) = maxlen (codec m) * nchars (codec m) ->
  length (shrink_model.prev_biases self) = maxlen (codec m) ->
  exists b,
    shrink_model.__exit__ self m = (Ok tt, {| codec := codec m; intercept_visible_ := b |}) /\
    length b = length (intercept_visible_ m) /\
    (forall posn, posn < maxlen (codec m) ->
       b !! pad_index (codec m) padidx posn = shrink_model.prev_biases self !! posn) /\
    (forall j, j mod nchars (codec m) <> padidx -> b !! j = intercept_visible_ m !! j).
Proof.
  intros Hlook Hpad Hlen Hprev.
  destruct (for_each_setitem padidx (shrink_model.prev_biases self) 0 m Hpad)
    as (b & Hrun & Hblen & Hhit & Hmiss).
  { intros p Hp. rewrite Hlen. apply pad_index_lt; [done|lia]. }
  exists b. unfold shrink_model.__exit__.
  rewrite (bind_ok get _ m m m eq_refl).
  unfold dict_getitem. rewrite Hlook.
  rewrite (bind_ok (ret padidx) _ m padidx m eq_refl).
  unfold enumerate. rewrite Hrun. split; [reflexivity|]. split; [done|]. split.
  - intros posn Hposn.
    destruct (lookup_lt_is_Some_2 (shrink_model.prev_biases self) posn) as [v Hv]; [lia|].
    rewrite Hv. by apply (Hhit posn v).
  - intros j Hj. apply Hmiss. intros p _. by apply not_pad_index.
Qed.

Lemma model_eq (m : Model) (b : list float) :
  b = intercept_visible_ m -> {| codec := codec m; intercept_visible_ := b |} = m.
Proof. intros ->. by destruct m. Qed.

(** X1: a scope around a block that leaves the model as it finds it
    leaves the whole model as it found it, entry for entry, for any
    bounds, accepted or not, and whether the block returns or raises. So
    scopes nest, and the scope can stand around any such block. *)
Theorem with_shrink_model_keeps_model {W A : Type} (padidx : nat)
    (min_length max_length : Z) (body : SE (State W) A) :
  keeps_model padidx body ->
  keeps_model padidx (with_shrink_model min_length max_length body).
Proof.
  intros Hbody st Hwf. unfold with_shrink_model, bind, get, lift_result.
  destruct (shrink_model.__init__ (model st) min_length max_length) as [mgr|e] eqn:Hinit;
    [|done].
  apply init_Ok_inv in Hinit as (Hmax & Hmin & ->).
  set (mgr := {| shrink_model.min_length := Z.to_nat min_length;
                 shrink_model.max_length := Z.to_nat max_length;
                 shrink_model.prev_biases := [] |}).
  destruct (enter_spec mgr (model st) padidx Hwf)
    as (prev & b & Henter & Hplen & Hblen & Hpad & Hother).
  { simpl. lia. }
  destruct Hwf as (Hlook & Hlt & Hlen).
  unfold with_, on_model at 1. rewrite Henter.
  set (st_in := {| model := {| codec := codec (model st); intercept_visible_ := b |};
                   ext := ext st |}).
  assert (Hin : wf_model (model st_in) padidx).
  { repeat split; simpl; [done|done|congruence]. }
  pose proof (Hbody st_in Hin) as Hkept.
  destruct (body st_in) as [r st2]. simpl in Hkept.
  destruct (exit_writes_back
              {| shrink_model.min_length := shrink_model.min_length mgr;
                 shrink_model.max_length := shrink_model.max_length mgr;
                 shrink_model.prev_biases := prev |} (model st2) padidx)
    as (b' & Hexit & Hb'len & Hback & Hrest); rewrite ?Hkept; simpl; try done; try congruence.
  subst mgr. simpl in Hexit, Hback. unfold on_model. rewrite Hexit.
  rewrite Hkept in *. simpl in *.
  apply model_eq. apply list_eq. intros j.
  destruct (decide (j < maxlen (codec (model st)) * nchars (codec (model st)))) as [Hj|Hj].
  - destruct (bias_index_cases (codec (model st)) padidx j Hlt Hj) as [(posn & Hposn & ->)|Hmod].
    + rewrite (Hback posn Hposn). by destruct (Hpad posn Hposn) as [-> _].
    + by rewrite (Hrest j Hmod), (Hother j Hmod).
  - rewrite !lookup_ge_None_2; [done|lia|lia].
Qed.

Lemma with_shrink_model_keeps_model_witness :
  model (with_shrink_model 2 3
           (with_shrink_model 1 4
              (on_ext (fun w => (tt, w ++ [Demo.Logged 0 "block"]))))
           Demo.state0).2
  = Demo.model0.
Proof.
  refine (with_shrink_model_keeps_model 3 2 3 _ _ Demo.state0 _).
  - apply with_shrink_model_keeps_model. intros st _. reflexivity.
  - split; [reflexivity|]. split; [simpl; lia | reflexivity].
Defined.

(** ** Scopes that cannot be entered *)

(** Reading biases changes nothing; it fails with [IndexError] only, and
    when it succeeds every index read is inside the vector. *)
Lemma list_comp_getitem_frame (idx : nat -> nat) (posns : list nat) (m : Model) :
  (exists prev, list_comp (fun p => bias_getitem (idx p)) posns m = (Ok prev, m) /\
                Forall (fun p => idx p < length (intercept_visible_ m)) posns) \/
  (list_comp (fun p => bias_getitem (idx p)) posns m = (Raise IndexError, m) /\
   Exists (fun p => length (intercept_visible_ m) <= idx p) posns).
Proof.
  induction posns as [|p posns IH].
  - left. by exists [].
  - assert (Hstep : list_comp (fun p => bias_getitem (idx p)) (p :: posns) m
                    = match intercept_visible_ m !! idx p with
                      | Some x =>
                          match list_comp (fun p => bias_getitem (idx p)) posns m with
                          | (Ok ys, m') => (Ok (x :: ys), m')
                          | (Raise e, m') => (Raise e, m')
                          end
                      | None => (Raise IndexError, m)
                      end).
    { simpl. unfold bind, bias_getitem, ret.
      destruct (intercept_visible_ m !! idx p); [|reflexivity].
      by destruct (list_comp _ posns m) as [[ys|e] m']. }
    rewrite Hstep. clear Hstep.
    destruct (intercept_visible_ m !! idx p) as [x|] eqn:Hx.
    + apply lookup_lt_Some in Hx.
      destruct IH as [(prev & -> & Hall)|[-> Hex]].
      * left. exists (x :: prev). split; [reflexivity|]. by constructor.
      * right. split; [reflexivity|]. by apply Exists_cons_tl.
    + apply lookup_ge_None_1 in Hx. right. split; [reflexivity|]. by apply Exists_cons_hd.
Qed.

(** Adding to entries inside the vector cannot fail. *)
Lemma for_each_iadd_total (idx : nat -> nat) (v : float) (posns : list nat) (m : Model) :
  Forall (fun p => idx p < length (intercept_visible_ m)) posns ->
  exists b,
    for_each posns (fun p => bias_iadd (idx p) v) m
      = (Ok tt, {| codec := codec m; intercept_visible_ := b |}) /\
    length b = length (intercept_visible_ m).
Proof.
  revert m. induction posns as [|p posns IH]; intros m Hall; simpl.
  - exists (intercept_visible_ m). by destruct m.
  - apply Forall_cons in Hall as [Hp Hall].
    destruct (lookup_lt_is_Some_2 _ _ Hp) as [x Hx].
    rewrite (bind_ok _ _ m tt _ (bias_iadd_ok m (idx p) x v Hx)).
    destruct (IH (set_intercept <[idx p := (x + v)%float]> m)) as (b & Hrun & Hlen).
    { simpl. by rewrite length_insert. }
    exists b. split; [exact Hrun|]. rewrite Hlen. simpl. apply length_insert.
Qed.

Lemma Forall_range_sub (P : nat -> Prop) (a b c : nat) :
  b <= c -> Forall P (range 0 c) -> Forall P (range a b).
Proof.
  intros Hbc Hall. apply Forall_forall. intros p Hp.
  rewrite Forall_forall in Hall. apply Hall.
  unfold range in *. rewrite elem_of_seq in *. lia.
Qed.

(** Entering with bounds the constructor accepted, on any model at all:
    either every statement of [__enter__] runs, or the first failing one is
    a read and the model is as before. *)
Lemma enter_all_or_nothing (self : shrink_model.obj) (m : Model) :
  shrink_model.min_length self <= maxlen (codec m) ->
  (exists mgr' b,
     shrink_model.__enter__ self m
       = (Ok mgr', {| codec := codec m; intercept_visible_ := b |}) /\
     length b = length (intercept_visible_ m)) \/
  (char_lookup (codec m) !! filler (codec m) = None /\
   shrink_model.__enter__ self m = (Raise (KeyError (filler (codec m))), m)) \/
  (exists padidx,
     char_lookup (codec m) !! filler (codec m) = Some padidx /\
     Exists (fun posn => length (intercept_visible_ m) <= nchars (codec m) * posn + padidx)
            (range 0 (maxlen (codec m))) /\
     shrink_model.__enter__ self m = (Raise IndexError, m)).
Proof.
  intros Hmin. unfold shrink_model.__enter__.
  rewrite (bind_ok get _ m m m eq_refl). unfold dict_getitem.
  destruct (char_lookup (codec m) !! filler (codec m)) as [padidx|] eqn:Hlook.
  2:{ right. left. split; [done|reflexivity]. }
  rewrite (bind_ok (ret padidx) _ m padidx m eq_refl).
  destruct (list_comp_getitem_frame (fun posn => nchars (codec m) * posn + padidx)
              (range 0 (maxlen (codec m))) m) as [(prev & Hread & Hall)|[Hread Hex]].
  2:{ right. right. exists padidx. split; [done|]. split; [done|].
      by rewrite (bind_raise _ _ m IndexError m Hread). }
  left. rewrite (bind_ok _ _ m prev m Hread).
  destruct (for_each_iadd_total (fun posn => nchars (codec m) * posn + padidx)
              (-1 * BIG_NUMBER)%float (range 0 (shrink_model.min_length self)) m)
    as (b1 & Hrun1 & Hlen1).
  { by apply (Forall_range_sub _ _ _ (maxlen (codec m))). }
  rewrite (bind_ok _ _ m tt _ Hrun1).
  destruct (for_each_iadd_total (fun posn => nchars (codec m) * posn + padidx)
              BIG_NUMBER (range (shrink_model.max_length self) (maxlen (codec m)))
              {| codec := codec m; intercept_visible_ := b1 |})
    as (b2 & Hrun2 & Hlen2).
  { simpl. rewrite Hlen1. by apply (Forall_range_sub _ _ _ (maxlen (codec m))). }
  simpl in Hrun2. rewrite (bind_ok _ _ _ tt _ Hrun2).
  eexists _, b2. split; [reflexivity|]. simpl in Hlen2. congruence.
Qed.

Lemma on_model_same {W A : Type} (c : SE Model A) (st : State W) (r : result A) :
  c (model st) = (r, model st) -> on_model c st = (r, st).
Proof. intros Hrun. unfold on_model. rewrite Hrun. by destruct st. Qed.

(** X2: a scope that cannot be set up raises before anything is written and
    without running its block: [AssertionError] for bounds outside the
    codec's length, [KeyError] when the filler is not in the alphabet,
    [IndexError] when the bias vector is too short for some position. The
    store is the one the statement started from. *)
Theorem with_shrink_model_refuses {W A : Type} (min_length max_length : Z)
    (body : SE (State W) A) (st : State W) :
  (~ (1 <= max_length <= Z.of_nat (maxlen (codec (model st))))%Z \/
   ~ (0 <= min_length <= Z.of_nat (maxlen (codec (model st))))%Z ->
   with_shrink_model min_length max_length body st = (Raise (AssertionError ""), st)) /\
  ((1 <= max_length <= Z.of_nat (maxlen (codec (model st))))%Z ->
   (0 <= min_length <= Z.of_nat (maxlen (codec (model st))))%Z ->
   char_lookup (codec (model st)) !! filler (codec (model st)) = None ->
   with_shrink_model min_length max_length body st
   = (Raise (KeyError (filler (codec (model st)))), st)) /\
  (forall padidx posn,
     (1 <= max_length <= Z.of_nat (maxlen (codec (model st))))%Z ->
     (0 <= min_length <= Z.of_nat (maxlen (codec (model st))))%Z ->
     char_lookup (codec (model st)) !! filler (codec (model st)) = Some padidx ->
     posn < maxlen (codec (model st)) ->
     length (intercept_visible_ (model st)) <= nchars (codec (model st)) * posn + padidx ->
     with_shrink_model min_length max_length body st = (Raise IndexError, st)).
Proof.
  unfold with_shrink_model, bind, get, lift_result. repeat split.
  - intros Hbad. by rewrite (init_rejects _ _ _ Hbad).
  - intros Hmax Hmin Hlook. rewrite (init_ok _ _ _ Hmax Hmin). unfold with_.
    destruct (enter_all_or_nothing
                {| shrink_model.min_length := Z.to_nat min_length;
                   shrink_model.max_length := Z.to_nat max_length;
                   shrink_model.prev_biases := [] |} (model st))
      as [(mgr' & b & Hrun & _)|[[_ Hrun]|(padidx & Hsome & _)]]; [simpl; lia| | |].
    + exfalso. revert Hrun. unfold shrink_model.__enter__.
      rewrite (bind_ok get _ _ _ _ eq_refl). unfold dict_getitem.
      by rewrite Hlook.
    + by rewrite (on_model_same _ _ _ Hrun).
    + congruence.
  - intros padidx posn Hmax Hmin Hlook Hposn Hshort. rewrite (init_ok _ _ _ Hmax Hmin).
    unfold with_.
    destruct (enter_all_or_nothing
                {| shrink_model.min_length := Z.to_nat min_length;
                   shrink_model.max_length := Z.to_nat max_length;
                   shrink_model.prev_biases := [] |} (model st))
      as [(mgr' & b & Hrun & _)|[[Hnone _]|(padidx' & _ & _ & Hrun)]]; [simpl; lia| | |].
    + exfalso. revert Hrun. unfold shrink_model.__enter__.
      rewrite (bind_ok get _ _ _ _ eq_refl). unfold dict_getitem.
      rewrite Hlook. rewrite (bind_ok (ret padidx) _ _ padidx _ eq_refl).
      destruct (list_comp_getitem_frame
                  (fun posn => nchars (codec (model st)) * posn + padidx)
                  (range 0 (maxlen (codec (model st)))) (model st))
        as [(prev & _ & Hall)|[Hread _]].
      * rewrite Forall_forall in Hall. specialize (Hall posn).
        unfold range in Hall. rewrite elem_of_seq in Hall. lia.
      * by rewrite (bind_raise _ _ _ IndexError _ Hread).
    + congruence.
    + by rewrite (on_model_same _ _ _ Hrun).
Qed.

Lemma with_shrink_model_refuses_witness :
  with_shrink_model 2 9 Demo.clobber_and_fail Demo.state0
    = (Raise (AssertionError ""), Demo.state0) /\
  with_shrink_model 2 3 Demo.clobber_and_fail Demo.state_without_filler
    = (Raise (KeyError "_"), Demo.state_without_filler) /\
  with_shrink_model 2 3 Demo.clobber_and_fail
    {| model := set_intercept (take 19) Demo.model0; ext := [] : Demo.world |}
    = (Raise IndexError,
       {| model := set_intercept (take 19) Demo.model0; ext := [] |}).
Proof.
  split; [|split].
  - apply (proj1 (with_shrink_model_refuses 2 9 Demo.clobber_and_fail Demo.state0)).
    left. simpl. lia.
  - apply (proj1 (proj2 (with_shrink_model_refuses 2 3 Demo.clobber_and_fail
                           Demo.state_without_filler)));
      [simpl; lia | simpl; lia | reflexivity].
  - apply (proj2 (proj2 (with_shrink_model_refuses 2 3 Demo.clobber_and_fail
                           {| model := set_intercept (take 19) Demo.model0;
                              ext := [] : Demo.world |})) 3 4);
      [simpl; lia | simpl; lia | reflexivity | simpl; lia | simpl; lia].
Defined.

(** X3: on any model at all, a scope whose setup fails has changed
    nothing: either the constructor and [__enter__] both return, or the
    statement raises one of three exceptions from the very store it started
    in, whatever the block is. The constructor's assertions are what rules
    out a half-adjusted bias vector. *)
Theorem with_shrink_model_all_or_nothing {W A : Type} (min_length max_length : Z)
    (body : SE (State W) A) (st : State W) :
  (exists mgr mgr' st_in,
     shrink_model.__init__ (model st) min_length max_length = Ok mgr /\
     on_model (shrink_model.__enter__ mgr) st = (Ok mgr', st_in) /\
     codec (model st_in) = codec (model st) /\
     length (intercept_visible_ (model st_in)) = length (intercept_visible_ (model st)) /\
     ext st_in = ext st) \/
  (exists e,
     with_shrink_model min_length max_length body st = (Raise e, st) /\
     (e = AssertionError "" \/ e = KeyError (filler (codec (model st))) \/ e = IndexError)).
Proof.
  unfold with_shrink_model, bind, get, lift_result.
  destruct (shrink_model.__init__ (model st) min_length max_length) as [mgr|e] eqn:Hinit.
  - apply init_Ok_inv in Hinit as (Hmax & Hmin & ->). unfold with_.
    destruct (enter_all_or_nothing
                {| shrink_model.min_length := Z.to_nat min_length;
                   shrink_model.max_length := Z.to_nat max_length;
                   shrink_model.prev_biases := [] |} (model st))
      as [(mgr' & b & Hrun & Hlen)|[[_ Hrun]|(padidx & _ & _ & Hrun)]]; [simpl; lia| | |].
    + left. eexists _, mgr', _. split; [reflexivity|]. unfold on_model. rewrite Hrun.
      split; [reflexivity|]. by simpl.
    + right. eexists. rewrite (on_model_same _ _ _ Hrun). split; [reflexivity|]. tauto.
    + right. eexists. rewrite (on_model_same _ _ _ Hrun). split; [reflexivity|]. tauto.
  - right. exists e. split; [reflexivity|]. left.
    revert Hinit. unfold shrink_model.__init__.
    repeat (case_match; try discriminate); congruence.
Qed.

(** ** The scope that constrains nothing *)

(** A scope with accepted bounds on a well-formed model, around a block
    that keeps the model: the block runs on the adjusted biases, and the
    statement ends with the block's outcome and the model it started with. *)
Lemma scope_run {W A : Type} (padidx : nat) (min_length max_length : Z)
    (body : SE (State W) A) (st : State W) :
  wf_model (model st) padidx ->
  (1 <= max_length <= Z.of_nat (maxlen (codec (model st))))%Z ->
  (0 <= min_length <= Z.of_nat (maxlen (codec (model st))))%Z ->
  keeps_model padidx body ->
  exists b,
    length b = length (intercept_visible_ (model st)) /\
    (forall posn, posn < maxlen (codec (model st)) ->
       b !! pad_index (codec (model st)) padidx posn
       = entered_bias {| shrink_model.min_length := Z.to_nat min_length;
                         shrink_model.max_length := Z.to_nat max_length;
                         shrink_model.prev_biases := [] |} posn
           <$> intercept_visible_ (model st) !! pad_index (codec (model st)) padidx posn) /\
    (forall j, j mod nchars (codec (model st)) <> padidx ->
               b !! j = intercept_visible_ (model st) !! j) /\
    with_shrink_model min_length max_length body st
    = ((body {| model := {| codec := codec (model st); intercept_visible_ := b |};
                ext := ext st |}).1,
       {| model := model st;
          ext := ext (body {| model := {| codec := codec (model st);
                                          intercept_visible_ := b |};
                              ext := ext st |}).2 |}).
Proof.
  intros Hwf Hmax Hmin Hbody. unfold with_shrink_model, bind, get, lift_result.
  rewrite (init_ok _ _ _ Hmax Hmin).
  set (mgr := {| shrink_model.min_length := Z.to_nat min_length;
                 shrink_model.max_length := Z.to_nat max_length;
                 shrink_model.prev_biases := [] |}).
  destruct (enter_spec mgr (model st) padidx Hwf)
    as (prev & b & Henter & Hplen & Hblen & Hpad & Hother).
  { simpl. lia. }
  exists b. split; [done|]. split; [intros posn Hposn; by destruct (Hpad posn Hposn)|].
  split; [done|].
  destruct Hwf as (Hlook & Hlt & Hlen).
  unfold with_, on_model at 1. rewrite Henter.
  set (st_in := {| model := {| codec := codec (model st); intercept_visible_ := b |};
                   ext := ext st |}).
  assert (Hin : wf_model (model st_in) padidx).
  { repeat split; simpl; [done|done|congruence]. }
  pose proof (Hbody st_in Hin) as Hkept.
  destruct (body st_in) as [r st2]. simpl in Hkept.
  destruct (exit_writes_back
              {| shrink_model.min_length := shrink_model.min_length mgr;
                 shrink_model.max_length := shrink_model.max_length mgr;
                 shrink_model.prev_biases := prev |} (model st2) padidx)
    as (b' & Hexit & Hb'len & Hback & Hrest); rewrite ?Hkept; simpl; try done; try congruence.
  subst mgr. simpl in Hexit, Hback. unfold on_model. rewrite Hexit.
  rewrite Hkept in *. simpl in *. f_equal. f_equal.
  apply model_eq. apply list_eq. intros j.
  destruct (decide (j < maxlen (codec (model st)) * nchars (codec (model st)))) as [Hj|Hj].
  - destruct (bias_index_cases (codec (model st)) padidx j Hlt Hj) as [(posn & Hposn & ->)|Hmod].
    + rewrite (Hback posn Hposn). by destruct (Hpad posn Hposn) as [-> _].
    + by rewrite (Hrest j Hmod), (Hother j Hmod).
  - rewrite !lookup_ge_None_2; [done|lia|lia].
Qed.

(** X4: with [min_length = 0] and [max_length] the codec's length both
    loops of [__enter__] are empty, and the scope is no scope: around a
    block that keeps the model, the statement is the block, result and store
    alike. The codec must have a position at all, or the constructor
    refuses [max_length = 0]. *)
Theorem with_shrink_model_whole_range {W A : Type} (padidx : nat)
    (body : SE (State W) A) (st : State W) :
  wf_model (model st) padidx ->
  0 < maxlen (codec (model st)) ->
  keeps_model padidx body ->
  with_shrink_model 0 (Z.of_nat (maxlen (codec (model st)))) body st = body st.
Proof.
  intros Hwf Hpos Hbody.
  destruct (scope_run padidx 0 (Z.of_nat (maxlen (codec (model st)))) body st Hwf)
    as (b & Hblen & Hpad & Hother & ->); [lia|lia|done|].
  assert (Hb : b = intercept_visible_ (model st)).
  { destruct Hwf as (_ & Hlt & Hlen). apply list_eq. intros j.
    destruct (decide (j < maxlen (codec (model st)) * nchars (codec (model st)))) as [Hj|Hj].
    - destruct (bias_index_cases (codec (model st)) padidx j Hlt Hj)
        as [(posn & Hposn & ->)|Hmod]; [|by apply Hother].
      rewrite (Hpad posn Hposn).
      destruct (intercept_visible_ (model st) !! pad_index _ padidx posn); [|done].
      simpl. unfold entered_bias. simpl.
      destruct (decide (posn < Z.to_nat 0)); [lia|].
      destruct (decide (Z.to_nat (Z.of_nat (maxlen (codec (model st)))) <= posn)); [lia|done].
    - rewrite !lookup_ge_None_2; [done|lia|lia]. }
  rewrite Hb. rewrite (model_eq (model st) _ eq_refl).
  assert (Hst : {| model := model st; ext := ext st |} = st) by by destruct st.
  rewrite Hst. pose proof (Hbody st Hwf) as Hkept.
  destruct (body st) as [r st2]. simpl in *. rewrite <- Hkept. by destruct st2.
Qed.

Lemma with_shrink_model_whole_range_witness :
  with_shrink_model 0 5 (on_ext (fun w => (tt, w ++ [Demo.Logged 0 "block"]))) Demo.state0
  = (Ok tt, {| model := Demo.model0; ext := [Demo.Logged 0 "block"] |}).
Proof.
  refine (with_shrink_model_whole_range 3
            (on_ext (fun w => (tt, w ++ [Demo.Logged 0 "block"]))) Demo.state0 _ _ _).
  - split; [reflexivity|]. split; [simpl; lia | reflexivity].
  - simpl. lia.
  - intros st _. reflexivity.
Defined.

(** ** What never touches the model *)

Lemma frame_ret {W A : Type} (a : A) : model_frame (W := W) (ret a).
Proof. by intros st. Qed.

Lemma frame_raise {W A : Type} (e : exn) : model_frame (W := W) (A := A) (raise e).
Proof. by intros st. Qed.

Lemma frame_lift_result {W A : Type} (r : result A) : model_frame (W := W) (lift_result r).
Proof. by intros st. Qed.

Lemma frame_get {W : Type} : model_frame (W := W) get.
Proof. by intros st. Qed.

Lemma frame_on_ext {W A : Type} (c : W -> A * W) : model_frame (on_ext c).
Proof. intros st. unfold on_ext. by destruct (c (ext st)). Qed.

Lemma frame_on_ext_fallible {W A : Type} (c : W -> result A * W) :
  model_frame (on_ext_fallible c).
Proof. intros st. unfold on_ext_fallible. by destruct (c (ext st)). Qed.

Lemma frame_bind {W A B : Type} (c : SE (State W) A) (k : A -> SE (State W) B) :
  model_frame c -> (forall a, model_frame (k a)) -> model_frame (bind c k).
Proof.
  intros Hc Hk st. unfold bind. specialize (Hc st).
  destruct (c st) as [[a|e] st1]; simpl in *; [|done]. by rewrite Hk.
Qed.

Lemma frame_dict_getitem {W : Type} (d : gmap string nat) (k : string) :
  model_frame (W := W) (dict_getitem d k).
Proof. unfold dict_getitem. destruct (d !! k); [apply frame_ret|apply frame_raise]. Qed.

Lemma frame_list_getitem {W A : Type} (l : list A) (i : nat) :
  model_frame (W := W) (list_getitem l i).
Proof. unfold list_getitem. destruct (l !! i); [apply frame_ret|apply frame_raise]. Qed.

Lemma frame_list_last {W A : Type} (l : list A) : model_frame (W := W) (list_last l).
Proof. unfold list_last. destruct (last l); [apply frame_ret|apply frame_raise]. Qed.

Lemma frame_np_random_randint {W : Type} `{Collaborators W} (low high : Z) (shp : list nat) :
  model_frame (np_random_randint low high shp).
Proof.
  unfold np_random_randint.
  destruct (negb (size_of shp =? 0) && (high <=? low)%Z); [apply frame_raise|].
  apply frame_bind; [apply frame_on_ext|intros; apply frame_ret].
Qed.

Create HintDb frame.
#[global] Hint Resolve frame_ret frame_raise frame_lift_result frame_get frame_on_ext
  frame_on_ext_fallible frame_dict_getitem frame_list_getitem frame_list_last
  frame_np_random_randint : frame.

Ltac frame_step :=
  first
    [ apply frame_bind; [|intros ?]
    | solve [auto with frame]
    | match goal with
      | |- model_frame (match ?x with _ => _ end) => destruct x
      | |- model_frame (if ?b then _ else _) => destruct b
      end ].

(** X5: whatever the strategy, the number of rows and the file, and
    whether it returns or raises, [starting_visible_configs] leaves the
    model as it is: it reads the biases and the codec and writes to
    neither. *)
Theorem starting_visible_configs_model_frame {W : Type} `{Collaborators W}
    (init_method : init_arg) (n : nat) (training_examples_fname : option string) :
  model_frame (starting_visible_configs init_method n training_examples_fname).
Proof.
  unfold starting_visible_configs. apply frame_bind; [apply frame_get|]. intros st.
  destruct init_method as [[]|repr]; repeat frame_step.
Qed.

(** ** The one-hot initialisers, entry by entry *)

Lemma imap_filled (k fill t : nat) :
  fill < k ->
  imap (fun j x => if decide (j mod k = fill) then 1%float else x) (replicate (t * k) 0%float)
  = concat (replicate t (eye_row k fill)).
Proof.
  intros Hfill. induction t as [|t IH]; [reflexivity|].
  change (S t * k) with (k + t * k). rewrite replicate_add, imap_app. simpl. f_equal.
  - pose proof (filled_slice k fill k 0 Hfill) as Hslice. simpl in Hslice.
    rewrite drop_0, take_ge in Hslice; [apply Hslice; lia|].
    by rewrite length_imap, length_replicate.
  - rewrite <- IH. apply imap_ext. intros j x _. simpl. rewrite length_replicate.
    replace (k + j) with (j + 1 * k) by lia. by rewrite Nat.Div0.mod_add.
Qed.

Lemma eye_take_concat (k : nat) (indices : list Z) :
  Forall (fun x => (0 <= x < Z.of_nat k)%Z) indices ->
  eye_take k indices = Ok (concat ((fun i => eye_row k (Z.to_nat i)) <$> indices)).
Proof.
  induction 1 as [|i rest Hi _ IH]; [reflexivity|]. simpl.
  destruct (Z.ltb_spec i 0); [lia|].
  destruct (Z.leb_spec 0 i); [|lia]. destruct (Z.ltb_spec i (Z.of_nat k)); [|lia].
  simpl. by rewrite IH.
Qed.

Lemma length_concat_eye (k : nat) (indices : list Z) :
  length (concat ((fun i => eye_row k (Z.to_nat i)) <$> indices)) = length indices * k.
Proof.
  induction indices as [|d ds IH]; [done|].
  rewrite fmap_cons, concat_cons, length_app, length_eye_row, IH. simpl. lia.
Qed.

(** The [j]-th group of a concatenation of groups of [k]. *)
Lemma concat_group {A : Type} (k j : nat) (groups : list (list A)) (g : list A) :
  Forall (fun x => length x = k) groups ->
  groups !! j = Some g ->
  take k (drop (j * k) (concat groups)) = g.
Proof.
  intros Hall. revert j. induction Hall as [|x groups Hx _ IH]; intros j Hj; [done|].
  destruct j as [|j]; simpl in *.
  - injection Hj as ->. rewrite drop_0, take_app_length'; done.
  - rewrite drop_app_add'; [|done]. by apply IH.
Qed.

Lemma row_posn_div (maxlen row posn : nat) :
  posn < maxlen -> (row * maxlen + posn) / maxlen = row /\ (row * maxlen + posn) mod maxlen = posn.
Proof.
  intros Hposn. split.
  - rewrite Nat.add_comm, Nat.div_add; [|lia]. rewrite Nat.div_small; lia.
  - rewrite Nat.add_comm, Nat.Div0.mod_add. by apply Nat.mod_small.
Qed.

Lemma mask_fill_lookup (maxlen : nat) (lengths : list Z) (pad : Z) (l : list Z)
    (row posn : nat) (len d : Z) :
  posn < maxlen ->
  lengths !! row = Some len ->
  l !! (row * maxlen + posn) = Some d ->
  mask_fill maxlen lengths pad l !! (row * maxlen + posn)
  = Some (if (len <=? Z.of_nat posn)%Z then pad else d).
Proof.
  intros Hposn Hlen Hd. unfold mask_fill. rewrite list_lookup_imap, Hd. simpl.
  destruct (row_posn_div maxlen row posn Hposn) as [-> ->]. by rewrite Hlen.
Qed.

(** X6: with the fill character in the alphabet, [spaces] and [padding]
    return exactly [n] rows in which every position holds the one-hot
    vector of that character, and change nothing in the store; a lookup that
    gives a number outside the alphabet is an [IndexError] at the slice
    assignment. *)
Theorem starting_visible_configs_fill {W : Type} `{Collaborators W}
    (init_method : init_arg) (n : nat) (training_examples_fname : option string)
    (st : State W) (fill : nat) :
  (init_method = Member VisInit.spaces /\
   char_lookup (codec (model st)) !! " " = Some fill) \/
  (init_method = Member VisInit.padding /\
   char_lookup (codec (model st)) !! filler (codec (model st)) = Some fill) ->
  length (intercept_visible_ (model st))
    = maxlen (codec (model st)) * nchars (codec (model st)) ->
  starting_visible_configs init_method n training_examples_fname st
  = (if decide (fill < nchars (codec (model st)))
     then Ok {| shape := [n; maxlen (codec (model st)) * nchars (codec (model st))];
                data := Float64 (concat (replicate (n * maxlen (codec (model st)))
                                           (eye_row (nchars (codec (model st))) fill))) |}
     else Raise IndexError, st).
Proof.
  intros Hcase Hlen. unfold starting_visible_configs.
  rewrite (bind_ok get _ st st st eq_refl).
  assert (Hrun :
    (vis <- lift_result (set_last_axis (np_zeros (n :: codec_shape (codec (model st))))
                           (nchars (codec (model st))) fill) ;;
     lift_result (np_reshape vis [n; length (intercept_visible_ (model st))])) st
    = (if decide (fill < nchars (codec (model st)))
       then Ok {| shape := [n; maxlen (codec (model st)) * nchars (codec (model st))];
                  data := Float64 (concat (replicate (n * maxlen (codec (model st)))
                                             (eye_row (nchars (codec (model st))) fill))) |}
       else Raise IndexError, st)).
  { unfold bind, lift_result, set_last_axis.
    destruct (decide (fill < nchars (codec (model st)))) as [Hfill|]; [|done].
    unfold np_reshape, np_zeros, codec_shape, size_of. simpl.
    rewrite length_imap, length_replicate, Hlen.
    destruct (decide _) as [_|Hne]; [|lia].
    replace (n * (maxlen (codec (model st)) * (nchars (codec (model st)) * 1)))
      with (n * maxlen (codec (model st)) * nchars (codec (model st))) by lia.
    by rewrite imap_filled. }
  destruct Hcase as [[-> Hlook]|[-> Hlook]]; rewrite Hlook;
    by rewrite (bind_ok (ret fill) _ st fill st eq_refl).
Qed.

Lemma starting_visible_configs_fill_witness :
  starting_visible_configs (Member VisInit.padding) 2 None Demo.state0
  = (Ok {| shape := [2; 20];
           data := Float64 (concat (replicate 10 [0; 0; 0; 1]%float)) |}, Demo.state0).
Proof.
  refine (starting_visible_configs_fill (Member VisInit.padding) 2 None Demo.state0 3 _ _).
  - right. split; reflexivity.
  - reflexivity.
Defined.

(** X7: [uniform_chars] makes one draw per row and position, each a symbol
    of the alphabet, and returns for each draw that symbol's one-hot
    vector, in the order of the draws; only the generator has moved. *)
Theorem starting_visible_configs_uniform_chars {W : Type} `{CollaboratorLaws W}
    (n : nat) (training_examples_fname : option string) (st : State W) :
  0 < nchars (codec (model st)) ->
  length (intercept_visible_ (model st))
    = maxlen (codec (model st)) * nchars (codec (model st)) ->
  let drawn := randint 0 (Z.of_nat (nchars (codec (model st))))
                 (n * maxlen (codec (model st))) (ext st) in
  Forall (fun d => (0 <= d < Z.of_nat (nchars (codec (model st))))%Z) drawn.1 /\
  length drawn.1 = n * maxlen (codec (model st)) /\
  starting_visible_configs (Member VisInit.uniform_chars) n training_examples_fname st
  = (Ok {| shape := [n; maxlen (codec (model st)) * nchars (codec (model st))];
           data := Float64 (concat ((fun d => eye_row (nchars (codec (model st))) (Z.to_nat d))
                                      <$> drawn.1)) |},
     {| model := model st; ext := drawn.2 |}).
Proof.
  intros Hpos Hlen drawn.
  assert (Hrange : Forall (fun d => (0 <= d < Z.of_nat (nchars (codec (model st))))%Z) drawn.1).
  { apply randint_range. lia. }
  assert (Hdrawn : length drawn.1 = n * maxlen (codec (model st))) by apply randint_length.
  split; [done|]. split; [done|].
  unfold starting_visible_configs. rewrite (bind_ok get _ st st st eq_refl).
  assert (Hhigh : (0 < Z.of_nat (nchars (codec (model st))))%Z) by lia.
  rewrite (bind_ok _ _ _ _ _ (np_random_randint_run 0 _ [n; maxlen (codec (model st))] st
                                Hhigh)).
  rewrite size_of_2. fold drawn. unfold ints_of. simpl.
  rewrite (bind_ok (ret drawn.1) _ _ _ _ eq_refl).
  unfold bind, lift_result. rewrite (eye_take_concat _ _ Hrange).
  unfold np_reshape. simpl.
  destruct (decide _) as [_|Hne]; [by rewrite Hlen|]. exfalso. apply Hne.
  rewrite length_concat_eye, Hlen, Hdrawn. lia.
Qed.

Lemma starting_visible_configs_uniform_chars_witness :
  starting_visible_configs (Member VisInit.uniform_chars) 1 None Demo.state0
  = (Ok {| shape := [1; 20];
           data := Float64 (concat (replicate 5 [1; 0; 0; 0]%float)) |}, Demo.state0).
Proof.
  refine (proj2 (proj2 (starting_visible_configs_uniform_chars 1 None Demo.state0 _ _))).
  - simpl. lia.
  - reflexivity.
Defined.

(** X8: [chunks] draws a symbol for every row and position and a length
    for every row; in its result, a position before the row's length holds
    the one-hot vector of the symbol drawn for it, and a position at or past
    the length holds the filler's. Only the generator has moved, by the
    draw of the symbols and then the draw behind the lengths. *)
Theorem starting_visible_configs_chunks_rows {W : Type} `{CollaboratorLaws W}
    (n : nat) (training_examples_fname : option string) (st : State W)
    (padidx : nat) (ml : float) :
  wf_model (model st) padidx ->
  float_of_int (Z.of_nat (maxlen (codec (model st)))) = Ok ml ->
  let drawn := randint 0 (Z.of_nat (nchars (codec (model st))))
                 (n * maxlen (codec (model st))) (ext st) in
  let normal := randn n drawn.2 in
  exists l,
    starting_visible_configs (Member VisInit.chunks) n training_examples_fname st
    = (Ok {| shape := [n; maxlen (codec (model st)) * nchars (codec (model st))];
             data := Float64 l |},
       {| model := model st; ext := normal.2 |}) /\
    forall row posn r d,
      posn < maxlen (codec (model st)) ->
      normal.1 !! row = Some r ->
      drawn.1 !! (row * maxlen (codec (model st)) + posn) = Some d ->
      let len := astype_int8 (clip (ml * 0.25 * r + ml * 0.66)%float 1%float ml) in
      position_slice (maxlen (codec (model st))) (nchars (codec (model st))) l row posn
      = eye_row (nchars (codec (model st)))
          (if (len <=? Z.of_nat posn)%Z then padidx else Z.to_nat d).
Proof.
  intros (Hlook & Hlt & Hlen) Hml drawn normal.
  assert (Hrange : Forall (fun d => (0 <= d < Z.of_nat (nchars (codec (model st))))%Z) drawn.1).
  { apply randint_range. lia. }
  assert (Hdrawn : length drawn.1 = n * maxlen (codec (model st))) by apply randint_length.
  set (lengths := (fun r => astype_int8 (clip (ml * 0.25 * r + ml * 0.66)%float 1%float ml))
                    <$> normal.1).
  set (indices := mask_fill (maxlen (codec (model st))) lengths (Z.of_nat padidx) drawn.1).
  destruct (mask_fill_range (maxlen (codec (model st))) lengths (Z.of_nat padidx) 0
              (Z.of_nat (nchars (codec (model st)))) drawn.1 ltac:(lia) Hrange)
    as [Hilen Hirange].
  fold indices in Hilen, Hirange.
  exists (concat ((fun i => eye_row (nchars (codec (model st))) (Z.to_nat i)) <$> indices)).
  split.
  - unfold starting_visible_configs. rewrite (bind_ok get _ st st st eq_refl).
    assert (Hhigh : (0 < Z.of_nat (nchars (codec (model st))))%Z) by lia.
    rewrite (bind_ok _ _ _ _ _ (np_random_randint_run 0 _ [n; maxlen (codec (model st))] st
                                  Hhigh)).
    rewrite size_of_2. fold drawn. unfold ints_of. simpl.
    assert (Hmask :
      (draws <- on_ext (randn n) ;;
       lengths <- lift_result (chunk_lengths (maxlen (codec (model st))) draws) ;;
       pad <- dict_getitem (char_lookup (codec (model st))) (filler (codec (model st))) ;;
       ret (mask_fill (maxlen (codec (model st))) lengths (Z.of_nat pad) drawn.1))
        {| model := model st; ext := drawn.2 |}
      = (Ok indices, {| model := model st; ext := normal.2 |})).
    { unfold bind, on_ext, lift_result, chunk_lengths, dict_getitem, ret. simpl.
      fold normal. destruct normal as [gauss w2] eqn:Hnormal. simpl.
      rewrite Hml, Hlook. subst indices lengths. reflexivity. }
    rewrite (bind_ok _ _ _ _ _ Hmask).
    unfold bind, lift_result. rewrite (eye_take_concat _ _ Hirange).
    unfold np_reshape. simpl.
    destruct (decide _) as [_|Hne]; [by rewrite Hlen|]. exfalso. apply Hne.
    rewrite length_concat_eye, Hlen, Hilen, Hdrawn. lia.
  - intros row posn r d Hposn Hr Hd len. unfold position_slice.
    apply concat_group.
    + apply Forall_fmap, Forall_forall. intros x _. apply length_eye_row.
    + rewrite list_lookup_fmap. unfold indices.
      rewrite (mask_fill_lookup _ lengths _ _ row posn len d Hposn); [|by subst lengths len; rewrite list_lookup_fmap, Hr|done].
      simpl. f_equal. f_equal. destruct (len <=? Z.of_nat posn)%Z; [|done].
      apply Nat2Z.id.
Qed.

Lemma starting_visible_configs_chunks_rows_witness :
  exists l,
    starting_visible_configs (Member VisInit.chunks) 2 None Demo.state0
    = (Ok {| shape := [2; 20]; data := Float64 l |}, Demo.state0) /\
    position_slice 5 4 l 1 2 = [1; 0; 0; 0]%float /\
    position_slice 5 4 l 1 3 = [0; 0; 0; 1]%float.
Proof.
  destruct (starting_visible_configs_chunks_rows 2 None Demo.state0 3 5%float)
    as (l & Hrun & Hrows).
  - split; [reflexivity|]. split; [simpl; lia | reflexivity].
  - reflexivity.
  - exists l. split; [exact Hrun|]. split.
    + exact (Hrows 1 2 0%float 0%Z ltac:(simpl; lia) eq_refl eq_refl).
    + exact (Hrows 1 3 0%float 0%Z ltac:(simpl; lia) eq_refl eq_refl).
Defined.

(** ** What the initialiser refuses *)

(** X9: the ways [starting_visible_configs] fails on its arguments. What is
    no member of the enum is a [ValueError] naming it; [train] and
    [silhouettes] without a file are an [AssertionError]; an empty alphabet
    makes the draw of [chunks] and [uniform_chars] numpy's [ValueError]
    "high <= 0", when there is an entry to draw at all (some row and some
    position); all three before anything is drawn or read. [chunks] with a
    filler that the alphabet lacks raises the dictionary's own [KeyError],
    not [BadInitMethodException], and only after both random draws are
    made. *)
Theorem starting_visible_configs_rejections {W : Type} `{Collaborators W}
    (n : nat) (training_examples_fname : option string) (st : State W) :
  (forall repr,
     starting_visible_configs (Other repr) n training_examples_fname st
     = (Raise (ValueError ("Unrecognized init method: " +:+ repr)), st)) /\
  (forall v, v = VisInit.train \/ v = VisInit.silhouettes ->
     starting_visible_configs (Member v) n None st
     = (Raise (AssertionError "No training examples provided to initialize with"), st)) /\
  (forall v, v = VisInit.chunks \/ v = VisInit.uniform_chars ->
     nchars (codec (model st)) = 0 ->
     n * maxlen (codec (model st)) <> 0 ->
     starting_visible_configs (Member v) n training_examples_fname st
     = (Raise (ValueError "high <= 0"), st)) /\
  (forall ml,
     0 < nchars (codec (model st)) ->
     float_of_int (Z.of_nat (maxlen (codec (model st)))) = Ok ml ->
     char_lookup (codec (model st)) !! filler (codec (model st)) = None ->
     starting_visible_configs (Member VisInit.chunks) n training_examples_fname st
     = (Raise (KeyError (filler (codec (model st)))),
        {| model := model st;
           ext := (randn n (randint 0 (Z.of_nat (nchars (codec (model st))))
                              (n * maxlen (codec (model st))) (ext st)).2).2 |})).
Proof.
  repeat split.
  - intros v [-> | ->]; reflexivity.
  - intros v Hv Hzero Hsize. unfold starting_visible_configs.
    rewrite (bind_ok get _ st st st eq_refl).
    assert (Hdraw : np_random_randint 0 (Z.of_nat (nchars (codec (model st))))
                      [n; maxlen (codec (model st))] st
                    = (Raise (ValueError "high <= 0"), st)).
    { unfold np_random_randint. rewrite size_of_2, Hzero.
      by destruct (Nat.eqb_spec (n * maxlen (codec (model st))) 0). }
    destruct Hv as [-> | ->]; by rewrite (bind_raise _ _ _ _ _ Hdraw).
  - intros ml Hpos Hml Hlook. unfold starting_visible_configs.
    rewrite (bind_ok get _ st st st eq_refl).
    assert (Hhigh : (0 < Z.of_nat (nchars (codec (model st))))%Z) by lia.
    rewrite (bind_ok _ _ _ _ _ (np_random_randint_run 0 _ [n; maxlen (codec (model st))] st
                                  Hhigh)).
    rewrite size_of_2. unfold bind, on_ext, lift_result, chunk_lengths, dict_getitem. simpl.
    destruct (randn n _) as [gauss w2]. simpl. by rewrite Hml, Hlook.
Qed.

Lemma starting_visible_configs_rejections_witness :
  starting_visible_configs (Member VisInit.silhouettes) 2 None Demo.state0
  = (Raise (AssertionError "No training examples provided to initialize with"),
     Demo.state0) /\
  starting_visible_configs (Member VisInit.uniform_chars) 2 None
    {| model := {| codec := {| maxlen := 5; nchars := 0; filler := "$";
                               char_lookup := ∅ |};
                   intercept_visible_ := [] |};
       ext := [] : Demo.world |}
  = (Raise (ValueError "high <= 0"),
     {| model := {| codec := {| maxlen := 5; nchars := 0; filler := "$";
                                char_lookup := ∅ |};
                    intercept_visible_ := [] |};
        ext := [] |}) /\
  starting_visible_configs (Member VisInit.chunks) 2 None Demo.state_without_filler
  = (Raise (KeyError "_"), Demo.state_without_filler).
Proof.
  split; [|split].
  - apply (proj1 (proj2 (starting_visible_configs_rejections 2 None Demo.state0))).
    by right.
  - refine (proj1 (proj2 (proj2 (starting_visible_configs_rejections 2 None _)))
              VisInit.uniform_chars _ _ _); [by right | reflexivity | simpl; lia].
  - refine (proj2 (proj2 (proj2 (starting_visible_configs_rejections 2 None
                                   Demo.state_without_filler))) 5%float _ _ _);
      [simpl; lia | reflexivity | reflexivity].
Defined.

(** ** Runs through their checkpoints *)

Section CheckpointRuns.
Context {W : Type} `{Collaborators W}.
Variable linear_anneal : Z.
Variable sample_iter_indices : list Z.
Variable callback : PyCallable W.
Variable sample_energy : bool.
Variables temp_decay temp_delta : float.
Hypothesis Hcallback : callback_returns callback sample_energy.
Hypothesis Hgibbs : gibbs_batches.

Local Abbreviation body :=
(loop_body linear_anneal sample_iter_indices callback sample_energy temp_decay temp_delta).
Local Abbreviation loop :=
(for_loop linear_anneal sample_iter_indices callback sample_energy temp_decay temp_delta).
Local Abbreviation step := (after_transition linear_anneal temp_decay temp_delta).
Local Abbreviation run := (transitions linear_anneal temp_decay temp_delta).
Local Abbreviation next := (next_temp linear_anneal temp_decay temp_delta).

Lemma transitions_S (k : nat) (s : loop_state) (st : State W) :
run (S k) s st = run k (step s st).1 (step s st).2.
Proof.
unfold transitions. rewrite Nat.iter_succ_r. reflexivity.
Qed.

Lemma transitions_inv (k : nat) (s : loop_state) (st : State W) :
model (run k s st).2 = model st /\
Loop.next_sample_metaindex (run k s st).1 = Loop.next_sample_metaindex s /\
Loop.samples (run k s st).1 = Loop.samples s /\
Loop.temp (run k s st).1 = Nat.iter k next (Loop.temp s) /\
(shape (Loop.vis s) <> [] -> shape (Loop.vis (run k s st).1) <> []).
Proof.
induction k as [|k (IHm & IHi & IHs & IHt & IHv)]; [done|].
unfold transitions in *. simpl. repeat split; try done.
- by rewrite IHt.
- intros Hv. apply Hgibbs. by apply IHv.
Qed.

Lemma for_loop_skip_run (indices : list Z) (pending : Z) (s : loop_state) (st : State W) :
sample_iter_indices !! Loop.next_sample_metaindex s = Some pending ->
Forall (fun i => i <> pending) indices ->
loop indices s st
= (Ok (Continue, (run (length indices) s st).1), (run (length indices) s st).2).
Proof.
revert s st. induction indices as [|i indices IH]; intros s st Hlook Hall; [done|].
apply Forall_cons in Hall as [Hi Hall]. simpl length. rewrite transitions_S.
simpl. rewrite (bind_ok _ _ _ _ _ (loop_body_skip _ _ _ _ _ _ i pending s st Hlook Hi)).
by apply IH.
Qed.

Lemma np_iter_batch (a : ndarray) : shape a <> [] -> exists rows, np_iter a = Ok rows.
Proof. unfold np_iter. destruct (shape a); [done|eauto]. Qed.

Lemma last_sorted_lt (c c_last : Z) (rest : list Z) :
StronglySorted Z.lt (c :: rest) -> rest <> [] -> last (c :: rest) = Some c_last ->
(c < c_last)%Z.
Proof.
intros Hsorted Hne Hlast. apply StronglySorted_inv in Hsorted as [_ Hall].
rewrite Forall_forall in Hall. apply Hall.
destruct rest as [|c2 rest]; [done|]. rewrite last_cons_cons in Hlast.
by apply last_Some_elem_of.
Qed.

(** From iteration [a] with the checkpoints [pre] behind, through the
  checkpoints [rest], up to and including the iteration of the last of
  them. *)
Lemma for_loop_through (rest : list Z) :
forall (pre post : list Z) (a : nat) (c_last : Z) (s : loop_state) (st : State W),
  sample_iter_indices = pre ++ rest ++ post ->
  Loop.next_sample_metaindex s = length pre ->
  StronglySorted Z.lt rest ->
  Forall (fun c => (Z.of_nat a <= c)%Z) rest ->
  last rest = Some c_last ->
  shape (Loop.vis s) <> [] ->
  exists s_at st_at rows r st_cb,
    np_iter (Loop.vis s_at) = Ok rows /\
    model st_at = model st /\
    model st_cb = model st /\
    Loop.temp s_at = Nat.iter (Z.to_nat c_last - a) next (Loop.temp s) /\
    Loop.next_sample_metaindex s_at + 1 = length pre + length rest /\
    length (Loop.samples s_at) + 1 = length (Loop.samples s) + length rest /\
    py_call callback
      (callback_args sample_energy st_at s_at
         ((fun v => decode (codec (model st)) v true false) <$> rows) c_last) st_at
    = (Ok r, st_cb) /\
    loop (Z.of_nat <$> seq a (Z.to_nat c_last + 1 - a)) s st
    = let s_rec := recorded s_at ((fun v => decode (codec (model st)) v true false) <$> rows) in
      if decide (post = [])
      then (Ok (Break, s_rec), st_cb)
      else (Ok (Continue, (step s_rec st_cb).1), (step s_rec st_cb).2).
Proof.
induction rest as [|c rest IH]; intros pre post a c_last s st Hcps Hidx Hsorted Hfrom Hlast Hvis;
  [done|].
pose proof Hfrom as Hfrom'. apply Forall_cons in Hfrom' as [Hc Hrest].
set (cn := Z.to_nat c). assert (Hcn : c = Z.of_nat cn) by (subst cn; lia).
assert (Hpending : sample_iter_indices !! Loop.next_sample_metaindex s = Some c).
{ rewrite Hcps, Hidx. rewrite lookup_app_r by lia. by rewrite Nat.sub_diag. }
(* up to the checkpoint *)
assert (Hskip : Forall (fun i => i <> c) (Z.of_nat <$> seq a (cn - a))).
{ apply Forall_fmap, Forall_forall. intros i Hi. apply elem_of_seq in Hi. simpl. lia. }
pose proof (for_loop_skip_run _ c s st Hpending Hskip) as Hrun1.
rewrite length_fmap, length_seq in Hrun1.
destruct (transitions_inv (cn - a) s st) as (Hm1 & Hi1 & Hs1 & Ht1 & Hv1).
set (s1 := (run (cn - a) s st).1) in *. set (st1 := (run (cn - a) s st).2) in *.
destruct (np_iter_batch (Loop.vis s1) (Hv1 Hvis)) as [rows1 Hrows1].
set (strings1 := (fun v => decode (codec (model st)) v true false) <$> rows1).
destruct (Hcallback st1 s1 strings1 c) as (r1 & st_cb1 & Hcall1 & Hmcb1).
assert (Hpending1 : sample_iter_indices !! Loop.next_sample_metaindex s1 = Some c)
  by by rewrite Hi1.
pose proof (loop_body_checkpoint linear_anneal sample_iter_indices callback sample_energy
              temp_decay temp_delta c s1 st1 st_cb1 rows1 r1 Hpending1 Hrows1) as Hbody.
simpl in Hbody. rewrite Hm1 in Hbody. specialize (Hbody Hcall1).
assert (Hlencps : length sample_iter_indices = length pre + S (length rest) + length post).
{ rewrite Hcps, !length_app. simpl. lia. }
destruct rest as [|c2 rest].
- (* the last of them *)
  injection Hlast as <-. fold cn.
  exists s1, st1, rows1, r1, st_cb1.
  split; [done|]. split; [done|]. split; [congruence|]. split; [done|].
  split; [simpl; lia|]. split; [rewrite Hs1; simpl; lia|]. split; [done|].
  replace (cn + 1 - a) with ((cn - a) + 1) by lia.
  rewrite seq_app, fmap_app, for_loop_app, Hrun1.
  replace (a + (cn - a)) with cn by lia. simpl. rewrite <- Hcn.
  unfold bind. rewrite Hbody. fold strings1.
  destruct (decide (Loop.next_sample_metaindex s1 + 1 = length sample_iter_indices)) as [He|Hne];
    destruct (decide (post = [])) as [Hpost|Hpost]; try done.
  + exfalso. destruct post; [done|]. simpl in Hlencps. lia.
  + exfalso. subst post. simpl in Hlencps. lia.
- (* on to the next *)
  assert (Hlt : (c < c_last)%Z) by by apply (last_sorted_lt c c_last (c2 :: rest)).
  rewrite last_cons_cons in Hlast.
  destruct (decide (Loop.next_sample_metaindex s1 + 1 = length sample_iter_indices)) as [He|_].
  { exfalso. simpl in Hlencps. lia. }
  set (s2 := (step (recorded s1 strings1) st_cb1).1) in *.
  set (st2 := (step (recorded s1 strings1) st_cb1).2) in *.
  assert (Hm2 : model st2 = model st) by (subst st2; simpl; congruence).
  destruct (IH (pre ++ [c]) post (cn + 1) c_last s2 st2)
    as (s_at & st_at & rows & r & st_cb & Hrows & Hmat & Hmcb & Htemp & Hidx' & Hsam & Hcall & Hloop).
  { rewrite Hcps. by rewrite <- app_assoc. }
  { subst s2. simpl. rewrite Hi1, Hidx, length_app. simpl. lia. }
  { by apply StronglySorted_inv in Hsorted as [? _]. }
  { apply StronglySorted_inv in Hsorted as [_ Hall].
    eapply Forall_impl; [exact Hall|]. simpl. intros x Hx. lia. }
  { done. }
  { subst s2. simpl. apply Hgibbs. simpl. by apply Hv1. }
  rewrite Hm2 in Hcall, Hloop.
  exists s_at, st_at, rows, r, st_cb.
  split; [done|]. split; [congruence|]. split; [congruence|]. split.
  { rewrite Htemp. subst s2. simpl. fold (next (Loop.temp s1)). rewrite Ht1.
    replace (Z.to_nat c_last - a) with ((Z.to_nat c_last - (cn + 1)) + S (cn - a)) by lia.
    by rewrite Nat.iter_add. }
  split; [rewrite Hidx', length_app; simpl; lia|].
  split; [rewrite Hsam; subst s2; simpl; rewrite length_app, Hs1; simpl; lia|].
  split; [done|].
  replace (Z.to_nat c_last + 1 - a)
    with ((cn - a) + S (Z.to_nat c_last + 1 - (cn + 1))) by lia.
  rewrite seq_app, fmap_app, for_loop_app, Hrun1.
  replace (a + (cn - a)) with cn by lia. simpl. rewrite <- Hcn.
  unfold bind at 1. rewrite Hbody. replace (S cn) with (cn + 1) by lia. exact Hloop.
Qed.

End CheckpointRuns.

Lemma range_int_split (k : nat) (iters : Z) :
  (Z.of_nat k <= iters)%Z ->
  range_int iters = (Z.of_nat <$> seq 0 k) ++ (Z.of_nat <$> seq k (Z.to_nat iters - k)).
Proof.
  intros Hk. rewrite (range_int_prefix k iters Hk). unfold range_int. by rewrite Nat2Z.id.
Qed.





(** The stale pair, computed: the strings show the batch of zeros of
    iteration 0, the batch returned has gone through three transitions. *)
Example sample_model_stale_scenario :
  (_sample_model 0 Demo.vis0 3 [0%Z; 5%Z] 1 1 Demo.keep_strings false Demo.state0).1
  = Ok (Demo.vis1, [Demo.dots; Demo.dots]).
Proof. vm_compute. reflexivity. Qed.

(** ** The temperatures of the default schedule *)

Lemma float_of_int_1 : float_of_int 1 = Ok 1%float.
Proof. reflexivity. Qed.

Lemma schedule_decay {W : Type} `{Collaborators W} (start_temp final_temp : float)
    (iters : Z) (consts : float * float) :
  schedule start_temp final_temp iters = Ok consts ->
  exists n, float_of_int iters = Ok n /\
            float_pow (final_temp / start_temp)%float (1 / n)%float = Ok consts.1.
Proof.
  unfold schedule, float_truediv, int_truediv, float_int_truediv.
  destruct (start_temp =? 0)%float; [done|].
  destruct (iters =? 0)%Z; [done|]. rewrite float_of_int_1.
  destruct (float_of_int iters) as [n|e]; [|done].
  destruct (float_pow _ _) as [decay|e] eqn:Hpow; [|done].
  unfold float_truediv. destruct (n =? 0)%float; [done|].
  intros [= <-]. by exists n.
Qed.



(** ** The bounds of [sample_model] *)

(** The first statement of [sample_model] that can fail: the batch to
    start from. *)
Lemma sample_model_start {W : Type} `{Collaborators W}
    (init_method : init_arg) (n : nat) (training_examples : option string)
    (starting_vis : option ndarray) :
  model_frame (match starting_vis with
               | Some v => ret v
               | None => starting_visible_configs init_method n training_examples
               end).
Proof.
  destruct starting_vis; [apply frame_ret|].
  unfold starting_visible_configs. apply frame_bind; [apply frame_get|]. intros st.
  destruct init_method as [[]|repr]; repeat frame_step.
Qed.

(** X13: [max_length = 0] beside a [min_length] that is not zero stands
    for the codec's length: the call is the call with [max_length] set to
    [model.codec.maxlen], outcome and store alike. *)
Theorem sample_model_max_length_zero {W : Type} `{Collaborators W}
    (linear_anneal : Z) (n : nat) (iters : Z) (sample_iter_indices : list Z)
    (start_temp final_temp : float) (callback : option (PyCallable W))
    (init_method : init_arg) (training_examples : option string)
    (sample_energy : bool) (starting_vis : option ndarray)
    (min_length : Z) (st : State W) :
  min_length <> 0%Z ->
  sample_model linear_anneal n iters sample_iter_indices start_temp final_temp callback
    init_method training_examples sample_energy starting_vis min_length 0 st
  = sample_model linear_anneal n iters sample_iter_indices start_temp final_temp callback
      init_method training_examples sample_energy starting_vis min_length
      (Z.of_nat (maxlen (codec (model st)))) st.
Proof.
  intros Hmin. unfold sample_model.
  pose proof (sample_model_start init_method n training_examples starting_vis st) as Hframe.
  unfold bind at 1 3.
  destruct (match starting_vis with
            | Some v => ret v
            | None => starting_visible_configs init_method n training_examples
            end st) as [[vis|e] st1]; [|done].
  simpl in Hframe. destruct (Z.eqb_spec min_length 0) as [|_]; [done|]. simpl.
  rewrite !(bind_ok get _ st1 st1 st1 eq_refl). rewrite Hframe.
  by destruct (Z.of_nat (maxlen (codec (model st))) =? 0)%Z.
Qed.

Lemma sample_model_max_length_zero_witness :
  sample_model LINEAR_ANNEAL 2 3 [2%Z] 1 1 (Some Demo.keep_strings)
    (Member VisInit.zeros) None false None 2 0 Demo.state0
  = sample_model LINEAR_ANNEAL 2 3 [2%Z] 1 1 (Some Demo.keep_strings)
      (Member VisInit.zeros) None false None 2 5 Demo.state0.
Proof.
  refine (sample_model_max_length_zero LINEAR_ANNEAL 2 3 [2%Z] 1 1 (Some Demo.keep_strings)
            (Member VisInit.zeros) None false None 2 Demo.state0 _).
  lia.
Defined.

(** X14: bounds that are given and that the codec's length does not allow
    are refused with an [AssertionError], but only once the batch to start
    from is made: the store is the one that making it left (the generator
    has moved, the file is read), and it comes before the schedule is
    computed, so before any complaint about [iters] or the temperatures, and
    before any transition or call of the callback. *)
Theorem sample_model_rejects_bounds {W : Type} `{Collaborators W}
    (linear_anneal : Z) (n : nat) (iters : Z) (sample_iter_indices : list Z)
    (start_temp final_temp : float) (callback : option (PyCallable W))
    (init_method : init_arg) (training_examples : option string)
    (sample_energy : bool) (starting_vis : option ndarray)
    (min_length max_length : Z) (st : State W) :
  ~ (min_length = 0 /\ max_length = 0)%Z ->
  ~ (1 <= (if (max_length =? 0)%Z then Z.of_nat (maxlen (codec (model st))) else max_length)
       <= Z.of_nat (maxlen (codec (model st))))%Z \/
  ~ (0 <= min_length <= Z.of_nat (maxlen (codec (model st))))%Z ->
  sample_model linear_anneal n iters sample_iter_indices start_temp final_temp callback
    init_method training_examples sample_energy starting_vis min_length max_length st
  = match (match starting_vis with
           | Some v => ret v
           | None => starting_visible_configs init_method n training_examples
           end) st with
    | (Ok _, st1) => (Raise (AssertionError ""), st1)
    | (Raise e, st1) => (Raise e, st1)
    end.
Proof.
  intros Hgiven Hbad. unfold sample_model.
  pose proof (sample_model_start init_method n training_examples starting_vis st) as Hframe.
  unfold bind at 1.
  destruct (match starting_vis with
            | Some v => ret v
            | None => starting_visible_configs init_method n training_examples
            end st) as [[vis|e] st1]; [|done].
  simpl in Hframe.
  assert (Hcond : negb (min_length =? 0)%Z || negb (max_length =? 0)%Z = true).
  { destruct (Z.eqb_spec min_length 0); destruct (Z.eqb_spec max_length 0); simpl; tauto. }
  rewrite Hcond. rewrite (bind_ok get _ st1 st1 st1 eq_refl).
  unfold with_shrink_model. rewrite (bind_ok get _ st1 st1 st1 eq_refl).
  unfold lift_result at 1. rewrite init_rejects; [reflexivity|]. by rewrite Hframe.
Qed.

Lemma sample_model_rejects_bounds_witness :
  sample_model LINEAR_ANNEAL 2 0 [2%Z] 1 1 (Some Demo.keep_strings)
    (Member VisInit.uniform_chars) None false None 0 6 Demo.state0
  = (Raise (AssertionError ""), Demo.state0) /\
  sample_model LINEAR_ANNEAL 2 0 [2%Z] 1 1 (Some Demo.keep_strings)
    (Member VisInit.uniform_chars) None false None (-1) 0 Demo.state0
  = (Raise (AssertionError ""), Demo.state0).
Proof.
  split.
  - refine (sample_model_rejects_bounds LINEAR_ANNEAL 2 0 [2%Z] 1 1 (Some Demo.keep_strings)
              (Member VisInit.uniform_chars) None false None 0 6 Demo.state0 _ _).
    + lia.
    + left. simpl. lia.
  - refine (sample_model_rejects_bounds LINEAR_ANNEAL 2 0 [2%Z] 1 1 (Some Demo.keep_strings)
              (Member VisInit.uniform_chars) None false None (-1) 0 Demo.state0 _ _).
    + lia.
    + right. simpl. lia.
Defined.

(** ** Callbacks that raise *)

Section RaisingCallback.
Context {W : Type} `{Collaborators W}.
Variable linear_anneal : Z.
Variable sample_iter_indices : list Z.
Variable callback : PyCallable W.
Variable sample_energy : bool.
Variables temp_decay temp_delta : float.
Hypothesis Hraises : forall st s sample_strings i,
exists e st', py_call callback (callback_args sample_energy st s sample_strings i) st
              = (Raise e, st').

Local Abbreviation body :=
(loop_body linear_anneal sample_iter_indices callback sample_energy temp_decay temp_delta).
Local Abbreviation loop :=
(for_loop linear_anneal sample_iter_indices callback sample_energy temp_decay temp_delta).

Lemma loop_body_callback_raises (i : Z) (s : loop_state) (st : State W) :
sample_iter_indices !! Loop.next_sample_metaindex s = Some i ->
exists e st', body i s st = (Raise e, st').
Proof.
intros Hsome. unfold loop_body, list_getitem. rewrite Hsome.
rewrite (bind_ok (ret i) _ st i st eq_refl). case_decide; [|done].
destruct (np_iter (Loop.vis s)) as [rows|e] eqn:Hrows.
- destruct (Hraises st s ((fun v => decode (codec (model st)) v true false) <$> rows) i)
    as (e & st' & Hcall).
  exists e, st'. erewrite bind_raise; [reflexivity|].
  eapply take_samples_raises; [exact Hrows | exact Hcall].
- exists e, st. erewrite bind_raise; [reflexivity|].
  unfold take_samples. rewrite (bind_ok get _ st st st eq_refl).
  unfold lift_result, bind. by rewrite Hrows.
Qed.

(** The loop raises or ends without having recorded anything. *)
Lemma for_loop_callback_raises (indices : list Z) (s : loop_state) (st : State W) :
Loop.samples s = [] ->
(exists e st', loop indices s st = (Raise e, st')) \/
(exists s' st', loop indices s st = (Ok (Continue, s'), st') /\ Loop.samples s' = []).
Proof.
revert s st. induction indices as [|i indices IH]; intros s st Hnil; simpl.
- right. by exists s, st.
- destruct (sample_iter_indices !! Loop.next_sample_metaindex s) as [pending|] eqn:Hp.
  + destruct (decide (i = pending)) as [->|Hne].
    * left. destruct (loop_body_callback_raises pending s st Hp) as (e & st' & Hbody).
      exists e, st'. by rewrite (bind_raise _ _ _ _ _ Hbody).
    * rewrite (bind_ok _ _ _ _ _
                 (loop_body_skip _ _ _ _ _ _ i pending s st Hp Hne)).
      by apply IH.
  + left. exists IndexError, st.
    by rewrite (bind_raise _ _ _ _ _ (loop_body_no_pending _ _ _ _ _ _ i s st Hp)).
Qed.

End RaisingCallback.

Lemma sample_model_callback_raises {W : Type} `{Collaborators W} (linear_anneal : Z)
    (vis : ndarray) (iters : Z) (sample_iter_indices : list Z)
    (start_temp final_temp : float) (callback : PyCallable W) (sample_energy : bool)
    (st : State W) :
  (forall st s sample_strings i,
     exists e st', py_call callback (callback_args sample_energy st s sample_strings i) st
                   = (Raise e, st')) ->
  exists e st',
    _sample_model linear_anneal vis iters sample_iter_indices start_temp final_temp
      callback sample_energy st = (Raise e, st').
Proof.
  intros Hraises. unfold _sample_model, lift_result.
  destruct (schedule start_temp final_temp iters) as [consts|e] eqn:Hconsts.
  - rewrite (bind_ok (fun s0 => (Ok consts, s0)) _ st consts st eq_refl).
    destruct (for_loop_callback_raises linear_anneal sample_iter_indices callback
                sample_energy consts.1 consts.2 Hraises (range_int iters)
                (initial vis start_temp) st eq_refl)
      as [(e & st' & Hloop)|(s' & st' & Hloop & Hnil)].
    + exists e, st'. by rewrite (bind_raise _ _ _ _ _ Hloop).
    + exists IndexError, st'. rewrite (bind_ok _ _ _ _ _ Hloop).
      unfold list_last. simpl. by rewrite Hnil.
  - exists e, st. reflexivity.
Qed.

(** The default callback, called as the loop calls it when no energy is
    asked for. *)
Lemma print_sample_callback_obj_two_args {W : Type} `{Collaborators W}
    (st : State W) (s : loop_state) (sample_strings : list string) (i : Z) :
  py_call print_sample_callback_obj (callback_args false st s sample_strings i) st
  = (Raise TypeError, st).
Proof. reflexivity. Qed.

(** X15: with the callback and the [sample_energy] that its signature
    gives by default ([print_sample_callback], [False]), [sample_model]
    never returns a result, whatever its other arguments: the first
    checkpoint reached calls the callback without an energy, and that call
    raises. *)
Theorem sample_model_default_callback_raises {W : Type} `{Collaborators W}
    (linear_anneal : Z) (n : nat) (iters : Z) (sample_iter_indices : list Z)
    (start_temp final_temp : float) (init_method : init_arg)
    (training_examples : option string) (starting_vis : option ndarray)
    (min_length max_length : Z) (st : State W) :
  exists e st',
    sample_model linear_anneal n iters sample_iter_indices start_temp final_temp
      (Some print_sample_callback_obj) init_method training_examples false starting_vis
      min_length max_length st
    = (Raise e, st').
Proof.
  assert (Hrun : forall vis st1, exists e st',
            _sample_model linear_anneal vis iters sample_iter_indices start_temp final_temp
              print_sample_callback_obj false st1 = (Raise e, st')).
  { intros vis st1. apply sample_model_callback_raises.
    intros st2 s strings i. exists TypeError, st2.
    apply print_sample_callback_obj_two_args. }
  unfold sample_model.
  match goal with |- context [bind ?c _ st] => destruct (c st) as [[vis|e] st1] eqn:Hvis end;
    [|exists e, st1; by rewrite (bind_raise _ _ _ _ _ Hvis)].
  rewrite (bind_ok _ _ _ _ _ Hvis).
  destruct (negb (min_length =? 0)%Z || negb (max_length =? 0)%Z).
  - rewrite (bind_ok get _ st1 st1 st1 eq_refl). unfold with_shrink_model.
    rewrite (bind_ok get _ st1 st1 st1 eq_refl). unfold lift_result at 1.
    destruct (shrink_model.__init__ _ _ _) as [mgr|e]; [|by exists e, st1].
    rewrite (bind_ok (fun s0 => (Ok mgr, s0)) _ st1 mgr st1 eq_refl).
    apply with_raises. intros st2. apply Hrun.
  - apply Hrun.
Qed.

(** ** The model, across a whole call *)

Section LoopFrame.
Context {W : Type} `{Collaborators W}.
Variable linear_anneal : Z.
Variable sample_iter_indices : list Z.
Variable callback : PyCallable W.
Variable sample_energy : bool.
Variables temp_decay temp_delta : float.
Hypothesis Hcallback : forall args, model_frame (py_call callback args).

Lemma frame_take_samples (i : Z) (s : loop_state) :
model_frame (take_samples sample_iter_indices callback sample_energy i s).
Proof.
unfold take_samples. apply frame_bind; [apply frame_get|]. intros st.
apply frame_bind; [apply frame_lift_result|]. intros rows.
apply frame_bind.
- destruct sample_energy; [|apply Hcallback].
  apply frame_bind; [apply frame_get|]. intros st'. apply Hcallback.
- intros _. case_decide; apply frame_ret.
Qed.

Lemma frame_transition (s : loop_state) :
model_frame (transition linear_anneal temp_decay temp_delta s).
Proof. unfold transition. repeat frame_step. Qed.

Lemma frame_loop_body (i : Z) (s : loop_state) :
model_frame (loop_body linear_anneal sample_iter_indices callback sample_energy
               temp_decay temp_delta i s).
Proof.
unfold loop_body. apply frame_bind; [apply frame_list_getitem|]. intros pending.
apply frame_bind.
- case_decide; [apply frame_take_samples|apply frame_ret].
- intros [[] s']; [|apply frame_ret].
  apply frame_bind; [apply frame_transition|]. intros; apply frame_ret.
Qed.

Lemma frame_for_loop (indices : list Z) (s : loop_state) :
model_frame (for_loop linear_anneal sample_iter_indices callback sample_energy
               temp_decay temp_delta indices s).
Proof.
revert s. induction indices as [|i indices IH]; intros s; simpl; [apply frame_ret|].
apply frame_bind; [apply frame_loop_body|]. intros [[] s']; [apply IH|apply frame_ret].
Qed.

End LoopFrame.

Lemma frame_sample_model {W : Type} `{Collaborators W} (linear_anneal : Z)
    (vis : ndarray) (iters : Z) (sample_iter_indices : list Z)
    (start_temp final_temp : float) (callback : PyCallable W) (sample_energy : bool) :
  (forall args, model_frame (py_call callback args)) ->
  model_frame (_sample_model linear_anneal vis iters sample_iter_indices start_temp
                 final_temp callback sample_energy).
Proof.
  intros Hcallback. unfold _sample_model.
  apply frame_bind; [apply frame_lift_result|]. intros consts.
  apply frame_bind; [by apply frame_for_loop|]. intros r.
  apply frame_bind; [apply frame_list_last|]. intros; apply frame_ret.
Qed.

Lemma frame_lambda_none {W : Type} (args : list PyVal) :
  model_frame (W := W) (py_call lambda_none args).
Proof. unfold py_call. case_decide; [apply frame_ret|apply frame_raise]. Qed.

(** The scope keeps the model, at one store. *)
Lemma scope_keeps_model {W A : Type} (padidx : nat) (min_length max_length : Z)
    (body : SE (State W) A) (st : State W) :
  wf_model (model st) padidx ->
  keeps_model padidx body ->
  model (with_shrink_model min_length max_length body st).2 = model st.
Proof.
  intros Hwf Hbody.
  destruct (decide ((1 <= max_length <= Z.of_nat (maxlen (codec (model st))))%Z /\
                    (0 <= min_length <= Z.of_nat (maxlen (codec (model st))))%Z))
    as [[Hmax Hmin]|Hbad].
  - by destruct (scope_run padidx min_length max_length body st Hwf Hmax Hmin Hbody)
      as (b & _ & _ & _ & ->).
  - unfold with_shrink_model, bind, get, lift_result.
    rewrite init_rejects; [done|].
    destruct (decide (1 <= max_length <= Z.of_nat (maxlen (codec (model st))))%Z);
      [right|left]; tauto.
Qed.

(** X16: on a well-formed model, and with a callback that leaves the
    model alone, a call of [sample_model] leaves the model exactly as it
    was: codec and every bias, whatever the arguments, with bounds or
    without, and whether the call returns or raises at any point. The
    adjustment of the biases never outlives the call. *)
Theorem sample_model_keeps_model {W : Type} `{Collaborators W} (padidx : nat)
    (linear_anneal : Z) (n : nat) (iters : Z) (sample_iter_indices : list Z)
    (start_temp final_temp : float) (callback : option (PyCallable W))
    (init_method : init_arg) (training_examples : option string)
    (sample_energy : bool) (starting_vis : option ndarray)
    (min_length max_length : Z) :
  (forall f args, callback = Some f -> model_frame (py_call f args)) ->
  keeps_model padidx
    (sample_model linear_anneal n iters sample_iter_indices start_temp final_temp callback
       init_method training_examples sample_energy starting_vis min_length max_length).
Proof.
  intros Hcallback st Hwf. unfold sample_model.
  pose proof (sample_model_start init_method n training_examples starting_vis st) as Hstart.
  unfold bind at 1.
  destruct (match starting_vis with
            | Some v => ret v
            | None => starting_visible_configs init_method n training_examples
            end st) as [[vis|e] st1]; [|done].
  simpl in Hstart. rewrite <- Hstart in *.
  assert (Hrun : model_frame
            (_sample_model linear_anneal vis iters sample_iter_indices start_temp final_temp
               match callback with
               | Some f => f
               | None => lambda_none
               end sample_energy)).
  { apply frame_sample_model. intros args.
    destruct callback as [f|]; [by apply Hcallback|apply frame_lambda_none]. }
  destruct (negb (min_length =? 0)%Z || negb (max_length =? 0)%Z); [|apply Hrun].
  rewrite (bind_ok get _ st1 st1 st1 eq_refl).
  apply (scope_keeps_model padidx); [done|]. intros st2 _. apply Hrun.
Qed.

Lemma sample_model_keeps_model_witness :
  model (sample_model LINEAR_ANNEAL 2 3 [2%Z] 1 1 (Some Demo.keep_strings)
           (Member VisInit.chunks) None false None 2 3 Demo.state0).2
  = Demo.model0.
Proof.
  refine (sample_model_keeps_model 3 LINEAR_ANNEAL 2 3 [2%Z] 1 1 (Some Demo.keep_strings)
            (Member VisInit.chunks) None false None 2 3 _ Demo.state0 _).
  - intros f args [= <-]. unfold py_call. case_decide; [|apply frame_raise].
    destruct args as [|[] args]; simpl; auto with frame.
  - split; [reflexivity|]. split; [simpl; lia | reflexivity].
Defined.

(** ** What the sample recorder returns *)

(** X17: whenever [print_sample_callback] returns, an energy was given,
    the text is the sample strings put end to end, with no separator and no
    energy in it, and the store has changed by at most the one call of
    [logger.debug] on that very text. *)
Theorem print_sample_callback_text {W : Type} `{Collaborators W}
    (sample_strings : list string) (i energy logger : PyVal) (st st' : State W)
    (text : string) :
  print_sample_callback sample_strings i energy logger st = (Ok text, st') ->
  energy <> PyNone /\
  text = str_join sample_strings /\
  ((logger = PyNone /\ st' = st) \/
   (exists handle, logger = PyLogger handle /\
                   st' = {| model := model st; ext := logger_debug handle text (ext st) |})).
Proof.
  unfold print_sample_callback. intros Hrun.
  assert (Hgiven : energy <> PyNone).
  { intros ->. revert Hrun. unfold bind, lift_result. simpl. discriminate. }
  split; [done|].
  assert (Htext : forall st0 : State W,
            match energy with
            | PyNone =>
                pairs <- lift_result (py_zip sample_strings energy) ;;
                ret (str_join ((fun t => t.1 +:+ " " +:+ String (Ascii.ascii_of_nat 9) " "
                                           +:+ format_2f t.2) <$> pairs))
            | _ => ret (str_join sample_strings)
            end st0 = (Ok (str_join sample_strings), st0)).
  { intros st0. by destruct energy. }
  rewrite (bind_ok _ _ _ _ _ (Htext st)) in Hrun.
  destruct logger as [| | | | |handle]; unfold bind, ret, raise, on_ext in Hrun; simpl in Hrun;
    try discriminate; injection Hrun as <- <-; split; try done.
  - by left.
  - right. by exists handle.
Qed.

Lemma print_sample_callback_text_witness :
  PyArray (np_zeros [2]) <> PyNone /\
  "abcd" = str_join ["ab"; "cd"] /\
  ((PyLogger 7 = PyNone /\
    {| model := Demo.model0; ext := [Demo.Logged 7 "abcd"] |} = Demo.state0) \/
   (exists handle,
      PyLogger 7 = PyLogger handle /\
      {| model := Demo.model0; ext := [Demo.Logged 7 "abcd"] |}
      = {| model := model Demo.state0;
           ext := logger_debug handle "abcd" (ext Demo.state0) |})).
Proof.
  refine (print_sample_callback_text ["ab"; "cd"] (PyInt 0) (PyArray (np_zeros [2]))
            (PyLogger 7) Demo.state0 _ "abcd" _).
  reflexivity.
Defined.

(** ** What the [biases] strategy hands to the sampler *)

Lemma length_concat_replicate {A : Type} (n : nat) (l : list A) :
  length (concat (replicate n l)) = n * length l.
Proof.
  induction n as [|n IH]; [done|]. simpl. rewrite length_app, IH. lia.
Qed.

(** X18: the default strategy, [biases], gives [utils.softmax_and_sample]
    [n] copies of the bias vector, arranged as [n] rows of [maxlen]
    positions of [nchars] entries, and returns what it gets back as [n] rows
    again; the store changes as the sampler changes it. With a codec of no
    position or no symbol the reshape before the sampler is numpy's
    [ValueError] on an array of size 0, which names the codec's shape. *)
Theorem starting_visible_configs_biases {W : Type} `{Collaborators W}
    (n : nat) (training_examples_fname : option string) (st : State W) :
  length (intercept_visible_ (model st))
    = maxlen (codec (model st)) * nchars (codec (model st)) ->
  starting_visible_configs (Member VisInit.biases) n training_examples_fname st
  = if decide (maxlen (codec (model st)) * nchars (codec (model st)) = 0)
    then (Raise (ValueError ("cannot reshape array of size 0 into shape ("
                             +:+ pretty (maxlen (codec (model st))) +:+ ","
                             +:+ pretty (nchars (codec (model st))) +:+ ")")), st)
    else (sampled <- on_ext_fallible
                       (softmax_and_sample
                          {| shape := [n; maxlen (codec (model st)); nchars (codec (model st))];
                             data := Float64 (concat (replicate n
                                                (intercept_visible_ (model st)))) |}) ;;
          lift_result (np_reshape sampled
                         [n; maxlen (codec (model st)) * nchars (codec (model st))])) st.
Proof.
  intros Hlen. unfold starting_visible_configs.
  rewrite (bind_ok get _ st st st eq_refl).
  unfold np_reshape_infer, np_tile, codec_shape, size_of. simpl.
  rewrite length_concat_replicate, Hlen, Nat.mul_1_r.
  destruct (decide (maxlen (codec (model st)) * nchars (codec (model st)) = 0)) as [Hz|Hnz].
  - rewrite Hz, Nat.mul_0_r. reflexivity.
  - rewrite Nat.Div0.mod_mul. destruct (decide (0 = 0)) as [_|]; [|done].
    rewrite Nat.div_mul by done. reflexivity.
Qed.

Lemma starting_visible_configs_biases_witness :
  starting_visible_configs (Member VisInit.biases) 2 None Demo.state0
  = (Ok {| shape := [2; 20]; data := Float64 (replicate 40 0%float) |}, Demo.state0) /\
  starting_visible_configs (Member VisInit.biases) 2 None
    {| model := {| codec := {| maxlen := 5; nchars := 0; filler := "$";
                               char_lookup := ∅ |};
                   intercept_visible_ := [] |};
       ext := [] : Demo.world |}
  = (Raise (ValueError "cannot reshape array of size 0 into shape (5,0)"),
     {| model := {| codec := {| maxlen := 5; nchars := 0; filler := "$";
                                char_lookup := ∅ |};
                    intercept_visible_ := [] |};
        ext := [] |}).
Proof.
  split.
  - refine (starting_visible_configs_biases 2 None Demo.state0 _). reflexivity.
  - refine (starting_visible_configs_biases 2 None _ _). reflexivity.
Defined.
